(** * Iron condor strategy engine: a shallow embedding and its properties

    This development embeds the decision core of the options trading
    application (date_utils.py, models.py, iron_condor_strategy.py and
    [close_all_positions] of main.py) and settles the properties stated
    about it.

    Conventions of the embedding.
    - Python [int] is [Z].  Python [float] (prices, premiums, thresholds) is
      idealised as an exact rational [Q]: comparisons and arithmetic are the
      mathematical ones, and a division by zero raises [ZeroDivisionError]
      as it does in Python; NaN and infinities have no counterpart.
    - [datetime.date] is its proleptic Gregorian ordinal (day 1 is
      0001-01-01, a Monday), with the range check of the datetime module.
    - A [dict] whose iteration order matters is an association list in
      insertion order; the chain cache and the order book, which are only
      looked up by key, are [gmap]s.
    - The broker gateway is a parameter: each of its operations answers from
      the history of calls made so far.
    - Every method body runs in a small state-and-exception monad; the
      records at level INFO and above that the engine's logger receives are
      kept in the state. *)

From Stdlib Require Import ZArith QArith Qround Lia Ascii String.
From stdpp Require Import gmap strings list fin_maps.

Open Scope Z_scope.

(** ** Python numerics *)

Module Py.

(** [int(x)] for a float [x]: truncation toward zero. *)
Definition int (x : Q) : Z := Z.quot (Qnum x) (Zpos (Qden x)).

(** [round(n / d)] for integers [n], [d] with [0 < d]: true division
    followed by the built-in [round], which rounds half to even. *)
Definition round_div (n d : Z) : Z :=
  let q := n / d in
  let r := n mod d in
  if 2 * r <? d then q
  else if d <? 2 * r then q + 1
  else if Z.even q then q else q + 1.

(** [abs(n)] *)
Definition abs (n : Z) : Z := Z.abs n.

(** Truthiness of a [str]. *)
Definition truthy_str (s : string) : bool :=
  match s with EmptyString => false | _ => true end.

(** Truthiness of an [Optional[str]]. *)
Definition truthy_ostr (s : option string) : bool :=
  match s with Some s => truthy_str s | None => false end.

(** Truthiness of an [Optional[int]]: [None] and [0] are falsy. *)
Definition truthy_oint (n : option Z) : bool :=
  match n with Some n => negb (n =? 0) | None => false end.

End Py.

(** ** date_utils.py *)

Module DateUtils.

(** [date.min.toordinal()] and [date.max.toordinal()]. *)
Definition MINORD : Z := 1.
Definition MAXORD : Z := 3652059.

(** Largest magnitude of [timedelta.days]. *)
Definition MAXDELTA : Z := 999999999.

Definition valid_date (d : Z) : Prop := MINORD <= d <= MAXORD.

(** [date.weekday()]: Monday is 0, Sunday is 6. *)
Definition weekday (d : Z) : Z := (d + 6) mod 7.

(** [datetime.timedelta(weeks=w, days=d)], in days; [None] stands for the
    [OverflowError] raised outside the representable range. *)
Definition timedelta (weeks days : Z) : option Z :=
  let n := 7 * weeks + days in
  if Z.abs n <=? MAXDELTA then Some n else None.

(** [date + timedelta]; [None] stands for [OverflowError]. *)
Definition date_add (d delta : Z) : option Z :=
  let r := d + delta in
  if (MINORD <=? r) && (r <=? MAXORD) then Some r else None.

(** [get_expiry_date_n_weeks_ahead(weeks)], with the value of
    [datetime.date.today()] at call time as a parameter.  The [try] block is
    the chain of binds; any exception gives [None]. *)
Definition get_expiry_date_n_weeks_ahead (today weeks : Z) : option Z :=
  w ← timedelta weeks 0;
  target_date ← date_add today w;
  let days_to_add := (3 - weekday target_date) mod 7 in
  d ← timedelta 0 days_to_add;
  date_add target_date d.

End DateUtils.

(** ** Strike selection of [place_short_strangle] (lines 263-270) *)

Definition strangle_strikes (spot_price strangle_distance : Q) : Z * Z :=
  let ce_strike := Py.int (spot_price + strangle_distance) in
  let pe_strike := Py.int (spot_price - strangle_distance) in
  let ce_strike := Py.round_div ce_strike 50 * 50 in
  let pe_strike := Py.round_div pe_strike 50 * 50 in
  (ce_strike, pe_strike).

(** ** models.py *)

Inductive OrderType := MARKET | LIMIT | SL | SL_M.
Inductive OrderSide := BUY | SELL.
Inductive OrderStatus := PENDING | OPEN | COMPLETE | REJECTED | CANCELLED.
Inductive ProductType := NRML | MIS | CNC.
Inductive OptionType := CE | PE.

#[global] Instance OrderSide_eq_dec : EqDecision OrderSide.
Proof. solve_decision. Defined.
#[global] Instance OptionType_eq_dec : EqDecision OptionType.
Proof. solve_decision. Defined.

(** The [.value] of an [OptionType] member, the key of a chain row. *)
Definition value (t : OptionType) : string :=
  match t with CE => "CE" | PE => "PE" end.

(** [ProductType(s)]; [None] stands for the [ValueError] of a string that
    names no member. *)
Definition ProductType_of_string (s : string) : option ProductType :=
  if String.eqb s "NRML" then Some NRML
  else if String.eqb s "MIS" then Some MIS
  else if String.eqb s "CNC" then Some CNC
  else None.

(** [datetime.datetime]: the date as an ordinal, and the time of day. *)
Record datetime := {
  dt_date : Z;
  dt_hour : Z;
  dt_minute : Z
}.

(** [dt.date()] *)
Definition date (dt : datetime) : Z := dt_date dt.

(** [datetime.datetime.combine(d, datetime.time(h, m))] *)
Definition combine (d h m : Z) : datetime :=
  {| dt_date := d; dt_hour := h; dt_minute := m |}.

Record Order := {
  ord_symbol : string;
  ord_exchange : string;
  ord_order_type : OrderType;
  ord_side : OrderSide;
  ord_quantity : Z;
  ord_product : ProductType;
  ord_price : Q;
  ord_trigger_price : Q;
  ord_order_id : option string;
  ord_status : OrderStatus;
  ord_option_type : option OptionType;
  ord_strike_price : option Z;
  ord_expiry_date : option datetime;
  ord_is_hedge : bool;
  ord_is_martingale : bool
}.

Record Position := {
  pos_symbol : string;
  pos_exchange : string;
  pos_quantity : Z;
  pos_average_price : Q;
  pos_side : OrderSide;
  pos_product : ProductType;
  pos_option_type : option OptionType;
  pos_strike_price : option Z;
  pos_expiry_date : option datetime;
  pos_is_hedge : bool;
  pos_is_martingale : bool;
  pos_pnl : Q
}.

Record OptionContract := {
  oc_symbol : string;
  oc_strike_price : Z;
  oc_option_type : OptionType;
  oc_expiry_date : datetime;
  oc_last_price : Q;
  oc_change_percent : Q;
  oc_volume : Z;
  oc_open_interest : Z;
  oc_bid_price : Q;
  oc_ask_price : Q
}.

(** Insertion-ordered dictionaries, for the dicts the engine iterates. *)
Module Dict.
Section Dict.
Context {K V : Type} `{EqDecision K}.

(** [d.get(k)], also [d[k]] once [k in d] is known *)
Fixpoint get (d : list (K * V)) (k : K) : option V :=
  match d with
  | [] => None
  | (k', v) :: d' => if decide (k = k') then Some v else get d' k
  end.

(** [k in d] *)
Definition contains (d : list (K * V)) (k : K) : bool :=
  match get d k with Some _ => true | None => false end.

(** [d[k] = v]: an existing key keeps its place, a new one goes last. *)
Fixpoint set (d : list (K * V)) (k : K) (v : V) : list (K * V) :=
  match d with
  | [] => [(k, v)]
  | (k', v') :: d' =>
      if decide (k = k') then (k, v) :: d' else (k', v') :: set d' k v
  end.

(** [list(d)], the keys in iteration order *)
Definition keys (d : list (K * V)) : list K := map fst d.

(** [list(d.values())] *)
Definition values (d : list (K * V)) : list V := map snd d.
End Dict.
End Dict.

(** [OptionChain]: [contracts] maps a strike to the row of its contracts,
    itself a dict keyed by ["CE"] and ["PE"]. *)
Record OptionChain := {
  chain_expiry_date : datetime;
  chain_spot_price : Q;
  contracts : list (Z * gmap string OptionContract)
}.

(** [option_chain.contracts[strike][option_type.value]] behind the two
    membership tests that guard it. *)
Definition contract_at (chain : OptionChain) (strike : Z) (t : OptionType)
    : option OptionContract :=
  row ← Dict.get (contracts chain) strike; row !! value t.

(** *** Payloads of the broker gateway (the [dict]s of its JSON answers);
    a field is [None] when its key is absent. *)

Record RawPosition := {
  rp_tradingSymbol : option string;
  rp_exchange : option string;
  rp_netQuantity : option Z;
  rp_averagePrice : option Q;
  rp_product : option string;
  rp_pnl : option Q
}.

Record RawContract := {
  rc_tradingSymbol : option string;
  rc_strikePrice : option Z;
  rc_optionType : option string;
  rc_lastPrice : option Q;
  rc_changePercent : option Q;
  rc_volume : option Z;
  rc_openInterest : option Z;
  rc_bidPrice : option Q;
  rc_askPrice : option Q
}.

Record RawChain := {
  rch_spotPrice : option Q;
  rch_strikePrices : option (list (string * gmap string RawContract))
}.

Record RawExpiry := {
  re_expiryDate : option string;
  re_timestamp : option string
}.

Record RawMaster := {
  rm_expiryDates : option (list RawExpiry);
  rm_token : option string
}.

Record RawQuote := { rq_lastPrice : option Q }.

Record OrderResponse := { orderId : option string }.

(** The [order_params] dict handed to [place_order]. *)
Record OrderParams := {
  trading_symbol : string;
  exchange : string;
  transaction_type : OrderSide;
  order_type : OrderType;
  quantity : Z;
  product : ProductType;
  price : Q;
  trigger_price : option Q
}.

(** ** Exceptions and results *)

Inductive Exn := ZeroDivisionError | ValueError | OverflowError | KeyError.

Inductive Result (A : Type) :=
  | Ok (a : A)
  | Raise (e : Exn).
Arguments Ok {A} a.
Arguments Raise {A} e.

(** Python built-ins that the models call and that are taken as given:
    [int(s)] on a [str], [datetime.strptime(s, "%Y-%m-%d").date()] and
    [str.upper()].  [None] stands for the [ValueError] they raise. *)
Record Builtins := {
  int_of_str : string -> option Z;
  strptime : string -> option Z;
  upper : string -> string
}.

(** *** Symbol parsers of [Order] and [Position] *)

Module Symbol.

Definition isdigit (c : ascii) : bool :=
  let n := nat_of_ascii c in (48 <=? n)%nat && (n <=? 57)%nat.

(** [s.startswith(p)] *)
Definition startswith (s p : string) : bool := String.prefix p s.

(** [s.endswith(p)] *)
Definition endswith (s p : string) : bool :=
  String.prefix (String.rev p) (String.rev s).

(** [s[i:j]] for [0 <= i] and [0 <= j] *)
Definition slice (s : string) (i j : nat) : string :=
  String.substring i (j - i) s.

(** Proleptic Gregorian ordinal of year [y], month [m], day [d]
    ([datetime.date(y, m, d).toordinal()]), for a valid date. *)
Definition is_leap (y : Z) : bool :=
  (y mod 4 =? 0) && (negb (y mod 100 =? 0) || (y mod 400 =? 0)).

Definition days_before_year (y : Z) : Z :=
  let y := y - 1 in y * 365 + y / 4 - y / 100 + y / 400.

Definition days_before_month (y m : Z) : Z :=
  let base := nth (Z.to_nat (m - 1))
    [0; 31; 59; 90; 120; 151; 181; 212; 243; 273; 304; 334] 0 in
  if (2 <? m) && is_leap y then base + 1 else base.

Definition ymd_to_ord (y m d : Z) : Z :=
  days_before_year y + days_before_month y m + d.

Section Parsers.
Variable py : Builtins.

(** The loop of [_extract_strike_from_symbol]: index [i], then downwards.
    [Some r] is the [return] taken at the first non-digit, where [r] is
    what [int(symbol[i+1:-2])] gives; [None] is the loop running out. *)
Fixpoint strike_scan (symbol : string) (i : nat) : option (option Z) :=
  let at_i (rest : option (option Z)) :=
    match String.get i symbol with
    | Some c =>
        if negb (isdigit c)
        then Some (int_of_str py
                     (slice symbol (i + 1) (String.length symbol - 2)))
        else rest
    | None => rest
    end in
  match i with
  | O => at_i None
  | S j => at_i (strike_scan symbol j)
  end.

(** [_extract_strike_from_symbol(symbol)]; the bare [except] turns the
    [ValueError] of [int] into [None]. *)
Definition _extract_strike_from_symbol (symbol : string) : option Z :=
  if endswith symbol "CE" || endswith symbol "PE" then
    match strike_scan symbol (String.length symbol - 2) with
    | Some r => r
    | None => None
    end
  else None.

Definition month_map (m : string) : Z :=
  let months := ["JAN"; "FEB"; "MAR"; "APR"; "MAY"; "JUN";
                 "JUL"; "AUG"; "SEP"; "OCT"; "NOV"; "DEC"] in
  match list_find (String.eqb m) months with
  | Some (i, _) => Z.of_nat i + 1
  | None => 1
  end.

(** [_extract_expiry_from_symbol(symbol)] *)
Definition _extract_expiry_from_symbol (symbol : string) : option datetime :=
  if startswith symbol "NIFTY" then
    match int_of_str py (slice symbol 5 7) with
    | Some yy =>
        let year := 2000 + yy in
        let month_str := slice symbol 7 10 in
        let month := month_map (upper py month_str) in
        if (1 <=? year) && (year <=? 9999)
        then Some (combine (ymd_to_ord year month 15) 15 30)
        else None
    | None => None
    end
  else None.
End Parsers.

End Symbol.

(** [Position.from_api_response(data)]; the flags [is_hedge] and
    [is_martingale] keep their defaults. *)
Definition Position_from_api_response (py : Builtins) (data : RawPosition)
    : Result Position :=
  let symbol := default "" (rp_tradingSymbol data) in
  let net := default 0 (rp_netQuantity data) in
  let side := if 0 <? net then BUY else SELL in
  match ProductType_of_string (default "NRML" (rp_product data)) with
  | None => Raise ValueError
  | Some product =>
      Ok {| pos_symbol := symbol;
            pos_exchange := default "" (rp_exchange data);
            pos_quantity := Py.abs net;
            pos_average_price := default 0%Q (rp_averagePrice data);
            pos_side := side;
            pos_product := product;
            pos_option_type :=
              if Symbol.endswith symbol "CE" then Some CE
              else if Symbol.endswith symbol "PE" then Some PE
              else None;
            pos_strike_price := Symbol._extract_strike_from_symbol py symbol;
            pos_expiry_date := Symbol._extract_expiry_from_symbol py symbol;
            pos_is_hedge := false;
            pos_is_martingale := false;
            pos_pnl := default 0%Q (rp_pnl data) |}
  end.

(** [OptionContract.from_api_response(data, expiry_date)] *)
Definition OptionContract_from_api_response (data : RawContract)
    (expiry_date : datetime) : OptionContract :=
  {| oc_symbol := default "" (rc_tradingSymbol data);
     oc_strike_price := default 0 (rc_strikePrice data);
     oc_option_type :=
       if String.eqb (default "" (rc_optionType data)) "CE" then CE else PE;
     oc_expiry_date := expiry_date;
     oc_last_price := default 0%Q (rc_lastPrice data);
     oc_change_percent := default 0%Q (rc_changePercent data);
     oc_volume := default 0 (rc_volume data);
     oc_open_interest := default 0 (rc_openInterest data);
     oc_bid_price := default 0%Q (rc_bidPrice data);
     oc_ask_price := default 0%Q (rc_askPrice data) |}.

(** One turn of the loop of [OptionChain.from_api_response]: the row of a
    strike starts empty and receives the CE and the PE contract that the
    payload has. *)
Definition chain_row (strike_data : gmap string RawContract)
    (expiry_date : datetime) : gmap string OptionContract :=
  let row : gmap string OptionContract := ∅ in
  let row := match strike_data !! "CE" with
             | Some d => <["CE" := OptionContract_from_api_response d expiry_date]> row
             | None => row
             end in
  match strike_data !! "PE" with
  | Some d => <["PE" := OptionContract_from_api_response d expiry_date]> row
  | None => row
  end.

Fixpoint chain_rows (py : Builtins)
    (items : list (string * gmap string RawContract))
    (expiry_date : datetime) (acc : list (Z * gmap string OptionContract))
    : Result (list (Z * gmap string OptionContract)) :=
  match items with
  | [] => Ok acc
  | (strike_str, strike_data) :: items' =>
      match int_of_str py strike_str with
      | None => Raise ValueError
      | Some strike =>
          chain_rows py items' expiry_date
            (Dict.set acc strike (chain_row strike_data expiry_date))
      end
  end.

(** [OptionChain.from_api_response(data, expiry_date)] *)
Definition OptionChain_from_api_response (py : Builtins) (data : RawChain)
    (expiry_date : datetime) : Result OptionChain :=
  let spot_price := default 0%Q (rch_spotPrice data) in
  match chain_rows py (default [] (rch_strikePrices data)) expiry_date [] with
  | Raise e => Raise e
  | Ok contracts =>
      Ok {| chain_expiry_date := expiry_date;
            chain_spot_price := spot_price;
            contracts := contracts |}
  end.

(** ** config_structure.py: the entries the engine reads *)

Record Config := {
  (* INVESTMENT_CONFIG *)
  base_investment : Q;
  lot_size : Z;
  lots_per_investment : Z;
  investment_per_lot : Q;
  (* STRATEGY_CONFIG *)
  leg_premium_target : Q;
  strangle_distance : Q;
  sell_expiry_weeks : Z;
  close_after_weeks : Z;
  hedge_expiry_weeks : Z;
  stop_loss_trigger : Q;
  stop_loss_percentage : Q;
  martingale_trigger : Q;
  martingale_quantity_multiplier : Q;
  martingale_premium_divisor : Q
}.

(** ** The broker gateway (mstock_api_client.py, seen from the engine) *)

(** A request sent to the gateway; an order placement is kept with the
    answer it received, [None] being a failed request or an empty payload,
    which the engine treats alike ([if not order_response]). *)
Inductive Call :=
  | GetPositions
  | GetQuote (symbol : string)
  | GetOptionChainMaster
  | GetOptionChain (expiry_timestamp token : string)
  | PlaceOrder (order_params : OrderParams) (response : option OrderResponse)
  | ModifyOrder (order_id : string) (order_params : OrderParams)
  | CancelOrder (order_id : string).

(** Each operation answers from the calls made so far and its arguments. *)
Record Gateway := {
  get_positions : list Call -> option (list RawPosition);
  get_quote : list Call -> string -> option RawQuote;
  get_option_chain_master : list Call -> option RawMaster;
  get_option_chain : list Call -> string -> string -> option RawChain;
  place_order : list Call -> OrderParams -> option OrderResponse
}.

(** ** Log records of the engine's logger *)

Inductive Level := INFO | WARNING | ERROR.

Inductive LogArg :=
  | AStr (s : string)
  | AInt (n : Z)
  | ANum (x : Q)
  | AExn (e : Exn).

Record LogRecord := {
  lr_level : Level;
  lr_message : string;
  lr_args : list LogArg
}.

(** ** The engine ([IronCondorStrategy]) and its world *)

Record State := {
  active_positions : list (string * Position);
  active_orders : gmap string Order;
  option_chains : gmap Z OptionChain;
  calls : list Call;
  log : list LogRecord
}.

Definition set_active_positions (v : list (string * Position)) (s : State) :=
  {| active_positions := v; active_orders := active_orders s;
     option_chains := option_chains s; calls := calls s; log := log s |}.
Definition set_active_orders (v : gmap string Order) (s : State) :=
  {| active_positions := active_positions s; active_orders := v;
     option_chains := option_chains s; calls := calls s; log := log s |}.
Definition set_option_chains (v : gmap Z OptionChain) (s : State) :=
  {| active_positions := active_positions s; active_orders := active_orders s;
     option_chains := v; calls := calls s; log := log s |}.
Definition set_calls (v : list Call) (s : State) :=
  {| active_positions := active_positions s; active_orders := active_orders s;
     option_chains := option_chains s; calls := v; log := log s |}.
Definition set_log (v : list LogRecord) (s : State) :=
  {| active_positions := active_positions s; active_orders := active_orders s;
     option_chains := option_chains s; calls := calls s; log := v |}.

(** *** The monad of method bodies: state, and exceptions that leave the
    state as it was when they were raised. *)

Definition M (A : Type) : Type := State -> Result A * State.

Definition ret {A} (a : A) : M A := fun s => (Ok a, s).

Definition raise {A} (e : Exn) : M A := fun s => (Raise e, s).

Definition bind {A B} (m : M A) (k : A -> M B) : M B :=
  fun s =>
    match m s with
    | (Ok a, s') => k a s'
    | (Raise e, s') => (Raise e, s')
    end.

(** [try: m  except Exception as e: h e] *)
Definition try_except {A} (m : M A) (h : Exn -> M A) : M A :=
  fun s =>
    match m s with
    | (Ok a, s') => (Ok a, s')
    | (Raise e, s') => h e s'
    end.

Notation "x <- m ;; k" := (bind m (fun x => k))
  (at level 100, m at next level, right associativity).
Notation "m ;; k" := (bind m (fun _ => k))
  (at level 100, right associativity).

Definition lift {A} (r : Result A) : M A := fun s => (r, s).

Definition get_state : M State := fun s => (Ok s, s).

Definition modify (f : State -> State) : M unit := fun s => (Ok tt, f s).

(** [for x in l: body x] *)
Fixpoint for_each {A} (l : list A) (body : A -> M unit) : M unit :=
  match l with
  | [] => ret tt
  | x :: l' => body x ;; for_each l' body
  end.

(** [self.logger.info / warning / error] *)
Definition logger (lvl : Level) (msg : string) (args : list LogArg) : M unit :=
  modify (fun s =>
    set_log (log s ++ [{| lr_level := lvl; lr_message := msg;
                          lr_args := args |}]) s).

(** Float division [a / b]. *)
Definition truediv (a b : Q) : M Q :=
  if Qeq_bool b 0 then raise ZeroDivisionError else ret (a / b)%Q.

(** The orders of a trace: those submitted to the gateway, and those it
    accepted. *)
Definition submitted (cs : list Call) : list OrderParams :=
  omap (fun c => match c with PlaceOrder p _ => Some p | _ => None end) cs.

Definition placed (cs : list Call) : list OrderParams :=
  omap (fun c => match c with
                 | PlaceOrder p (Some _) => Some p
                 | _ => None
                 end) cs.

(** Requests that withdraw or alter an order already sent. *)
Definition is_cancel_or_modify (c : Call) : bool :=
  match c with
  | ModifyOrder _ _ | CancelOrder _ => true
  | _ => false
  end.

(** ** iron_condor_strategy.py *)

Section Engine.

Variable py : Builtins.
Variable api : Gateway.
Variable config : Config.

(** *** Calls through [self.api] *)

Definition api_get_positions : M (option (list RawPosition)) :=
  fun s => (Ok (get_positions api (calls s)),
            set_calls (calls s ++ [GetPositions]) s).

Definition api_get_quote (symbol : string) : M (option RawQuote) :=
  fun s => (Ok (get_quote api (calls s) symbol),
            set_calls (calls s ++ [GetQuote symbol]) s).

Definition api_get_option_chain_master : M (option RawMaster) :=
  fun s => (Ok (get_option_chain_master api (calls s)),
            set_calls (calls s ++ [GetOptionChainMaster]) s).

Definition api_get_option_chain (expiry_timestamp token : string)
    : M (option RawChain) :=
  fun s => (Ok (get_option_chain api (calls s) expiry_timestamp token),
            set_calls (calls s ++ [GetOptionChain expiry_timestamp token]) s).

Definition api_place_order (order_params : OrderParams)
    : M (option OrderResponse) :=
  fun s =>
    let response := place_order api (calls s) order_params in
    (Ok response, set_calls (calls s ++ [PlaceOrder order_params response]) s).

(** [if order.order_id: self.active_orders[order.order_id] = order] *)
Definition record_order (order : Order) : M unit :=
  match ord_order_id order with
  | Some id =>
      if Py.truthy_str id
      then modify (fun s => set_active_orders (<[id := order]> (active_orders s)) s)
      else ret tt
  | None => ret tt
  end.

(** *** [_get_current_price] (lines 138-160) *)

Definition _get_current_price (symbol : string) : M (option Q) :=
  try_except
    (quote <- api_get_quote symbol ;;
     match quote with
     | Some quote =>
         let price := default 0%Q (rq_lastPrice quote) in
         ret (Some price)
     | None =>
         logger WARNING "Failed to get quote for {}" [AStr symbol] ;;
         ret None
     end)
    (fun e =>
       logger ERROR "Error getting current price for {}: {}"
         [AStr symbol; AExn e] ;;
       ret None).

(** *** [_update_position_pnl] (lines 116-136) *)

Definition with_pnl (position : Position) (pnl : Q) : Position :=
  {| pos_symbol := pos_symbol position;
     pos_exchange := pos_exchange position;
     pos_quantity := pos_quantity position;
     pos_average_price := pos_average_price position;
     pos_side := pos_side position;
     pos_product := pos_product position;
     pos_option_type := pos_option_type position;
     pos_strike_price := pos_strike_price position;
     pos_expiry_date := pos_expiry_date position;
     pos_is_hedge := pos_is_hedge position;
     pos_is_martingale := pos_is_martingale position;
     pos_pnl := pnl |}.

Definition _update_position_pnl : M unit :=
  try_except
    (s <- get_state ;;
     for_each (active_positions s) (fun item =>
       let symbol := fst item in
       let position := snd item in
       current_price <- _get_current_price symbol ;;
       match current_price with
       | None =>
           logger WARNING "Failed to get current price for {}" [AStr symbol]
       | Some current_price =>
           let pnl :=
             match pos_side position with
             | BUY => ((current_price - pos_average_price position)
                       * inject_Z (pos_quantity position))%Q
             | SELL => ((pos_average_price position - current_price)
                        * inject_Z (pos_quantity position))%Q
             end in
           modify (fun s =>
             set_active_positions
               (Dict.set (active_positions s) symbol (with_pnl position pnl)) s)
       end))
    (fun e => logger ERROR "Error updating position P&L: {}" [AExn e]).

(** *** [_update_positions] (lines 89-114) *)

Definition _update_positions : M unit :=
  logger INFO "Updating active positions" [] ;;
  try_except
    (positions_data <- api_get_positions ;;
     match positions_data with
     | None | Some [] =>
         logger WARNING "No positions data received from API" []
     | Some positions_data =>
         modify (set_active_positions []) ;;
         for_each positions_data (fun position_data =>
           position <- lift (Position_from_api_response py position_data) ;;
           modify (fun s =>
             set_active_positions
               (Dict.set (active_positions s) (pos_symbol position) position)
               s)) ;;
         s <- get_state ;;
         logger INFO "Updated {} active positions"
           [AInt (Z.of_nat (length (active_positions s)))] ;;
         _update_position_pnl
     end)
    (fun e => logger ERROR "Error updating positions: {}" [AExn e]).

(** *** [get_option_chain_for_expiry] (lines 184-243) *)

(** The search for the expiry timestamp in the chain master: the first
    entry whose date string parses to [expiry_date] decides. *)
Fixpoint find_expiry_timestamp (expiry_dates : list RawExpiry)
    (expiry_date : Z) : Result (option string) :=
  match expiry_dates with
  | [] => Ok None
  | expiry :: rest =>
      if Py.truthy_ostr (re_expiryDate expiry) then
        match strptime py (default "" (re_expiryDate expiry)) with
        | None => Raise ValueError
        | Some expiry_date_obj =>
            if expiry_date_obj =? expiry_date
            then Ok (re_timestamp expiry)
            else find_expiry_timestamp rest expiry_date
        end
      else find_expiry_timestamp rest expiry_date
  end.

Definition get_option_chain_for_expiry (expiry_date : Z)
    : M (option OptionChain) :=
  try_except
    (s <- get_state ;;
     match option_chains s !! expiry_date with
     | Some chain => ret (Some chain)
     | None =>
         option_chain_master <- api_get_option_chain_master ;;
         match option_chain_master with
         | None =>
             logger WARNING "Failed to get option chain master" [] ;;
             ret None
         | Some option_chain_master =>
             expiry_timestamp <-
               lift (find_expiry_timestamp
                       (default [] (rm_expiryDates option_chain_master))
                       expiry_date) ;;
             if negb (Py.truthy_ostr expiry_timestamp) then
               logger WARNING "Expiry date {} not found in option chain master"
                 [AInt expiry_date] ;;
               ret None
             else
               let token := rm_token option_chain_master in
               if negb (Py.truthy_ostr token) then
                 logger WARNING "Token not found in option chain master" [] ;;
                 ret None
               else
                 option_chain_data <-
                   api_get_option_chain (default "" expiry_timestamp)
                     (default "" token) ;;
                 match option_chain_data with
                 | None =>
                     logger WARNING "Failed to get option chain for expiry {}"
                       [AInt expiry_date] ;;
                     ret None
                 | Some option_chain_data =>
                     let expiry_datetime := combine expiry_date 15 30 in
                     option_chain <-
                       lift (OptionChain_from_api_response py
                               option_chain_data expiry_datetime) ;;
                     modify (fun s =>
                       set_option_chains
                         (<[expiry_date := option_chain]> (option_chains s)) s) ;;
                     ret (Some option_chain)
                 end
         end
     end)
    (fun e =>
       logger ERROR "Error getting option chain for expiry {}: {}"
         [AInt expiry_date; AExn e] ;;
       ret None).

(** *** [_place_sell_order] (lines 338-413) *)

Definition sell_order_params (contract : OptionContract) (quantity : Z)
    : OrderParams :=
  {| trading_symbol := oc_symbol contract;
     exchange := "NSE";
     transaction_type := SELL;
     order_type := MARKET;
     quantity := quantity;
     product := NRML;
     price := 0;
     trigger_price := None |}.

Definition _place_sell_order (option_chain : OptionChain) (strike : Z)
    (option_type : OptionType) (quantity : Z) : M (option Order) :=
  try_except
    (match Dict.get (contracts option_chain) strike with
     | None =>
         logger WARNING "Strike {} not found in option chain" [AInt strike] ;;
         ret None
     | Some row =>
         match row !! value option_type with
         | None =>
             logger WARNING "Option type {} not found for strike {}"
               [AStr (value option_type); AInt strike] ;;
             ret None
         | Some contract =>
             let premium := oc_last_price contract in
             let order_params := sell_order_params contract quantity in
             order_response <- api_place_order order_params ;;
             match order_response with
             | None =>
                 logger WARNING "Failed to place sell order" [] ;;
                 ret None
             | Some order_response =>
                 let order :=
                   {| ord_symbol := oc_symbol contract;
                      ord_exchange := "NSE";
                      ord_order_type := MARKET;
                      ord_side := SELL;
                      ord_quantity := quantity;
                      ord_product := NRML;
                      ord_price := premium;
                      ord_trigger_price := 0;
                      ord_order_id := orderId order_response;
                      ord_status := PENDING;
                      ord_option_type := Some option_type;
                      ord_strike_price := Some strike;
                      ord_expiry_date := Some (chain_expiry_date option_chain);
                      ord_is_hedge := false;
                      ord_is_martingale := false |} in
                 record_order order ;;
                 logger INFO "Sell order placed successfully: {}"
                   [AStr (ord_symbol order)] ;;
                 ret (Some order)
             end
         end
     end)
    (fun e =>
       logger ERROR "Error placing sell order: {}" [AExn e] ;;
       ret None).

(** *** [_place_hedge_order] (lines 415-493) *)

Definition hedge_strike_of (sell_strike : Z) (option_type : OptionType) : Z :=
  match option_type with
  | CE => sell_strike + 50
  | PE => sell_strike - 50
  end.

Definition hedge_order_params (contract : OptionContract) (quantity : Z)
    : OrderParams :=
  {| trading_symbol := oc_symbol contract;
     exchange := "NSE";
     transaction_type := BUY;
     order_type := MARKET;
     quantity := quantity;
     product := NRML;
     price := 0;
     trigger_price := None |}.

Definition _place_hedge_order (option_chain : OptionChain) (sell_strike : Z)
    (option_type : OptionType) (quantity : Z) : M (option Order) :=
  try_except
    (let hedge_strike := hedge_strike_of sell_strike option_type in
     match Dict.get (contracts option_chain) hedge_strike with
     | None =>
         logger WARNING "Hedge strike {} not found in option chain"
           [AInt hedge_strike] ;;
         ret None
     | Some row =>
         match row !! value option_type with
         | None =>
             logger WARNING "Option type {} not found for hedge strike {}"
               [AStr (value option_type); AInt hedge_strike] ;;
             ret None
         | Some contract =>
             let order_params := hedge_order_params contract quantity in
             order_response <- api_place_order order_params ;;
             match order_response with
             | None =>
                 logger WARNING "Failed to place hedge order" [] ;;
                 ret None
             | Some order_response =>
                 let order :=
                   {| ord_symbol := oc_symbol contract;
                      ord_exchange := "NSE";
                      ord_order_type := MARKET;
                      ord_side := BUY;
                      ord_quantity := quantity;
                      ord_product := NRML;
                      ord_price := oc_last_price contract;
                      ord_trigger_price := 0;
                      ord_order_id := orderId order_response;
                      ord_status := PENDING;
                      ord_option_type := Some option_type;
                      ord_strike_price := Some hedge_strike;
                      ord_expiry_date := Some (chain_expiry_date option_chain);
                      ord_is_hedge := true;
                      ord_is_martingale := false |} in
                 record_order order ;;
                 logger INFO "Hedge order placed successfully: {}"
                   [AStr (ord_symbol order)] ;;
                 ret (Some order)
             end
         end
     end)
    (fun e =>
       logger ERROR "Error placing hedge order: {}" [AExn e] ;;
       ret None).

(** *** [place_short_strangle] (lines 245-336); [today] is what
    [datetime.date.today()] gives during the call. *)

Definition place_short_strangle (today : Z) (investment_amount spot_price : Q)
    : M bool :=
  logger INFO "Placing short strangle with investment amount {}, spot price {}"
    [ANum investment_amount; ANum spot_price] ;;
  try_except
    (let quantity := lot_size config * lots_per_investment config in
     let ce_strike := fst (strangle_strikes spot_price (strangle_distance config)) in
     let pe_strike := snd (strangle_strikes spot_price (strangle_distance config)) in
     logger INFO "Calculated strike prices: CE {}, PE {}"
       [AInt ce_strike; AInt pe_strike] ;;
     let sell_expiry_date :=
       DateUtils.get_expiry_date_n_weeks_ahead today (sell_expiry_weeks config) in
     let hedge_expiry_date :=
       DateUtils.get_expiry_date_n_weeks_ahead today (hedge_expiry_weeks config) in
     match sell_expiry_date, hedge_expiry_date with
     | Some sell_expiry_date, Some hedge_expiry_date =>
         logger INFO "Expiry dates: Sell {}, Hedge {}"
           [AInt sell_expiry_date; AInt hedge_expiry_date] ;;
         sell_option_chain <- get_option_chain_for_expiry sell_expiry_date ;;
         hedge_option_chain <- get_option_chain_for_expiry hedge_expiry_date ;;
         match sell_option_chain, hedge_option_chain with
         | Some sell_option_chain, Some hedge_option_chain =>
             logger INFO "Placing sell orders" [] ;;
             ce_sell_order <-
               _place_sell_order sell_option_chain ce_strike CE quantity ;;
             pe_sell_order <-
               _place_sell_order sell_option_chain pe_strike PE quantity ;;
             match ce_sell_order, pe_sell_order with
             | Some _, Some _ =>
                 logger INFO "Placing hedge orders" [] ;;
                 ce_hedge_order <-
                   _place_hedge_order hedge_option_chain ce_strike CE quantity ;;
                 pe_hedge_order <-
                   _place_hedge_order hedge_option_chain pe_strike PE quantity ;;
                 match ce_hedge_order, pe_hedge_order with
                 | Some _, Some _ =>
                     logger INFO "Short strangle placed successfully" [] ;;
                     ret true
                 | _, _ =>
                     logger ERROR "Failed to place hedge orders" [] ;;
                     ret false
                 end
             | _, _ =>
                 logger ERROR "Failed to place sell orders" [] ;;
                 ret false
             end
         | _, _ =>
             logger ERROR "Failed to get option chains" [] ;;
             ret false
         end
     | _, _ =>
         logger ERROR "Failed to calculate expiry dates" [] ;;
         ret false
     end)
    (fun e =>
       logger ERROR "Error placing short strangle: {}" [AExn e] ;;
       ret false).

(** *** [handle_stop_loss] (lines 495-591) *)

Definition stop_loss_order_params (position : Position) (stop_loss_price : Q)
    : OrderParams :=
  {| trading_symbol := pos_symbol position;
     exchange := pos_exchange position;
     transaction_type := BUY;
     order_type := SL;
     quantity := pos_quantity position;
     product := pos_product position;
     price := stop_loss_price;
     trigger_price := Some stop_loss_price |}.

(** The block of [handle_stop_loss] that follows an accepted stop order
    (lines 562-584): a new sell order at the same strike and expiry. *)
Definition reenter_after_stop_loss (position : Position) : M unit :=
  match pos_expiry_date position with
  | Some expiry_date =>
      option_chain <- get_option_chain_for_expiry (date expiry_date) ;;
      match option_chain, pos_strike_price position,
            pos_option_type position with
      | Some option_chain, Some strike_price, Some option_type =>
          if Py.truthy_oint (Some strike_price) then
            new_sell_order <-
              _place_sell_order option_chain strike_price
                option_type (pos_quantity position) ;;
            match new_sell_order with
            | Some new_sell_order =>
                logger INFO "New sell order placed successfully: {}"
                  [AStr (ord_symbol new_sell_order)]
            | None =>
                logger WARNING "Failed to place new sell order for {}"
                  [AStr (pos_symbol position)]
            end
          else
            logger WARNING
              "Failed to get option chain or position details for {}"
              [AStr (pos_symbol position)]
      | _, _, _ =>
          logger WARNING
            "Failed to get option chain or position details for {}"
            [AStr (pos_symbol position)]
      end
  | None =>
      logger WARNING "Missing expiry date for {}"
        [AStr (pos_symbol position)]
  end.

Definition handle_stop_loss (position : Position) (current_price : Q)
    : M bool :=
  try_except
    (let stop_loss_trigger := stop_loss_trigger config in
     let stop_loss_percentage := stop_loss_percentage config in
     match pos_side position with
     | SELL =>
         price_drop <-
           truediv (pos_average_price position - current_price)
                   (pos_average_price position) ;;
         if Qle_bool stop_loss_trigger price_drop then
           logger INFO "Stop loss triggered for {}: Price drop {}"
             [AStr (pos_symbol position); ANum price_drop] ;;
           let stop_loss_price :=
             (pos_average_price position * stop_loss_percentage)%Q in
           let order_params := stop_loss_order_params position stop_loss_price in
           order_response <- api_place_order order_params ;;
           match order_response with
           | None =>
               logger WARNING "Failed to place stop loss order for {}"
                 [AStr (pos_symbol position)] ;;
               ret false
           | Some order_response =>
               let order :=
                 {| ord_symbol := pos_symbol position;
                    ord_exchange := pos_exchange position;
                    ord_order_type := SL;
                    ord_side := BUY;
                    ord_quantity := pos_quantity position;
                    ord_product := pos_product position;
                    ord_price := stop_loss_price;
                    ord_trigger_price := stop_loss_price;
                    ord_order_id := orderId order_response;
                    ord_status := PENDING;
                    ord_option_type := pos_option_type position;
                    ord_strike_price := pos_strike_price position;
                    ord_expiry_date := pos_expiry_date position;
                    ord_is_hedge := false;
                    ord_is_martingale := false |} in
               record_order order ;;
               logger INFO "Stop loss order placed for {}"
                 [AStr (pos_symbol position)] ;;
               logger INFO "Placing new sell order for {}"
                 [AStr (pos_symbol position)] ;;
               reenter_after_stop_loss position ;;
               ret true
           end
         else ret false
     | BUY => ret false
     end)
    (fun e =>
       logger ERROR "Error handling stop loss for {}: {}"
         [AStr (pos_symbol position); AExn e] ;;
       ret false).

(** *** [handle_martingale] (lines 593-745) *)

Definition martingale_strike_of (strike_price : Z) (option_type : OptionType)
    : Z :=
  match option_type with
  | CE => strike_price + 50
  | PE => strike_price - 50
  end.

Definition martingale_order_params (position : Position)
    (contract : OptionContract) (side : OrderSide) (quantity : Z)
    : OrderParams :=
  {| trading_symbol := oc_symbol contract;
     exchange := pos_exchange position;
     transaction_type := side;
     order_type := MARKET;
     quantity := quantity;
     product := pos_product position;
     price := 0;
     trigger_price := None |}.

(** [0.8 * target_premium <= contract_premium <= 1.2 * target_premium] *)
Definition premium_close_to (target_premium contract_premium : Q) : bool :=
  Qle_bool (0.8 * target_premium) contract_premium
  && Qle_bool contract_premium (1.2 * target_premium).

(** The test of the scan loop on one strike of the chain. *)
Definition is_sell_strike (option_chain : OptionChain)
    (option_type : OptionType) (target_premium : Q) (strike : Z) : bool :=
  match contract_at option_chain strike option_type with
  | Some c => premium_close_to target_premium (oc_last_price c)
  | None => false
  end.

(** The strikes collected in [sell_strikes]. *)
Definition find_sell_strikes (option_chain : OptionChain)
    (option_type : OptionType) (target_premium : Q) : list Z :=
  List.filter (is_sell_strike option_chain option_type target_premium)
    (Dict.keys (contracts option_chain)).

(** The body of the loop over [sell_strikes] (lines 694-734). *)
Definition martingale_sell (position : Position) (option_chain : OptionChain)
    (option_type : OptionType) (new_quantity : Z) (strike : Z) : M unit :=
  match contract_at option_chain strike option_type with
  | None => raise KeyError
  | Some contract =>
      let order_params :=
        martingale_order_params position contract SELL
          new_quantity in
      order_response <- api_place_order order_params ;;
      match order_response with
      | None =>
          logger WARNING
            "Failed to place martingale sell order for strike {}"
            [AInt strike]
      | Some order_response =>
          let sell_order :=
            {| ord_symbol := oc_symbol contract;
               ord_exchange := pos_exchange position;
               ord_order_type := MARKET;
               ord_side := SELL;
               ord_quantity := new_quantity;
               ord_product := pos_product position;
               ord_price := oc_last_price contract;
               ord_trigger_price := 0;
               ord_order_id := orderId order_response;
               ord_status := PENDING;
               ord_option_type := Some option_type;
               ord_strike_price := Some strike;
               ord_expiry_date := pos_expiry_date position;
               ord_is_hedge := false;
               ord_is_martingale := true |} in
          record_order sell_order ;;
          logger INFO
            "Martingale sell order placed for {}"
            [AStr (oc_symbol contract)]
      end
  end.

Definition handle_martingale (position : Position) (current_price : Q)
    (option_chain : OptionChain) : M bool :=
  try_except
    (let martingale_trigger := martingale_trigger config in
     match pos_side position with
     | SELL =>
         price_increase <- truediv current_price (pos_average_price position) ;;
         if Qle_bool martingale_trigger price_increase then
           logger INFO "Martingale triggered for {}: Price increase {}x"
             [AStr (pos_symbol position); ANum price_increase] ;;
           match pos_strike_price position, pos_option_type position with
           | Some strike_price, Some option_type =>
             if Py.truthy_oint (Some strike_price) then
               let martingale_strike :=
                 martingale_strike_of strike_price option_type in
               match contract_at option_chain martingale_strike option_type with
               | Some contract =>
                   let order_params :=
                     martingale_order_params position contract BUY
                       (pos_quantity position) in
                   order_response <- api_place_order order_params ;;
                   match order_response with
                   | None =>
                       logger WARNING
                         "Failed to place martingale buy order for {}"
                         [AStr (pos_symbol position)] ;;
                       ret false
                   | Some order_response =>
                       let buy_order :=
                         {| ord_symbol := oc_symbol contract;
                            ord_exchange := pos_exchange position;
                            ord_order_type := MARKET;
                            ord_side := BUY;
                            ord_quantity := pos_quantity position;
                            ord_product := pos_product position;
                            ord_price := oc_last_price contract;
                            ord_trigger_price := 0;
                            ord_order_id := orderId order_response;
                            ord_status := PENDING;
                            ord_option_type := Some option_type;
                            ord_strike_price := Some martingale_strike;
                            ord_expiry_date := pos_expiry_date position;
                            ord_is_hedge := false;
                            ord_is_martingale := true |} in
                       record_order buy_order ;;
                       logger INFO "Martingale buy order placed for {}"
                         [AStr (oc_symbol contract)] ;;
                       let martingale_quantity_multiplier :=
                         martingale_quantity_multiplier config in
                       let martingale_premium_divisor :=
                         martingale_premium_divisor config in
                       target_premium <-
                         truediv (oc_last_price contract)
                                 martingale_premium_divisor ;;
                       let new_quantity :=
                         Py.int (inject_Z (pos_quantity position)
                                 * martingale_quantity_multiplier) in
                       let sell_strikes :=
                         find_sell_strikes option_chain option_type
                           target_premium in
                       for_each sell_strikes
                         (martingale_sell position option_chain option_type
                            new_quantity) ;;
                       ret true
                   end
               | None =>
                   logger WARNING
                     "Martingale strike {} or option type {} not found in option chain"
                     [AInt martingale_strike; AStr (value option_type)] ;;
                   ret false
               end
             else
               logger WARNING "Missing strike price or option type for {}"
                 [AStr (pos_symbol position)] ;;
               ret false
           | _, _ =>
               logger WARNING "Missing strike price or option type for {}"
                 [AStr (pos_symbol position)] ;;
               ret false
           end
         else ret false
     | BUY => ret false
     end)
    (fun e =>
       logger ERROR "Error handling martingale for {}: {}"
         [AStr (pos_symbol position); AExn e] ;;
       ret false).

(** *** [close_positions_at_expiry] (lines 747-806) *)

(** [position.expiry_date and position.expiry_date.date() <= d] *)
Definition expires_by (d : Z) (position : Position) : bool :=
  match pos_expiry_date position with
  | Some expiry_date => date expiry_date <=? d
  | None => false
  end.

Definition opposite (side : OrderSide) : OrderSide :=
  match side with SELL => BUY | BUY => SELL end.

Definition close_order_params (position : Position) (side : OrderSide)
    : OrderParams :=
  {| trading_symbol := pos_symbol position;
     exchange := pos_exchange position;
     transaction_type := side;
     order_type := MARKET;
     quantity := pos_quantity position;
     product := pos_product position;
     price := 0;
     trigger_price := None |}.

Definition close_positions_at_expiry (today : Z) : M bool :=
  logger INFO "Checking positions for expiry" [] ;;
  try_except
    (let close_after_weeks := close_after_weeks config in
     match DateUtils.get_expiry_date_n_weeks_ahead today close_after_weeks with
     | None =>
         logger WARNING "Failed to calculate close date" [] ;;
         ret false
     | Some close_date =>
         s <- get_state ;;
         let positions_to_close :=
           List.filter (expires_by close_date)
             (Dict.values (active_positions s)) in
         match positions_to_close with
         | [] =>
             logger INFO "No positions to close at expiry" [] ;;
             ret false
         | _ =>
             logger INFO "Closing {} positions at expiry"
               [AInt (Z.of_nat (length positions_to_close))] ;;
             for_each positions_to_close (fun position =>
               let order_params :=
                 close_order_params position (opposite (pos_side position)) in
               order_response <- api_place_order order_params ;;
               match order_response with
               | None =>
                   logger WARNING "Failed to close position for {}"
                     [AStr (pos_symbol position)]
               | Some _ =>
                   logger INFO "Closed position for {}"
                     [AStr (pos_symbol position)]
               end) ;;
             _update_positions ;;
             ret true
         end
     end)
    (fun e =>
       logger ERROR "Error closing positions at expiry: {}" [AExn e] ;;
       ret false).

(** *** [roll_hedge_positions] (lines 808-892) *)

(** [position.is_hedge and position.expiry_date and
     position.expiry_date.date() <= today] *)
Definition hedge_to_roll (today : Z) (position : Position) : bool :=
  pos_is_hedge position && expires_by today position.

(** The body of the loop over [hedge_positions]. *)
Definition roll_one (option_chain : OptionChain) (position : Position)
    : M unit :=
  let order_params := close_order_params position SELL in
  order_response <- api_place_order order_params ;;
  match order_response with
  | None =>
      logger WARNING "Failed to close hedge position for {}"
        [AStr (pos_symbol position)]
  | Some _ =>
      logger INFO "Closed hedge position for {}" [AStr (pos_symbol position)] ;;
      match pos_strike_price position, pos_option_type position with
      | Some strike_price, Some option_type =>
          if Py.truthy_oint (Some strike_price) then
            new_hedge_order <-
              _place_hedge_order option_chain strike_price option_type
                (pos_quantity position) ;;
            match new_hedge_order with
            | Some new_hedge_order =>
                logger INFO "New hedge order placed successfully: {}"
                  [AStr (ord_symbol new_hedge_order)]
            | None =>
                logger WARNING "Failed to place new hedge order for {}"
                  [AStr (pos_symbol position)]
            end
          else
            logger WARNING "Missing strike price or option type for {}"
              [AStr (pos_symbol position)]
      | _, _ =>
          logger WARNING "Missing strike price or option type for {}"
            [AStr (pos_symbol position)]
      end
  end.

Definition roll_hedge_positions (today : Z) : M bool :=
  logger INFO "Checking hedge positions for rolling" [] ;;
  try_except
    (s <- get_state ;;
     let hedge_positions :=
       List.filter (hedge_to_roll today) (Dict.values (active_positions s)) in
     match hedge_positions with
     | [] =>
         logger INFO "No hedge positions to roll" [] ;;
         ret false
     | _ =>
         logger INFO "Rolling {} hedge positions"
           [AInt (Z.of_nat (length hedge_positions))] ;;
         match DateUtils.get_expiry_date_n_weeks_ahead today
                 (hedge_expiry_weeks config) with
         | None =>
             logger WARNING "Failed to calculate hedge expiry date" [] ;;
             ret false
         | Some hedge_expiry_date =>
             option_chain <- get_option_chain_for_expiry hedge_expiry_date ;;
             match option_chain with
             | None =>
                 logger WARNING "Failed to get option chain for hedge expiry" [] ;;
                 ret false
             | Some option_chain =>
                 for_each hedge_positions (roll_one option_chain) ;;
                 _update_positions ;;
                 ret true
             end
         end
     end)
    (fun e =>
       logger ERROR "Error rolling hedge positions: {}" [AExn e] ;;
       ret false).

End Engine.

(** ** Vocabulary of the statements *)

(** No position expires by the close date computed from [today]. *)
Definition none_to_close (config : Config) (today : Z) (s : State) : Prop :=
  forall close_date,
    DateUtils.get_expiry_date_n_weeks_ahead today (close_after_weeks config)
      = Some close_date ->
    Forall (fun position => expires_by close_date position = false)
      (Dict.values (active_positions s)).

(** Requests of the chain cache: reads, never orders. *)
Definition is_chain_query (c : Call) : bool :=
  match c with
  | GetOptionChainMaster | GetOptionChain _ _ => true
  | _ => false
  end.

(** What a call of [place_short_strangle] from state [s] may leave behind:
    result [r], final state [s'].  The requests [new] it sent come after
    those already made; none of them cancels or modifies an order; at most
    four orders were submitted.  The result is True with the four legs
    accepted in source order, each on the contract its chain has at the
    computed strike, or False with fewer than four orders accepted. *)
Definition strangle_outcome (api : Gateway) (config : Config) (today : Z)
    (spot_price : Q) (s : State) (r : Result bool) (s' : State) : Prop :=
  let qty := lot_size config * lots_per_investment config in
  let ce_strike := fst (strangle_strikes spot_price (strangle_distance config)) in
  let pe_strike := snd (strangle_strikes spot_price (strangle_distance config)) in
  exists new,
    calls s' = calls s ++ new
    /\ Forall (fun c => is_cancel_or_modify c = false) new
    /\ (length (submitted new) <= 4)%nat
    /\ Forall (fun p => quantity p = qty) (submitted new)
    /\ ((r = Ok true
         /\ exists sell_expiry hedge_expiry sell_chain hedge_chain
                   ce_sell pe_sell ce_hedge pe_hedge,
              DateUtils.get_expiry_date_n_weeks_ahead today
                (sell_expiry_weeks config) = Some sell_expiry
              /\ DateUtils.get_expiry_date_n_weeks_ahead today
                   (hedge_expiry_weeks config) = Some hedge_expiry
              /\ option_chains s' !! sell_expiry = Some sell_chain
              /\ option_chains s' !! hedge_expiry = Some hedge_chain
              /\ contract_at sell_chain ce_strike CE = Some ce_sell
              /\ contract_at sell_chain pe_strike PE = Some pe_sell
              /\ contract_at hedge_chain (ce_strike + 50) CE = Some ce_hedge
              /\ contract_at hedge_chain (pe_strike - 50) PE = Some pe_hedge
              /\ placed new =
                   [sell_order_params ce_sell qty;
                    sell_order_params pe_sell qty;
                    hedge_order_params ce_hedge qty;
                    hedge_order_params pe_hedge qty])
        \/ (r = Ok false /\ (length (placed new) < 4)%nat)).

(** Two states that differ at most in the log. *)
Definition same_but_log (s1 s2 : State) : Prop :=
  active_positions s1 = active_positions s2
  /\ active_orders s1 = active_orders s2
  /\ option_chains s1 = option_chains s2
  /\ calls s1 = calls s2.

(** Two computations that, from states equal up to the log, give the same
    result and end in states equal up to the log. *)
Definition log_blind {A} (m1 m2 : M A) : Prop :=
  forall s1 s2, same_but_log s1 s2 ->
    fst (m1 s1) = fst (m2 s2) /\ same_but_log (snd (m1 s1)) (snd (m2 s2)).

(** The stop-loss condition of the statement: a SELL position whose
    relative price drop, defined when the average price is not zero, is at
    least the configured trigger. *)
Definition stop_loss_triggered (config : Config) (position : Position)
    (current_price : Q) : Prop :=
  pos_side position = SELL
  /\ ~ (pos_average_price position == 0)%Q
  /\ (stop_loss_trigger config
       <= (pos_average_price position - current_price)
          / pos_average_price position)%Q.

(** The martingale condition: a SELL position whose price ratio, defined
    when the average price is not zero, is at least the trigger. *)
Definition martingale_triggered (config : Config) (position : Position)
    (current_price : Q) : Prop :=
  pos_side position = SELL
  /\ ~ (pos_average_price position == 0)%Q
  /\ (martingale_trigger config
       <= current_price / pos_average_price position)%Q.





(** ** Example data: the default configuration, a small chain, two
    gateways *)

Module Example.

(** [int] on a string of decimal digits, which is all the examples parse. *)
Fixpoint digits (s : string) (acc : Z) : option Z :=
  match s with
  | EmptyString => Some acc
  | String c s' =>
      if Symbol.isdigit c
      then digits s' (10 * acc + Z.of_nat (nat_of_ascii c) - 48)
      else None
  end.

Definition py : Builtins :=
  {| int_of_str := fun s =>
       match s with EmptyString => None | _ => digits s 0 end;
     strptime := fun s =>
       if String.eqb s "2026-11-12" then Some 739932
       else if String.eqb s "2026-12-10" then Some 739960
       else None;
     upper := fun s => s |}.

(** The values of config_structure.py. *)
Definition config : Config :=
  {| base_investment := 200000;
     lot_size := 75;
     lots_per_investment := 1;
     investment_per_lot := 150000;
     leg_premium_target := 0.025;
     strangle_distance := 1000;
     sell_expiry_weeks := 5;
     close_after_weeks := 4;
     hedge_expiry_weeks := 1;
     stop_loss_trigger := 0.25;
     stop_loss_percentage := 0.90;
     martingale_trigger := 2.0;
     martingale_quantity_multiplier := 2.0;
     martingale_premium_divisor := 2.0 |}.

(** Wednesday 2026-11-04; the Thursday one week ahead is 2026-11-12. *)
Definition today : Z := 739924.
Definition next_expiry : Z := 739932.

Definition contract (symbol : string) (strike : Z) (t : OptionType)
    (last_price : Q) : OptionContract :=
  {| oc_symbol := symbol;
     oc_strike_price := strike;
     oc_option_type := t;
     oc_expiry_date := combine next_expiry 15 30;
     oc_last_price := last_price;
     oc_change_percent := 0;
     oc_volume := 0;
     oc_open_interest := 0;
     oc_bid_price := last_price;
     oc_ask_price := last_price |}.

Definition c21000 := contract "NIFTY26NOV21000CE" 21000 CE 200.
Definition c21050 := contract "NIFTY26NOV21050CE" 21050 CE 100.
Definition c21100 := contract "NIFTY26NOV21100CE" 21100 CE 52.
Definition c21150 := contract "NIFTY26NOV21150CE" 21150 CE 48.
Definition c21200 := contract "NIFTY26NOV21200CE" 21200 CE 30.

Definition row (c : OptionContract) : gmap string OptionContract :=
  {[ value (oc_option_type c) := c ]}.

(** A chain of call contracts at five consecutive strikes. *)
Definition chain : OptionChain :=
  {| chain_expiry_date := combine next_expiry 15 30;
     chain_spot_price := 20000;
     contracts := [(21000, row c21000); (21050, row c21050);
                   (21100, row c21100); (21150, row c21150);
                   (21200, row c21200)] |}.

(** The same chain without the strike 21050. *)
Definition chain_without_21050 : OptionChain :=
  {| chain_expiry_date := combine next_expiry 15 30;
     chain_spot_price := 20000;
     contracts := [(21000, row c21000); (21100, row c21100);
                   (21150, row c21150); (21200, row c21200)] |}.

(** A gateway that accepts every order and has nothing else to report. *)
Definition accept_all : Gateway :=
  {| get_positions := fun _ => None;
     get_quote := fun _ _ => None;
     get_option_chain_master := fun _ => None;
     get_option_chain := fun _ _ _ => None;
     place_order := fun _ _ => Some {| orderId := Some "ORD" |} |}.

(** A gateway that accepts BUY orders and rejects SELL orders. *)
Definition reject_sells : Gateway :=
  {| get_positions := fun _ => None;
     get_quote := fun _ _ => None;
     get_option_chain_master := fun _ => None;
     get_option_chain := fun _ _ _ => None;
     place_order := fun _ p =>
       match transaction_type p with
       | BUY => Some {| orderId := Some "ORD" |}
       | SELL => None
       end |}.

(** A short call at 21000, sold at 100. *)
Definition short_call : Position :=
  {| pos_symbol := "NIFTY26NOV21000CE";
     pos_exchange := "NSE";
     pos_quantity := 75;
     pos_average_price := 100;
     pos_side := SELL;
     pos_product := NRML;
     pos_option_type := Some CE;
     pos_strike_price := Some 21000;
     pos_expiry_date := Some (combine next_expiry 15 30);
     pos_is_hedge := false;
     pos_is_martingale := false;
     pos_pnl := 0 |}.


(** A short call that expires ten weeks after [today]. *)
Definition far_call : Position :=
  {| pos_symbol := "NIFTY27JAN21000CE";
     pos_exchange := "NSE";
     pos_quantity := 75;
     pos_average_price := 100;
     pos_side := SELL;
     pos_product := NRML;
     pos_option_type := Some CE;
     pos_strike_price := Some 21000;
     pos_expiry_date := Some (combine (today + 71) 15 30);
     pos_is_hedge := false;
     pos_is_martingale := false;
     pos_pnl := 0 |}.

Definition far_call_state : State :=
  {| active_positions := [(pos_symbol far_call, far_call)];
     active_orders := ∅;
     option_chains := ∅;
     calls := [];
     log := [] |}.

(** The short call alone, the chain of its expiry in the cache. *)
Definition short_call_state : State :=
  {| active_positions := [(pos_symbol short_call, short_call)];
     active_orders := ∅;
     option_chains := {[ next_expiry := chain ]};
     calls := [];
     log := [] |}.


End Example.


(** ** date_utils.py: trading days *)

Module TradingDays.
Section TradingDays.

(** [date.strftime("%Y-%m-%d")], taken as given. *)
Variable strftime : Z -> string.

(** [is_trading_day(date, holidays)] *)
Definition is_trading_day (date : Z) (holidays : list string) : bool :=
  if 5 <=? DateUtils.weekday date then false
  else if bool_decide (strftime date ∈ holidays) then false
  else true.

(** The [while] loop of [get_next_trading_day].  Each turn moves one day
    on, and [date + timedelta] raises [OverflowError] past 9999-12-31, so
    the days left in the calendar bound the number of turns. *)
Fixpoint next_trading_loop (fuel : nat) (next_day : Z)
    (holidays : list string) : Result Z :=
  if is_trading_day next_day holidays then Ok next_day
  else match fuel with
    | O => Raise OverflowError
    | S fuel' =>
        match DateUtils.date_add next_day 1 with
        | Some next_day' => next_trading_loop fuel' next_day' holidays
        | None => Raise OverflowError
        end
    end.

(** [get_next_trading_day(date, holidays)] *)
Definition get_next_trading_day (date : Z) (holidays : list string)
    : Result Z :=
  match DateUtils.date_add date 1 with
  | None => Raise OverflowError
  | Some next_day =>
      next_trading_loop (Z.to_nat (DateUtils.MAXORD - next_day))
        next_day holidays
  end.

(** [is_trading_time(current_time, start_time, end_time)], the times of day
    as seconds since midnight. *)
Definition is_trading_time (current_time start_time end_time : Z) : bool :=
  (start_time <=? current_time) && (current_time <=? end_time).

End TradingDays.
End TradingDays.

(** ** iron_condor_strategy.py and main.py: further methods *)

Section Application.

Variable api : Gateway.

(** *** [_get_spot_price] (iron_condor_strategy.py, lines 162-182) *)

Definition _get_spot_price : M (option Q) :=
  try_except
    (quote <- api_get_quote api "NIFTY" ;;
     match quote with
     | Some quote =>
         let price := default 0%Q (rq_lastPrice quote) in
         ret (Some price)
     | None =>
         logger WARNING "Failed to get Nifty spot price" [] ;;
         ret None
     end)
    (fun e =>
       logger ERROR "Error getting Nifty spot price: {}" [AExn e] ;;
       ret None).

(** *** [close_all_positions] (main.py, lines 238-280).  The application
    logs through a logger of its own, whose records reach the same
    handlers; they are kept in the same list. *)

Definition close_all_order_params (symbol : string) (position : Position)
    : OrderParams :=
  {| trading_symbol := symbol;
     exchange := pos_exchange position;
     transaction_type :=
       match pos_side position with SELL => BUY | BUY => SELL end;
     order_type := MARKET;
     quantity := pos_quantity position;
     product := pos_product position;
     price := 0;
     trigger_price := None |}.

(** The loop over [positions.items()]: [Some false] is the [return False]
    taken at the first order that is not accepted, [None] the loop running
    to its end. *)
Fixpoint close_all_loop (items : list (string * Position))
    : M (option bool) :=
  match items with
  | [] => ret None
  | (symbol, position) :: rest =>
      logger INFO "Closing position for {}" [AStr symbol] ;;
      result <- api_place_order api (close_all_order_params symbol position) ;;
      match result with
      | Some _ =>
          logger INFO "Closed position for {} successfully" [AStr symbol] ;;
          close_all_loop rest
      | None =>
          logger ERROR "Failed to close position for {}" [AStr symbol] ;;
          ret (Some false)
      end
  end.

(** [ready] tells whether [self.api] and [self.strategy] are set. *)
Definition close_all_positions (ready : bool) : M bool :=
  if negb ready then
    logger ERROR "API or strategy not initialized" [] ;;
    ret false
  else
    logger INFO "Closing all open positions" [] ;;
    try_except
      (s <- get_state ;;
       let positions := active_positions s in
       match positions with
       | [] =>
           logger INFO "No positions to close" [] ;;
           ret true
       | _ =>
           returned <- close_all_loop positions ;;
           match returned with
           | Some b => ret b
           | None =>
               logger INFO "All positions closed successfully" [] ;;
               ret true
           end
       end)
      (fun e =>
         logger ERROR "Error closing positions: {}" [AExn e] ;;
         ret false).

End Application.

(** ** The loop bodies of the ledger methods, by name *)

Section LoopBodies.

Variable py : Builtins.
Variable api : Gateway.

(** The body of the loop of [_update_position_pnl] (lines 122-134). *)
Definition pnl_step (item : string * Position) : M unit :=
  let symbol := fst item in
  let position := snd item in
  current_price <- _get_current_price api symbol ;;
  match current_price with
  | None =>
      logger WARNING "Failed to get current price for {}" [AStr symbol]
  | Some current_price =>
      let pnl :=
        match pos_side position with
        | BUY => ((current_price - pos_average_price position)
                  * inject_Z (pos_quantity position))%Q
        | SELL => ((pos_average_price position - current_price)
                   * inject_Z (pos_quantity position))%Q
        end in
      modify (fun s =>
        set_active_positions
          (Dict.set (active_positions s) symbol (with_pnl position pnl)) s)
  end.

(** The body of the loop of [_update_positions] (lines 105-107). *)
Definition rebuild_step (position_data : RawPosition) : M unit :=
  position <- lift (Position_from_api_response py position_data) ;;
  modify (fun s =>
    set_active_positions
      (Dict.set (active_positions s) (pos_symbol position) position)
      s).

(** The body of the loop of [close_positions_at_expiry] (lines 780-798). *)
Definition close_step (position : Position) : M unit :=
  let order_params :=
    close_order_params position (opposite (pos_side position)) in
  order_response <- api_place_order api order_params ;;
  match order_response with
  | None =>
      logger WARNING "Failed to close position for {}"
        [AStr (pos_symbol position)]
  | Some _ =>
      logger INFO "Closed position for {}"
        [AStr (pos_symbol position)]
  end.

End LoopBodies.

(** ** Further vocabulary and example data *)

(** A [strftime] that knows the one date the examples name as a holiday,
    Friday 2026-11-06. *)
Definition Example_strftime (d : Z) : string :=
  if d =? 739926 then "2026-11-06" else "".

(** Requests that read positions and quotes. *)
Definition is_position_query (c : Call) : bool :=
  match c with
  | GetPositions | GetQuote _ => true
  | _ => false
  end.

(** No position of the ledger carries the hedge flag. *)
Definition no_hedge_flag (s : State) : Prop :=
  Forall (fun position => pos_is_hedge position = false)
    (Dict.values (active_positions s)).

(** Every position of the ledger sits under its own symbol, and no symbol
    occurs twice. *)
Definition ledger_by_symbol (l : list (string * Position)) : Prop :=
  NoDup (Dict.keys l)
  /\ Forall (fun item => fst item = pos_symbol (snd item)) l.

(** What [handle_martingale] may have sent: nothing, or the BUY of the
    position's quantity followed by SELL orders, none of them when the BUY
    was not accepted. *)
Definition martingale_trace (position : Position) (b : bool)
    (new : list Call) : Prop :=
  match new with
  | [] => b = false
  | PlaceOrder p r :: sells =>
      transaction_type p = BUY
      /\ quantity p = pos_quantity position
      /\ (b = true -> is_Some r)
      /\ (r = None -> sells = [])
      /\ Forall (fun c => exists p' r',
                   c = PlaceOrder p' r' /\ transaction_type p' = SELL) sells
  | _ => False
  end.

(** What [handle_stop_loss] may have sent for a position without a strike:
    nothing, or the stop order followed by reads of the chain cache. *)
Definition stop_only_trace (position : Position) (new : list Call) : Prop :=
  match new with
  | [] => True
  | PlaceOrder p r :: reads =>
      transaction_type p = BUY
      /\ order_type p = SL
      /\ quantity p = pos_quantity position
      /\ Forall (fun c => is_chain_query c = true) reads
  | _ => False
  end.

(** An order request on the given side. *)
Definition is_order_on (side : OrderSide) (c : Call) : bool :=
  match c with
  | PlaceOrder p _ => bool_decide (transaction_type p = side)
  | _ => false
  end.

(** The order book after an order came back from a leg: it is filed
    under its id when it has one that is not empty. *)
Definition book_after (book : gmap string Order) (order : option Order)
    : gmap string Order :=
  match order with
  | Some o =>
      match ord_order_id o with
      | Some id => if Py.truthy_str id then <[id := o]> book else book
      | None => book
      end
  | None => book
  end.

(** The positions converted from the records of a positions answer, up
    to the first record that cannot be converted. *)
Fixpoint converted_prefix (py : Builtins) (datas : list RawPosition)
    : list Position :=
  match datas with
  | [] => []
  | data :: datas' =>
      match Position_from_api_response py data with
      | Ok position => position :: converted_prefix py datas'
      | Raise _ => []
      end
  end.

(** Further example data: gateway payloads. *)
Module Sample.

Definition raw_call : RawContract :=
  {| rc_tradingSymbol := Some "NIFTY26NOV21000CE";
     rc_strikePrice := Some 21000;
     rc_optionType := Some "CE";
     rc_lastPrice := Some 200%Q;
     rc_changePercent := None;
     rc_volume := None;
     rc_openInterest := None;
     rc_bidPrice := None;
     rc_askPrice := None |}.

(** A chain payload with the one strike 21000 and its call. *)
Definition raw_chain : RawChain :=
  {| rch_spotPrice := Some 20000%Q;
     rch_strikePrices := Some [("21000", {[ "CE" := raw_call ]})] |}.

(** A short position of 75 in the call at 21000, as the gateway reports
    it. *)
Definition raw_short_call : RawPosition :=
  {| rp_tradingSymbol := Some "NIFTY26NOV21000CE";
     rp_exchange := Some "NSE";
     rp_netQuantity := Some (-75);
     rp_averagePrice := Some 100%Q;
     rp_product := Some "NRML";
     rp_pnl := None |}.

(** A gateway that reports this position and quotes every symbol at 80. *)
Definition reporting : Gateway :=
  {| get_positions := fun _ => Some [raw_short_call];
     get_quote := fun _ _ => Some {| rq_lastPrice := Some 80%Q |};
     get_option_chain_master := fun _ => None;
     get_option_chain := fun _ _ _ => None;
     place_order := fun _ _ => Some {| orderId := Some "ORD" |} |}.

(** A gateway that serves the chain of the next expiry. *)
Definition serving : Gateway :=
  {| get_positions := fun _ => None;
     get_quote := fun _ _ => None;
     get_option_chain_master := fun _ =>
       Some {| rm_expiryDates :=
                 Some [{| re_expiryDate := Some "2026-11-12";
                          re_timestamp := Some "1794" |}];
               rm_token := Some "TOKEN" |};
     get_option_chain := fun _ _ _ => Some raw_chain;
     place_order := fun _ _ => Some {| orderId := Some "ORD" |} |}.

(** The default configuration with the premium divisor set to zero. *)
Definition config_zero_divisor : Config :=
  {| base_investment := 200000;
     lot_size := 75;
     lots_per_investment := 1;
     investment_per_lot := 150000;
     leg_premium_target := 0.025;
     strangle_distance := 1000;
     sell_expiry_weeks := 5;
     close_after_weeks := 4;
     hedge_expiry_weeks := 1;
     stop_loss_trigger := 0.25;
     stop_loss_percentage := 0.90;
     martingale_trigger := 2.0;
     martingale_quantity_multiplier := 2.0;
     martingale_premium_divisor := 0 |}.

Definition empty_state : State :=
  {| active_positions := [];
     active_orders := ∅;
     option_chains := ∅;
     calls := [];
     log := [] |}.

End Sample.

(** * Properties *)

(** ** Calendar *)

Section CalendarFacts.
Import DateUtils.

Lemma weekday_bound d : 0 <= weekday d < 7.
Proof. unfold weekday. apply Z.mod_pos_bound. lia. Qed.

(** The day count added to the target date moves it onto a Thursday and
    is less than a week. *)
Lemma thursday_offset d :
  let k := (3 - weekday d) mod 7 in
  0 <= k <= 6 /\ weekday (d + k) = 3.
Proof.
  intros k. subst k. unfold weekday.
  Z.div_mod_to_equations. lia.
Qed.


Lemma date_add_Some d delta :
  MINORD <= d + delta <= MAXORD -> date_add d delta = Some (d + delta).
Proof.
  intros [H1 H2]. unfold date_add. cbv zeta.
  destruct (Z.leb_spec MINORD (d + delta)); [|lia].
  destruct (Z.leb_spec (d + delta) MAXORD); [reflexivity|lia].
Qed.

Lemma date_add_inv d delta r :
  date_add d delta = Some r -> r = d + delta /\ MINORD <= r <= MAXORD.
Proof.
  unfold date_add. cbv zeta.
  destruct (Z.leb_spec MINORD (d + delta));
    destruct (Z.leb_spec (d + delta) MAXORD); simpl; intros [= <-]; lia.
Qed.

Lemma timedelta_inv weeks days r :
  timedelta weeks days = Some r -> r = 7 * weeks + days.
Proof.
  unfold timedelta. cbv zeta.
  destruct (Z.leb_spec (Z.abs (7 * weeks + days)) MAXDELTA); intros [= <-]; lia.
Qed.

(** Whatever date the function returns is a Thursday of the week that
    starts at the target date. *)
Lemma expiry_date_sound today weeks e :
  get_expiry_date_n_weeks_ahead today weeks = Some e ->
  weekday e = 3 /\ today + 7 * weeks <= e <= today + 7 * weeks + 6.
Proof.
  unfold get_expiry_date_n_weeks_ahead. intros H.
  destruct (timedelta weeks 0) as [w|] eqn:Hw; [|discriminate].
  apply timedelta_inv in Hw. simpl in H.
  destruct (date_add today w) as [t|] eqn:Ht; [|discriminate].
  apply date_add_inv in Ht as [-> _]. simpl in H.
  destruct (timedelta 0 _) as [k|] eqn:Hk; [|discriminate].
  apply timedelta_inv in Hk. simpl in H.
  apply date_add_inv in H as [-> _].
  destruct (thursday_offset (today + w)) as [Hb Hth].
  cbv zeta in Hb, Hth. subst k w.
  replace (7 * 0 + (3 - weekday (today + (7 * weeks + 0))) mod 7)
    with ((3 - weekday (today + (7 * weeks + 0))) mod 7) by lia.
  split; [exact Hth|]. lia.
Qed.
End CalendarFacts.





(** ** Strike selection *)


(** Rounding to the nearest multiple of 50 moves an integer by at most 25. *)
Lemma round_div_50_near n :
  n - 25 <= Py.round_div n 50 * 50 <= n + 25.
Proof.
  unfold Py.round_div. cbv zeta.
  pose proof (Z.div_mod n 50 ltac:(lia)) as Hdm.
  pose proof (Z.mod_pos_bound n 50 ltac:(lia)) as Hb.
  destruct (Z.ltb_spec (2 * (n mod 50)) 50).
  - lia.
  - destruct (Z.ltb_spec 50 (2 * (n mod 50))).
    + lia.
    + destruct (Z.even (n / 50)); lia.
Qed.




(** Spot 20000 with distance 1000 needs no rounding. *)
Example strangle_strikes_20000 :
  strangle_strikes 20000 1000 = (21000, 19000).
Proof. reflexivity. Qed.

(** When the raw strikes are integers the bounds of the statement hold as
    they stand. *)
Lemma strangle_strikes_integer_inputs (s d : Z) :
  let ce := fst (strangle_strikes (inject_Z s) (inject_Z d)) in
  let pe := snd (strangle_strikes (inject_Z s) (inject_Z d)) in
  s + d - 25 <= ce /\ pe <= s - d + 25.
Proof.
  cbv zeta. unfold strangle_strikes. cbv zeta. simpl fst. simpl snd.
  assert (Hs : Py.int (inject_Z s + inject_Z d) = s + d).
  { unfold Py.int, inject_Z, Qplus. simpl.
    rewrite Z.quot_1_r. lia. }
  assert (Hd : Py.int (inject_Z s - inject_Z d) = s - d).
  { unfold Py.int, inject_Z, Qminus, Qplus, Qopp. simpl.
    rewrite Z.quot_1_r. lia. }
  rewrite Hs, Hd.
  pose proof (round_div_50_near (s + d)) as Hc.
  pose proof (round_div_50_near (s - d)) as Hp.
  split; lia.
Qed.


(** ** Running method bodies *)

Ltac run :=
  unfold logger, record_order, truediv, api_place_order,
    api_get_option_chain_master, api_get_option_chain, api_get_positions,
    api_get_quote in *;
  unfold bind, try_except, ret, raise, lift, get_state, modify in *;
  cbn beta iota zeta in *.

(** Tactics that step through the calls of the helpers. *)

Ltac exec_chain Hrun E :=
  match type of Hrun with
  | context [get_option_chain_for_expiry ?p ?a ?d ?S] =>
      destruct (get_option_chain_for_expiry p a d S) as [? ?] eqn:E
  end.

Ltac exec_sell Hrun E :=
  match type of Hrun with
  | context [_place_sell_order ?a ?ch ?k ?t ?q ?S] =>
      destruct (_place_sell_order a ch k t q S) as [? ?] eqn:E
  end.

Ltac exec_hedge Hrun E :=
  match type of Hrun with
  | context [_place_hedge_order ?a ?ch ?k ?t ?q ?S] =>
      destruct (_place_hedge_order a ch k t q S) as [? ?] eqn:E
  end.

(** Splits the outcome of one leg: no contract, rejected, accepted. *)
Ltac leg_cases H c Hct resp Hresp Hcalls :=
  match type of H with
  | match contract_at ?ch ?k ?t with _ => _ end =>
      destruct (contract_at ch k t) as [c|] eqn:Hct;
      [ cbv zeta in H; destruct H as [Hcalls H];
        match type of H with
        | match ?e with _ => _ end =>
            destruct e as [resp|] eqn:Hresp;
            [ destruct H as [? ->] | subst ]
        end
      | destruct H as [-> Hcalls] ]
  end.

Ltac chase_calls :=
  repeat match goal with
         | H : calls ?x = _ |- context [calls ?x] => rewrite H
         end.

(** ** Expiry close *)

Section CloseFacts.
Variable py : Builtins.
Variable api : Gateway.
Variable config : Config.

Lemma filter_none {A} (f : A -> bool) l :
  Forall (fun x => f x = false) l -> List.filter f l = [].
Proof.
  induction 1 as [|x l Hx _ IH]; simpl; [reflexivity|].
  rewrite Hx. exact IH.
Qed.

(** With nothing to close the call only writes to the log. *)
Lemma close_positions_at_expiry_idle today s :
  none_to_close config today s ->
  exists lg,
    close_positions_at_expiry py api config today s
    = (Ok false, set_log (log s ++ lg) s).
Proof.
  intros Hnone. unfold close_positions_at_expiry. run.
  destruct (DateUtils.get_expiry_date_n_weeks_ahead today
              (close_after_weeks config)) as [close_date|] eqn:Hd.
  - simpl. rewrite (filter_none _ _ (Hnone close_date Hd)).
    simpl. eexists [_; _]. unfold set_log. simpl.
    rewrite <- app_assoc. reflexivity.
  - simpl. eexists [_; _]. unfold set_log. simpl.
    rewrite <- app_assoc. reflexivity.
Qed.
End CloseFacts.

(** C9: when no active position has an expiry date on or before the close
    date computed at the call, two consecutive calls of
    [close_positions_at_expiry] both return False, send nothing to the
    gateway (so place no order) and leave the active positions, the order
    book and the chain cache as they were. *)
Theorem close_positions_at_expiry_twice_idle
    (py : Builtins) (api : Gateway) (config : Config)
    (today1 today2 : Z) (s : State) :
  none_to_close config today1 s ->
  none_to_close config today2 s ->
  let run1 := close_positions_at_expiry py api config today1 s in
  let run2 := close_positions_at_expiry py api config today2 (snd run1) in
  fst run1 = Ok false /\ fst run2 = Ok false
  /\ calls (snd run1) = calls s /\ calls (snd run2) = calls s
  /\ active_positions (snd run1) = active_positions s
  /\ active_positions (snd run2) = active_positions s
  /\ active_orders (snd run2) = active_orders s
  /\ option_chains (snd run2) = option_chains s.
Proof.
  intros H1 H2. cbv zeta.
  destruct (close_positions_at_expiry_idle py api config today1 s H1)
    as [lg1 E1].
  rewrite E1. simpl fst. simpl snd.
  assert (H2' : none_to_close config today2 (set_log (log s ++ lg1) s))
    by exact H2.
  destruct (close_positions_at_expiry_idle py api config today2 _ H2')
    as [lg2 E2].
  rewrite E2. simpl. repeat split; reflexivity.
Qed.

(** ** Chain cache *)

(** C8: [get_option_chain_for_expiry] never raises; whenever it returns
    None the chain cache is what it was, and the cache changes only by the
    insertion, under the requested date, of the chain built from a complete
    fetch (expiry matched in the master, token present, chain payload
    received and converted), which is then also the value returned. *)
Theorem get_option_chain_for_expiry_miss_keeps_cache
    (py : Builtins) (api : Gateway) (expiry_date : Z) (s : State) :
  let r := fst (get_option_chain_for_expiry py api expiry_date s) in
  let s' := snd (get_option_chain_for_expiry py api expiry_date s) in
  (r = Ok None -> option_chains s' = option_chains s)
  /\ match option_chains s !! expiry_date with
     | Some chain => r = Ok (Some chain) /\ option_chains s' = option_chains s
     | None =>
         (r = Ok None /\ option_chains s' = option_chains s)
         \/ exists master ts token data chain,
              get_option_chain_master api (calls s) = Some master
              /\ find_expiry_timestamp py (default [] (rm_expiryDates master))
                   expiry_date = Ok (Some ts)
              /\ Py.truthy_str ts = true
              /\ rm_token master = Some token
              /\ Py.truthy_str token = true
              /\ get_option_chain api (calls s ++ [GetOptionChainMaster])
                   ts token = Some data
              /\ OptionChain_from_api_response py data
                   (combine expiry_date 15 30) = Ok chain
              /\ r = Ok (Some chain)
              /\ option_chains s' = <[expiry_date := chain]> (option_chains s)
     end.
Proof.
  cbv zeta. unfold get_option_chain_for_expiry. run.
  destruct (option_chains s !! expiry_date) as [cached|] eqn:Hc.
  { simpl. split; [discriminate|]. split; reflexivity. }
  destruct (get_option_chain_master api (calls s)) as [master|] eqn:Hm;
    [|simpl; split; [reflexivity|left; split; reflexivity]].
  destruct (find_expiry_timestamp py (default [] (rm_expiryDates master))
              expiry_date) as [[ts|]|e] eqn:Hf;
    [|simpl; split; [reflexivity|left; split; reflexivity]..].
  simpl. destruct (Py.truthy_str ts) eqn:Hts;
    [|simpl; split; [reflexivity|left; split; reflexivity]].
  simpl. destruct (rm_token master) as [token|] eqn:Htok;
    [|simpl; split; [reflexivity|left; split; reflexivity]].
  simpl. destruct (Py.truthy_str token) eqn:Htt;
    [|simpl; split; [reflexivity|left; split; reflexivity]].
  simpl.
  destruct (get_option_chain api (calls s ++ [GetOptionChainMaster]) ts token)
    as [data|] eqn:Hd;
    [|simpl; split; [reflexivity|left; split; reflexivity]].
  destruct (OptionChain_from_api_response py data (combine expiry_date 15 30))
    as [chain|e] eqn:Hch;
    [|simpl; split; [reflexivity|left; split; reflexivity]].
  simpl. split; [discriminate|].
  right. exists master, ts, token, data, chain.
  repeat split; auto.
Qed.

(** ** Effects of the helpers on the gateway trace *)

Section HelperEffects.
Variable py : Builtins.
Variable api : Gateway.
Variable config : Config.

Lemma chain_query_not_order new :
  Forall (fun c => is_chain_query c = true) new ->
  submitted new = [] /\ placed new = []
  /\ Forall (fun c => is_cancel_or_modify c = false) new.
Proof.
  induction 1 as [|c new Hc _ (IH1 & IH2 & IH3)]; [repeat split; constructor|].
  destruct c; try discriminate; simpl; rewrite ?IH1, ?IH2;
    repeat split; try reflexivity; constructor; auto.
Qed.

(** The chain cache only reads from the gateway and never raises. *)
Lemma get_option_chain_for_expiry_effects expiry_date s r s' :
  get_option_chain_for_expiry py api expiry_date s = (r, s') ->
  exists v new,
    r = Ok v
    /\ calls s' = calls s ++ new
    /\ Forall (fun c => is_chain_query c = true) new
    /\ active_positions s' = active_positions s
    /\ (forall chain, v = Some chain ->
          option_chains s' !! expiry_date = Some chain)
    /\ (forall d chain, option_chains s !! d = Some chain ->
          option_chains s' !! d = Some chain).
Proof.
  unfold get_option_chain_for_expiry. run.
  destruct (option_chains s !! expiry_date) as [cached|] eqn:Hc.
  { intros [= <- <-]. exists (Some cached), []. rewrite app_nil_r.
    repeat split; auto. intros ? [= <-]. exact Hc. }
  destruct (get_option_chain_master api (calls s)) as [master|].
  2:{ simpl. intros [= <- <-]. exists None, [GetOptionChainMaster].
      simpl. repeat split; auto; discriminate. }
  destruct (find_expiry_timestamp py _ expiry_date) as [[ts|]|e].
  2,3:(simpl; intros [= <- <-]; exists None, [GetOptionChainMaster];
       simpl; repeat split; auto; discriminate).
  simpl. destruct (Py.truthy_str ts).
  2:{ simpl. intros [= <- <-]. exists None, [GetOptionChainMaster].
      simpl. repeat split; auto; discriminate. }
  simpl. destruct (rm_token master) as [token|].
  2:{ simpl. intros [= <- <-]. exists None, [GetOptionChainMaster].
      simpl. repeat split; auto; discriminate. }
  simpl. destruct (Py.truthy_str token).
  2:{ simpl. intros [= <- <-]. exists None, [GetOptionChainMaster].
      simpl. repeat split; auto; discriminate. }
  simpl.
  destruct (get_option_chain api _ ts token) as [data|].
  2:{ simpl. intros [= <- <-].
      exists None, [GetOptionChainMaster; GetOptionChain ts token].
      simpl. rewrite <- app_assoc. repeat split; auto; discriminate. }
  destruct (OptionChain_from_api_response py data _) as [chain|e].
  - simpl. intros [= <- <-].
    exists (Some chain), [GetOptionChainMaster; GetOptionChain ts token].
    simpl. rewrite <- app_assoc. repeat split; auto.
    + intros ? [= <-]. apply lookup_insert_eq.
    + intros d c Hd. rewrite lookup_insert_ne; [exact Hd|].
      intros <-. congruence.
  - simpl. intros [= <- <-].
    exists None, [GetOptionChainMaster; GetOptionChain ts token].
    simpl. rewrite <- app_assoc. repeat split; auto; discriminate.
Qed.

(** A sell leg sends at most one order, for the contract of the given
    strike and type, and yields an order exactly when the gateway
    accepted it. *)
Lemma _place_sell_order_effects option_chain strike option_type quantity
    s r s' :
  _place_sell_order api option_chain strike option_type quantity s = (r, s') ->
  active_positions s' = active_positions s
  /\ option_chains s' = option_chains s
  /\ match contract_at option_chain strike option_type with
     | None => r = Ok None /\ calls s' = calls s
     | Some contract =>
         let p := sell_order_params contract quantity in
         calls s' = calls s ++ [PlaceOrder p (place_order api (calls s) p)]
         /\ match place_order api (calls s) p with
            | Some _ => exists order, r = Ok (Some order)
            | None => r = Ok None
            end
     end.
Proof.
  unfold _place_sell_order, contract_at. run. intros Hrun.
  destruct (Dict.get (contracts option_chain) strike) as [row|]; simpl.
  all: simpl in Hrun.
  2:{ injection Hrun as <- <-. auto. }
  destruct (row !! value option_type) as [contract|]; simpl in Hrun |- *.
  2:{ injection Hrun as <- <-. auto. }
  destruct (place_order api (calls s) (sell_order_params contract quantity))
    as [resp|]; simpl in Hrun.
  2:{ injection Hrun as <- <-. auto. }
  destruct (orderId resp) as [id|]; [destruct (Py.truthy_str id)|];
    simpl in Hrun; injection Hrun as <- <-; simpl; eauto.
Qed.

(** The same for a hedge leg, whose contract sits one strike further. *)
Lemma _place_hedge_order_effects option_chain sell_strike option_type
    quantity s r s' :
  _place_hedge_order api option_chain sell_strike option_type quantity s
    = (r, s') ->
  active_positions s' = active_positions s
  /\ option_chains s' = option_chains s
  /\ match contract_at option_chain
             (hedge_strike_of sell_strike option_type) option_type with
     | None => r = Ok None /\ calls s' = calls s
     | Some contract =>
         let p := hedge_order_params contract quantity in
         calls s' = calls s ++ [PlaceOrder p (place_order api (calls s) p)]
         /\ match place_order api (calls s) p with
            | Some _ => exists order, r = Ok (Some order)
            | None => r = Ok None
            end
     end.
Proof.
  unfold _place_hedge_order, contract_at. run. intros Hrun.
  destruct (Dict.get (contracts option_chain)
              (hedge_strike_of sell_strike option_type)) as [row|]; simpl.
  all: simpl in Hrun.
  2:{ injection Hrun as <- <-. auto. }
  destruct (row !! value option_type) as [contract|]; simpl in Hrun |- *.
  2:{ injection Hrun as <- <-. auto. }
  destruct (place_order api (calls s) (hedge_order_params contract quantity))
    as [resp|]; simpl in Hrun.
  2:{ injection Hrun as <- <-. auto. }
  destruct (orderId resp) as [id|]; [destruct (Py.truthy_str id)|];
    simpl in Hrun; injection Hrun as <- <-; simpl; eauto.
Qed.
End HelperEffects.

(** ** Opening the strangle *)

Section StrangleFacts.
Variable py : Builtins.
Variable api : Gateway.
Variable config : Config.

Lemma placed_app l1 l2 : placed (l1 ++ l2) = placed l1 ++ placed l2.
Proof. apply omap_app. Qed.

Lemma submitted_app l1 l2 :
  submitted (l1 ++ l2) = submitted l1 ++ submitted l2.
Proof. apply omap_app. Qed.

Lemma place_short_strangle_run today investment_amount spot_price s r s' :
  place_short_strangle py api config today investment_amount spot_price s
    = (r, s') ->
  strangle_outcome api config today spot_price s r s'.
Proof.
  unfold place_short_strangle. run. intros Hrun.
  destruct (DateUtils.get_expiry_date_n_weeks_ahead today
              (sell_expiry_weeks config)) as [sell_expiry|] eqn:Hsd.
  2:{ simpl in Hrun. injection Hrun as <- <-. exists []. simpl.
      rewrite app_nil_r. repeat split; auto; try lia.
      right. split; [reflexivity|simpl; lia]. }
  destruct (DateUtils.get_expiry_date_n_weeks_ahead today
              (hedge_expiry_weeks config)) as [hedge_expiry|] eqn:Hhd.
  2:{ simpl in Hrun. injection Hrun as <- <-. exists []. simpl.
      rewrite app_nil_r. repeat split; auto; try lia.
      right. split; [reflexivity|simpl; lia]. }
  exec_chain Hrun E1.
  apply get_option_chain_for_expiry_effects in E1
    as (v1 & new1 & -> & Hc1 & Hq1 & _ & Hch1 & Hmono1).
  simpl in Hc1.
  exec_chain Hrun E2.
  apply get_option_chain_for_expiry_effects in E2
    as (v2 & new2 & -> & Hc2 & Hq2 & _ & Hch2 & Hmono2).
  destruct (chain_query_not_order _ Hq1) as (Hs1 & Hp1 & Hn1).
  destruct (chain_query_not_order _ Hq2) as (Hs2 & Hp2 & Hn2).
  simpl in Hmono1.
  assert (Hleaf : forall L (s2 : State),
    calls s2 = calls s ++ new1 ++ new2 ++ L ->
    Forall (fun c => is_cancel_or_modify c = false) L ->
    (length (submitted L) <= 4)%nat ->
    Forall (fun p => quantity p
                     = lot_size config * lots_per_investment config)
      (submitted L) ->
    (length (placed L) < 4)%nat ->
    strangle_outcome api config today spot_price s (Ok false) s2).
  { intros L s2 HL HnL HlL HqL HpL.
    exists (new1 ++ new2 ++ L). split; [exact HL|].
    rewrite !submitted_app, !placed_app, Hs1, Hs2, Hp1, Hp2. simpl.
    repeat split; auto.
    repeat (apply Forall_app; split); auto. }
  destruct v1 as [sell_chain|]; [destruct v2 as [hedge_chain|]|].
  2,3: (simpl in Hrun; injection Hrun as <- <-; apply (Hleaf []);
        [simpl; chase_calls; rewrite <- ?app_assoc, ?app_nil_r; reflexivity
        | constructor | simpl; lia | constructor | simpl; lia]).
  exec_sell Hrun E3.
  apply _place_sell_order_effects in E3 as (_ & Hoc3 & H3).
  simpl in Hoc3, H3.
  exec_sell Hrun E4.
  apply _place_sell_order_effects in E4 as (_ & Hoc4 & H4).
  leg_cases H3 ce_sell Hct3 resp3 Hresp3 Hc3;
    leg_cases H4 pe_sell Hct4 resp4 Hresp4 Hc4.
  2-9: (simpl in Hrun; injection Hrun as <- <-;
        eapply Hleaf;
        [simpl; chase_calls; rewrite <- ?app_assoc; simpl;
         first [reflexivity
               | instantiate (1 := []); rewrite ?app_nil_r; reflexivity]
        | repeat constructor | simpl; lia | repeat constructor
        | simpl; lia]).
  exec_hedge Hrun E5.
  apply _place_hedge_order_effects in E5 as (_ & Hoc5 & H5).
  simpl in Hoc5, H5.
  exec_hedge Hrun E6.
  apply _place_hedge_order_effects in E6 as (_ & Hoc6 & H6).
  simpl in Hoc6, H6.
  leg_cases H5 ce_hedge Hct5 resp5 Hresp5 Hc5;
    leg_cases H6 pe_hedge Hct6 resp6 Hresp6 Hc6.
  2-9: (simpl in Hrun; injection Hrun as <- <-;
        eapply Hleaf;
        [simpl; chase_calls; rewrite <- ?app_assoc; simpl;
         first [reflexivity
               | instantiate (1 := []); rewrite ?app_nil_r; reflexivity]
        | repeat constructor | simpl; lia | repeat constructor
        | simpl; lia]).
  simpl in Hrun. injection Hrun as <- <-.
  eexists. split.
  { simpl. chase_calls. rewrite <- ?app_assoc. simpl. reflexivity. }
  rewrite !submitted_app, !placed_app, Hs1, Hs2, Hp1, Hp2. simpl.
  split; [repeat (apply Forall_app; split); auto; repeat constructor|].
  split; [lia|]. split; [repeat constructor|].
  left. split; [reflexivity|].
  exists sell_expiry, hedge_expiry, sell_chain, hedge_chain,
    ce_sell, pe_sell, ce_hedge, pe_hedge.
  assert (Hcache : option_chains s5 = option_chains s1) by congruence.
  rewrite Hcache.
  repeat split; auto.
Qed.
End StrangleFacts.


(** ** Independence from the log, and from [investment_amount] *)

Section LogBlind.
Variable py : Builtins.
Variable api : Gateway.
Variable config : Config.

Lemma same_but_log_refl s : same_but_log s s.
Proof. repeat split. Qed.

Lemma log_blind_ret {A} (a : A) : log_blind (ret a) (ret a).
Proof. intros s1 s2 H. split; [reflexivity|exact H]. Qed.

Lemma log_blind_raise {A} e : log_blind (@raise A e) (raise e).
Proof. intros s1 s2 H. split; [reflexivity|exact H]. Qed.

Lemma log_blind_lift {A} (r : Result A) : log_blind (lift r) (lift r).
Proof. intros s1 s2 H. split; [reflexivity|exact H]. Qed.

Lemma log_blind_bind {A B} (m1 m2 : M A) (k1 k2 : A -> M B) :
  log_blind m1 m2 ->
  (forall a, log_blind (k1 a) (k2 a)) ->
  log_blind (bind m1 k1) (bind m2 k2).
Proof.
  intros Hm Hk s1 s2 H. unfold bind.
  destruct (Hm s1 s2 H) as [Hr Hs].
  destruct (m1 s1) as [[a1|e1] t1], (m2 s2) as [[a2|e2] t2];
    simpl in Hr, Hs; try discriminate.
  - injection Hr as ->. apply Hk, Hs.
  - injection Hr as ->. split; [reflexivity|exact Hs].
Qed.

Lemma log_blind_try_except {A} (m1 m2 : M A) (h1 h2 : Exn -> M A) :
  log_blind m1 m2 ->
  (forall e, log_blind (h1 e) (h2 e)) ->
  log_blind (try_except m1 h1) (try_except m2 h2).
Proof.
  intros Hm Hh s1 s2 H. unfold try_except.
  destruct (Hm s1 s2 H) as [Hr Hs].
  destruct (m1 s1) as [[a1|e1] t1], (m2 s2) as [[a2|e2] t2];
    simpl in Hr, Hs; try discriminate.
  - injection Hr as ->. split; [reflexivity|exact Hs].
  - injection Hr as ->. apply Hh, Hs.
Qed.

(** Any two log statements are alike, whatever they write. *)
Lemma log_blind_logger l1 m1 a1 l2 m2 a2 :
  log_blind (logger l1 m1 a1) (logger l2 m2 a2).
Proof. intros s1 s2 H. split; [reflexivity|exact H]. Qed.

Lemma log_blind_get_state_bind {B} (k1 k2 : State -> M B) :
  (forall s1 s2, same_but_log s1 s2 -> log_blind (k1 s1) (k2 s2)) ->
  log_blind (bind get_state k1) (bind get_state k2).
Proof. intros Hk s1 s2 H. unfold bind, get_state. apply Hk; exact H. Qed.

Lemma log_blind_api_place_order p :
  log_blind (api_place_order api p) (api_place_order api p).
Proof.
  intros s1 s2 (Hp & Ho & Hc & Hcalls). unfold api_place_order. simpl.
  rewrite Hcalls. repeat split; auto.
Qed.

Lemma log_blind_api_get_option_chain_master :
  log_blind (api_get_option_chain_master api)
    (api_get_option_chain_master api).
Proof.
  intros s1 s2 (Hp & Ho & Hc & Hcalls).
  unfold api_get_option_chain_master. simpl.
  rewrite Hcalls. repeat split; auto.
Qed.

Lemma log_blind_api_get_option_chain ts token :
  log_blind (api_get_option_chain api ts token)
    (api_get_option_chain api ts token).
Proof.
  intros s1 s2 (Hp & Ho & Hc & Hcalls).
  unfold api_get_option_chain. simpl.
  rewrite Hcalls. repeat split; auto.
Qed.

Lemma log_blind_record_order order :
  log_blind (record_order order) (record_order order).
Proof.
  unfold record_order.
  destruct (ord_order_id order) as [id|]; [|apply log_blind_ret].
  destruct (Py.truthy_str id); [|apply log_blind_ret].
  intros s1 s2 (Hp & Ho & Hc & Hcalls). unfold modify. simpl.
  rewrite Ho. repeat split; auto.
Qed.

Lemma log_blind_cache_insert d chain :
  log_blind
    (modify (fun s =>
       set_option_chains (<[d := chain]> (option_chains s)) s))
    (modify (fun s =>
       set_option_chains (<[d := chain]> (option_chains s)) s)).
Proof.
  intros s1 s2 (Hp & Ho & Hc & Hcalls). unfold modify. simpl.
  rewrite Hc. repeat split; auto.
Qed.

Ltac blind_step :=
  first
    [ apply log_blind_ret
    | apply log_blind_raise
    | apply log_blind_lift
    | apply log_blind_logger
    | apply log_blind_api_place_order
    | apply log_blind_api_get_option_chain_master
    | apply log_blind_api_get_option_chain
    | apply log_blind_record_order
    | apply log_blind_cache_insert
    | apply log_blind_try_except; [|intros ?]
    | apply log_blind_bind; [|intros ?]
    | match goal with
      | |- log_blind (match ?x with _ => _ end) _ => destruct x
      end ].

Lemma log_blind_get_option_chain_for_expiry d :
  log_blind (get_option_chain_for_expiry py api d)
    (get_option_chain_for_expiry py api d).
Proof.
  unfold get_option_chain_for_expiry.
  apply log_blind_try_except; [|intros e; repeat blind_step].
  apply log_blind_get_state_bind. intros s1 s2 (_ & _ & -> & _).
  repeat blind_step.
Qed.

Lemma log_blind__place_sell_order chain strike t q :
  log_blind (_place_sell_order api chain strike t q)
    (_place_sell_order api chain strike t q).
Proof. unfold _place_sell_order. repeat blind_step. Qed.

Lemma log_blind__place_hedge_order chain strike t q :
  log_blind (_place_hedge_order api chain strike t q)
    (_place_hedge_order api chain strike t q).
Proof. unfold _place_hedge_order. cbv zeta. repeat blind_step. Qed.

Lemma log_blind_place_short_strangle today a1 a2 spot :
  log_blind (place_short_strangle py api config today a1 spot)
    (place_short_strangle py api config today a2 spot).
Proof.
  unfold place_short_strangle. cbv zeta.
  repeat first
    [ apply log_blind_get_option_chain_for_expiry
    | apply log_blind__place_sell_order
    | apply log_blind__place_hedge_order
    | blind_step ].
Qed.
End LogBlind.

(** C10: two runs of [place_short_strangle] that differ only in
    [investment_amount] return the same result and send the same requests
    to the gateway, hence place the same orders; they leave the same
    positions, order book and chain cache, and every order they submit has
    quantity lot_size * lots_per_investment. *)
Theorem place_short_strangle_ignores_investment_amount
    (py : Builtins) (api : Gateway) (config : Config) (today : Z)
    (a1 a2 spot_price : Q) (s : State) :
  let run1 := place_short_strangle py api config today a1 spot_price s in
  let run2 := place_short_strangle py api config today a2 spot_price s in
  fst run1 = fst run2
  /\ same_but_log (snd run1) (snd run2)
  /\ exists new,
       calls (snd run1) = calls s ++ new
       /\ calls (snd run2) = calls s ++ new
       /\ Forall (fun p => quantity p
                           = lot_size config * lots_per_investment config)
            (submitted new).
Proof.
  cbv zeta.
  destruct (log_blind_place_short_strangle py api config today a1 a2
              spot_price s s (same_but_log_refl s)) as [Hr Hs].
  split; [exact Hr|]. split; [exact Hs|].
  destruct (place_short_strangle_run py api config today a1 spot_price s
              _ _ (surjective_pairing _)) as (new & Hc & _ & _ & Hq & _).
  exists new. split; [exact Hc|]. split; [|exact Hq].
  destruct Hs as (_ & _ & _ & <-). exact Hc.
Qed.

(** ** Stop loss *)

Section StopLossFacts.
Variable py : Builtins.
Variable api : Gateway.
Variable config : Config.



End StopLossFacts.


(** ** Martingale *)

Section MartingaleFacts.
Variable py : Builtins.
Variable api : Gateway.
Variable config : Config.


Lemma find_sell_strikes_have_contracts chain t target :
  Forall (fun k => is_Some (contract_at chain k t))
    (find_sell_strikes chain t target).
Proof.
  unfold find_sell_strikes. apply Forall_forall. intros k Hk.
  apply list_elem_of_In, filter_In in Hk as [_ Hk].
  unfold is_sell_strike in Hk.
  destruct (contract_at chain k t); [eauto|discriminate].
Qed.


Lemma truthy_oint_nonzero k : k <> 0 -> negb (k =? 0) = true.
Proof. intros H. destruct (Z.eqb_spec k 0); [contradiction|auto]. Qed.

Lemma handle_martingale_missing_contract_run position current_price chain
    k t s :
  martingale_triggered config position current_price ->
  pos_strike_price position = Some k -> k <> 0 ->
  pos_option_type position = Some t ->
  contract_at chain (martingale_strike_of k t) t = None ->
  handle_martingale api config position current_price chain s
  = (Ok false,
     set_log
       (log s ++
        [{| lr_level := INFO;
            lr_message := "Martingale triggered for {}: Price increase {}x";
            lr_args := [AStr (pos_symbol position);
                        ANum (current_price / pos_average_price position)] |};
         {| lr_level := WARNING;
            lr_message :=
              "Martingale strike {} or option type {} not found in option chain";
            lr_args := [AInt (martingale_strike_of k t);
                        AStr (value t)] |}]) s).
Proof.
  intros (Hside & Hnz & Hle) Hk Hk0 Ht Hc.
  unfold handle_martingale. run. rewrite Hside.
  destruct (Qeq_bool (pos_average_price position) 0) eqn:Hz.
  { apply Qeq_bool_iff in Hz. contradiction. }
  simpl. apply Qle_bool_iff in Hle. rewrite Hle. simpl.
  rewrite Hk, Ht. simpl. rewrite (truthy_oint_nonzero k Hk0), Hc. simpl.
  unfold set_log. simpl. rewrite <- app_assoc. reflexivity.
Qed.

End MartingaleFacts.

(** C6 (amended): when [handle_martingale] is triggered for a SELL position
    with a strike and an option type, and the chain has no contract at the
    martingale strike, a warning is logged and the operation stops there:
    it returns False and sends nothing to the gateway, neither the hedge
    BUY nor any martingale SELL. *)
Theorem handle_martingale_missing_contract_aborts
    (api : Gateway) (config : Config) (position : Position)
    (current_price : Q) (chain : OptionChain) (k : Z) (t : OptionType)
    (s : State) :
  martingale_triggered config position current_price ->
  pos_strike_price position = Some k -> k <> 0 ->
  pos_option_type position = Some t ->
  contract_at chain (martingale_strike_of k t) t = None ->
  let run := handle_martingale api config position current_price chain s in
  fst run = Ok false
  /\ calls (snd run) = calls s
  /\ exists triggered_record,
       log (snd run) = log s ++
         [triggered_record;
          {| lr_level := WARNING;
             lr_message :=
               "Martingale strike {} or option type {} not found in option chain";
             lr_args := [AInt (martingale_strike_of k t); AStr (value t)] |}].
Proof.
  intros Htrig Hk Hk0 Ht Hc. cbv zeta.
  rewrite (handle_martingale_missing_contract_run api config position
             current_price chain k t s Htrig Hk Hk0 Ht Hc).
  simpl. repeat split. eexists. reflexivity.
Qed.

(** For a product that is not negative, [int] is the floor. *)
Lemma int_is_floor_nonneg (x : Q) : (0 <= x)%Q -> Py.int x = Qfloor x.
Proof.
  destruct x as [n d]. unfold Qle, Py.int, Qfloor. simpl.
  intros H. apply Z.quot_div_nonneg; lia.
Qed.


(** ** Hedge roll *)

Section RollFacts.
Variable py : Builtins.
Variable api : Gateway.
Variable config : Config.

(** One turn of the roll loop whose close order is accepted: the
    replacement goes through [_place_hedge_order], which takes the strike
    it is given for the strike of a sell leg and moves one strike away
    from it. *)
Lemma roll_one_replacement chain position k t resp s :
  pos_strike_price position = Some k -> k <> 0 ->
  pos_option_type position = Some t ->
  place_order api (calls s) (close_order_params position SELL) = Some resp ->
  fst (roll_one api chain position s) = Ok tt
  /\ calls (snd (roll_one api chain position s))
     = calls s
       ++ PlaceOrder (close_order_params position SELL) (Some resp)
       :: match contract_at chain (hedge_strike_of k t) t with
          | Some c =>
              let p := hedge_order_params c (pos_quantity position) in
              [PlaceOrder p
                 (place_order api
                    (calls s ++ [PlaceOrder (close_order_params position SELL)
                                   (Some resp)]) p)]
          | None => []
          end.
Proof.
  intros Hk Hk0 Ht Hclose. unfold roll_one. run.
  rewrite Hclose, Hk, Ht. simpl. rewrite (truthy_oint_nonzero k Hk0).
  match goal with
  | |- context [_place_hedge_order ?a ?ch ?k' ?t' ?q ?S] =>
      destruct (_place_hedge_order a ch k' t' q S) as [r1 s1] eqn:E
  end.
  apply _place_hedge_order_effects in E as (_ & _ & H).
  destruct (contract_at chain (hedge_strike_of k t) t) as [c|].
  - cbv zeta in H. destruct H as [Hc H]. simpl in Hc.
    destruct (place_order api _ (hedge_order_params c _)) as [r2|];
      [destruct H as [o ->]|subst r1]; simpl;
      rewrite Hc, <- app_assoc; auto.
  - destruct H as [-> Hc]. simpl in Hc. simpl. rewrite Hc. auto.
Qed.

Lemma hedge_strike_of_moves k t : hedge_strike_of k t <> k.
Proof. destruct t; simpl; lia. Qed.
End RollFacts.

(** Positions rebuilt from the gateway never carry the hedge flag: only a
    position constructed with [is_hedge=True] is picked up by the roll. *)
Lemma Position_from_api_response_not_hedge py data position :
  Position_from_api_response py data = Ok position ->
  pos_is_hedge position = false.
Proof.
  unfold Position_from_api_response.
  destruct (ProductType_of_string _); [|discriminate].
  intros [= <-]. reflexivity.
Qed.

(** The strike parser stops at the first character of the CE/PE suffix and
    reads an empty slice. *)
Example extract_strike_example :
  Symbol._extract_strike_from_symbol Example.py "NIFTY26NOV21050CE" = None.
Proof. vm_compute. reflexivity. Qed.


Lemma example_martingale_triggered :
  martingale_triggered Example.config Example.short_call 200.
Proof.
  split; [reflexivity|]. split.
  - intros H. vm_compute in H. discriminate H.
  - intros H. vm_compute in H. discriminate H.
Qed.



(** Without the contract at the martingale strike 21050 nothing is sent
    and the answer is False, although the chain has two call strikes within
    the band around the target premium 50. *)
Lemma handle_martingale_missing_contract_no_sells :
  let run := handle_martingale Example.accept_all Example.config
               Example.short_call 200 Example.chain_without_21050
               Example.short_call_state in
  martingale_triggered Example.config Example.short_call 200
  /\ contract_at Example.chain_without_21050 21050 CE = None
  /\ find_sell_strikes Example.chain_without_21050 CE 50 = [21100; 21150]
  /\ fst run = Ok false
  /\ calls (snd run) = [].
Proof.
  cbv zeta. split; [exact example_martingale_triggered|].
  repeat split; vm_compute; reflexivity.
Qed.

Lemma handle_martingale_missing_contract_aborts_witness :
  let run := handle_martingale Example.accept_all Example.config
               Example.short_call 200 Example.chain_without_21050
               Example.short_call_state in
  fst run = Ok false
  /\ calls (snd run) = calls Example.short_call_state
  /\ exists triggered_record,
       log (snd run) = log Example.short_call_state ++
         [triggered_record;
          {| lr_level := WARNING;
             lr_message :=
               "Martingale strike {} or option type {} not found in option chain";
             lr_args := [AInt (martingale_strike_of 21000 CE);
                         AStr (value CE)] |}].
Proof.
  apply (handle_martingale_missing_contract_aborts Example.accept_all
           Example.config Example.short_call 200 Example.chain_without_21050
           21000 CE Example.short_call_state).
  - exact example_martingale_triggered.
  - reflexivity.
  - lia.
  - reflexivity.
  - vm_compute. reflexivity.
Defined.

Lemma example_none_to_close :
  none_to_close Example.config Example.today Example.far_call_state.
Proof.
  intros close_date H. vm_compute in H. injection H as <-.
  repeat constructor.
Qed.

Lemma close_positions_at_expiry_twice_idle_witness :
  let run1 := close_positions_at_expiry Example.py Example.accept_all
                Example.config Example.today Example.far_call_state in
  let run2 := close_positions_at_expiry Example.py Example.accept_all
                Example.config Example.today (snd run1) in
  fst run1 = Ok false /\ fst run2 = Ok false
  /\ calls (snd run1) = calls Example.far_call_state
  /\ calls (snd run2) = calls Example.far_call_state
  /\ active_positions (snd run1) = active_positions Example.far_call_state
  /\ active_positions (snd run2) = active_positions Example.far_call_state
  /\ active_orders (snd run2) = active_orders Example.far_call_state
  /\ option_chains (snd run2) = option_chains Example.far_call_state.
Proof.
  apply (close_positions_at_expiry_twice_idle Example.py Example.accept_all
           Example.config Example.today Example.today Example.far_call_state).
  - exact example_none_to_close.
  - exact example_none_to_close.
Defined.

(** The example of the stop-loss threshold: sold at 100 with trigger 0.25,
    a current price of 75 triggers and 75.01 does not. *)
Lemma example_stop_loss_at_threshold :
  stop_loss_triggered Example.config Example.short_call 75
  /\ ~ stop_loss_triggered Example.config Example.short_call 75.01.
Proof.
  split.
  - split; [reflexivity|]. split; intros H; vm_compute in H; discriminate H.
  - intros (_ & _ & H). vm_compute in H. apply H. reflexivity.
Qed.

(** * Further properties of the code *)

(** ** Trading days *)

Section TradingDayFacts.
Variable strftime : Z -> string.

Lemma next_trading_loop_spec holidays fuel :
  forall d,
    DateUtils.MINORD <= d <= DateUtils.MAXORD ->
    Z.of_nat fuel = DateUtils.MAXORD - d ->
    match TradingDays.next_trading_loop strftime fuel d holidays with
    | Ok r =>
        d <= r <= DateUtils.MAXORD
        /\ TradingDays.is_trading_day strftime r holidays = true
        /\ forall x, d <= x < r ->
             TradingDays.is_trading_day strftime x holidays = false
    | Raise e =>
        e = OverflowError
        /\ forall x, d <= x <= DateUtils.MAXORD ->
             TradingDays.is_trading_day strftime x holidays = false
    end.
Proof.
  induction fuel as [|fuel IH]; intros d Hd Hfuel; simpl.
  - destruct (TradingDays.is_trading_day strftime d holidays) eqn:Ht.
    + repeat split; try lia. exact Ht.
    + split; [reflexivity|]. intros x Hx.
      replace x with d by lia. exact Ht.
  - destruct (TradingDays.is_trading_day strftime d holidays) eqn:Ht.
    + repeat split; try lia. exact Ht.
    + rewrite date_add_Some by (unfold DateUtils.MINORD in *; lia).
      specialize (IH (d + 1)).
      destruct (TradingDays.next_trading_loop strftime fuel (d + 1) holidays)
        as [r|e].
      * destruct IH as (Hr & Htr & Hbetween); [unfold DateUtils.MINORD in *; lia|lia|].
        repeat split; try lia; [exact Htr|].
        intros x Hx. destruct (Z.eq_dec x d) as [->|Hne]; [exact Ht|].
        apply Hbetween. lia.
      * destruct IH as (He & Hnone); [unfold DateUtils.MINORD in *; lia|lia|].
        split; [exact He|]. intros x Hx.
        destruct (Z.eq_dec x d) as [->|Hne]; [exact Ht|].
        apply Hnone. lia.
Qed.
End TradingDayFacts.

(** X1: for a date of the calendar, what [get_next_trading_day] returns is
    the first trading day after it: later than the date, a trading day, with
    no trading day in between.  It raises only [OverflowError], and only
    when no day after the date up to 9999-12-31 is a trading day. *)
Theorem get_next_trading_day_is_first (strftime : Z -> string)
    (date : Z) (holidays : list string) :
  DateUtils.valid_date date ->
  (forall d,
     TradingDays.get_next_trading_day strftime date holidays = Ok d ->
     date < d <= DateUtils.MAXORD
     /\ TradingDays.is_trading_day strftime d holidays = true
     /\ forall x, date < x < d ->
          TradingDays.is_trading_day strftime x holidays = false)
  /\ (forall e,
       TradingDays.get_next_trading_day strftime date holidays = Raise e ->
       e = OverflowError
       /\ forall x, date < x <= DateUtils.MAXORD ->
            TradingDays.is_trading_day strftime x holidays = false).
Proof.
  intros [Hlo Hhi]. unfold TradingDays.get_next_trading_day.
  destruct (Z.eq_dec date DateUtils.MAXORD) as [->|Hne].
  - vm_compute DateUtils.date_add. split; [discriminate|].
    intros e [= <-]. split; [reflexivity|]. intros x Hx. lia.
  - rewrite date_add_Some by (unfold DateUtils.MINORD in *; lia).
    pose proof (next_trading_loop_spec strftime holidays
                  (Z.to_nat (DateUtils.MAXORD - (date + 1))) (date + 1)) as H.
    destruct (TradingDays.next_trading_loop strftime _ (date + 1) holidays)
      as [r|e].
    + destruct H as (Hr & Htr & Hb); [unfold DateUtils.MINORD in *; lia|lia|].
      split; [|discriminate]. intros d [= <-].
      repeat split; try lia; [exact Htr|]. intros x Hx. apply Hb. lia.
    + destruct H as (He & Hn); [unfold DateUtils.MINORD in *; lia|lia|].
      split; [discriminate|]. intros e' [= <-].
      split; [exact He|]. intros x Hx. apply Hn. lia.
Qed.

Lemma get_next_trading_day_is_first_witness :
  (forall d,
     TradingDays.get_next_trading_day Example_strftime 739925
       ["2026-11-06"] = Ok d ->
     739925 < d <= DateUtils.MAXORD
     /\ TradingDays.is_trading_day Example_strftime d ["2026-11-06"] = true
     /\ forall x, 739925 < x < d ->
          TradingDays.is_trading_day Example_strftime x ["2026-11-06"]
          = false)
  /\ (forall e,
       TradingDays.get_next_trading_day Example_strftime 739925
         ["2026-11-06"] = Raise e ->
       e = OverflowError
       /\ forall x, 739925 < x <= DateUtils.MAXORD ->
            TradingDays.is_trading_day Example_strftime x ["2026-11-06"]
            = false).
Proof.
  apply (get_next_trading_day_is_first Example_strftime 739925
           ["2026-11-06"]).
  unfold DateUtils.valid_date, DateUtils.MINORD, DateUtils.MAXORD. lia.
Defined.

(** Thursday 2026-11-05 with the Friday a holiday: the next trading day is
    Monday 2026-11-09. *)
Example get_next_trading_day_over_holiday :
  TradingDays.get_next_trading_day Example_strftime 739925 ["2026-11-06"]
  = Ok 739929.
Proof. vm_compute. reflexivity. Qed.

Lemma is_trading_day_no_holidays strftime d :
  TradingDays.is_trading_day strftime d [] = negb (5 <=? DateUtils.weekday d).
Proof.
  unfold TradingDays.is_trading_day.
  destruct (5 <=? DateUtils.weekday d); [reflexivity|].
  rewrite bool_decide_eq_false_2; [reflexivity|]. apply not_elem_of_nil.
Qed.

Lemma next_trading_loop_hit strftime fuel d holidays :
  TradingDays.is_trading_day strftime d holidays = true ->
  TradingDays.next_trading_loop strftime fuel d holidays = Ok d.
Proof. intros H. destruct fuel; simpl; rewrite H; reflexivity. Qed.

Lemma next_trading_loop_skip strftime fuel d holidays :
  TradingDays.is_trading_day strftime d holidays = false ->
  DateUtils.MINORD <= d < DateUtils.MAXORD ->
  TradingDays.next_trading_loop strftime (S fuel) d holidays
  = TradingDays.next_trading_loop strftime fuel (d + 1) holidays.
Proof.
  intros H Hd. simpl. rewrite H.
  rewrite date_add_Some by (unfold DateUtils.MINORD in *; lia). reflexivity.
Qed.

Lemma weekday_shift d k :
  DateUtils.weekday (d + k) = (DateUtils.weekday d + k) mod 7.
Proof. unfold DateUtils.weekday. Z.div_mod_to_equations. lia. Qed.

(** X2: without holidays the next trading day is the next day, except that
    a Friday leads to the Monday (three days on) and a Saturday to the
    Monday (two days on); this for every date at least three days before
    the end of the calendar. *)
Theorem get_next_trading_day_skips_weekend (strftime : Z -> string)
    (date : Z) :
  DateUtils.valid_date date ->
  date + 3 <= DateUtils.MAXORD ->
  TradingDays.get_next_trading_day strftime date []
  = Ok (date + (if DateUtils.weekday date =? 4 then 3
                else if DateUtils.weekday date =? 5 then 2 else 1)).
Proof.
  intros [Hlo Hhi] Hmax. unfold TradingDays.get_next_trading_day.
  rewrite date_add_Some by (unfold DateUtils.MINORD in *; lia).
  remember (Z.to_nat (DateUtils.MAXORD - (date + 1))) as fuel eqn:Hf.
  destruct fuel as [|[|fuel]]; [lia..|].
  pose proof (weekday_bound date) as Hb.
  pose proof (weekday_shift date 1) as Hw1.
  pose proof (weekday_shift date 2) as Hw2.
  pose proof (weekday_shift date 3) as Hw3.
  assert (Hcases : DateUtils.weekday date = 0 \/ DateUtils.weekday date = 1
                   \/ DateUtils.weekday date = 2 \/ DateUtils.weekday date = 3
                   \/ DateUtils.weekday date = 4 \/ DateUtils.weekday date = 5
                   \/ DateUtils.weekday date = 6) by lia.
  unfold DateUtils.MINORD in *.
  destruct Hcases as [H|[H|[H|[H|[H|[H|H]]]]]]; rewrite H in *;
    cbn [Z.eqb Pos.eqb].
  1-4, 7: apply next_trading_loop_hit;
    rewrite is_trading_day_no_holidays, Hw1; reflexivity.
  - (* Friday *)
    rewrite next_trading_loop_skip
      by (rewrite ?is_trading_day_no_holidays, ?Hw1;
          unfold DateUtils.MINORD; first [reflexivity | lia]).
    rewrite next_trading_loop_skip
      by (replace (date + 1 + 1) with (date + 2) by lia;
          rewrite ?is_trading_day_no_holidays, ?Hw2;
          unfold DateUtils.MINORD; first [reflexivity | lia]).
    replace (date + 1 + 1 + 1) with (date + 3) by lia.
    apply next_trading_loop_hit.
    rewrite is_trading_day_no_holidays, Hw3. reflexivity.
  - (* Saturday *)
    rewrite next_trading_loop_skip
      by (rewrite ?is_trading_day_no_holidays, ?Hw1;
          unfold DateUtils.MINORD; first [reflexivity | lia]).
    replace (date + 1 + 1) with (date + 2) by lia.
    apply next_trading_loop_hit.
    rewrite is_trading_day_no_holidays, Hw2. reflexivity.
Qed.

Lemma get_next_trading_day_skips_weekend_witness :
  TradingDays.get_next_trading_day Example_strftime 739926 []
  = Ok (739926 + (if DateUtils.weekday 739926 =? 4 then 3
                  else if DateUtils.weekday 739926 =? 5 then 2 else 1)).
Proof.
  apply (get_next_trading_day_skips_weekend Example_strftime 739926).
  - unfold DateUtils.valid_date, DateUtils.MINORD, DateUtils.MAXORD. lia.
  - unfold DateUtils.MAXORD. lia.
Defined.

Lemma is_trading_day_fewer_holidays strftime d (h1 h2 : list string) :
  h1 ⊆ h2 ->
  TradingDays.is_trading_day strftime d h2 = true ->
  TradingDays.is_trading_day strftime d h1 = true.
Proof.
  intros Hsub. unfold TradingDays.is_trading_day.
  destruct (5 <=? DateUtils.weekday d); [discriminate|].
  destruct (bool_decide (strftime d ∈ h2)) eqn:H2; [discriminate|].
  intros _. apply bool_decide_eq_false in H2.
  rewrite bool_decide_eq_false_2; [reflexivity|].
  intros H1. apply H2, Hsub, H1.
Qed.

(** X3: a longer list of holidays never brings the next trading day
    forward. *)
Theorem get_next_trading_day_more_holidays (strftime : Z -> string)
    (date : Z) (h1 h2 : list string) (d1 d2 : Z) :
  DateUtils.valid_date date ->
  h1 ⊆ h2 ->
  TradingDays.get_next_trading_day strftime date h1 = Ok d1 ->
  TradingDays.get_next_trading_day strftime date h2 = Ok d2 ->
  d1 <= d2.
Proof.
  intros [Hlo Hhi] Hsub. unfold TradingDays.get_next_trading_day.
  destruct (Z.eq_dec date DateUtils.MAXORD) as [->|Hne].
  { vm_compute DateUtils.date_add. discriminate. }
  rewrite date_add_Some by (unfold DateUtils.MINORD in *; lia).
  intros H1 H2.
  assert (Hd : DateUtils.MINORD <= date + 1 <= DateUtils.MAXORD)
    by (unfold DateUtils.MINORD in *; lia).
  assert (Hf : Z.of_nat (Z.to_nat (DateUtils.MAXORD - (date + 1)))
               = DateUtils.MAXORD - (date + 1)) by lia.
  pose proof (next_trading_loop_spec strftime h1 _ _ Hd Hf) as S1.
  pose proof (next_trading_loop_spec strftime h2 _ _ Hd Hf) as S2.
  rewrite H1 in S1. rewrite H2 in S2.
  destruct S1 as (_ & _ & Hnone1). destruct S2 as (Hr2 & Ht2 & _).
  destruct (Z_le_gt_dec d1 d2) as [Hle|Hgt]; [exact Hle|].
  apply (is_trading_day_fewer_holidays _ _ _ _ Hsub) in Ht2.
  rewrite Hnone1 in Ht2 by lia. discriminate.
Qed.

Lemma get_next_trading_day_more_holidays_witness :
  TradingDays.get_next_trading_day Example_strftime 739925 [] = Ok 739926
  /\ TradingDays.get_next_trading_day Example_strftime 739925
       ["2026-11-06"] = Ok 739929
  /\ 739926 <= 739929.
Proof.
  split; [vm_compute; reflexivity|]. split; [vm_compute; reflexivity|].
  apply (get_next_trading_day_more_holidays Example_strftime 739925
           [] ["2026-11-06"] 739926 739929).
  - unfold DateUtils.valid_date, DateUtils.MINORD, DateUtils.MAXORD. lia.
  - apply list_subseteq_nil.
  - vm_compute. reflexivity.
  - vm_compute. reflexivity.
Defined.

(** ** The expiry date in closed form *)

(** X4: whenever [get_expiry_date_n_weeks_ahead] returns a date, it is
    today plus the weeks plus the days from today's weekday to the next
    Thursday; on a Thursday it is exactly the weeks ahead. *)
Theorem expiry_n_weeks_ahead_closed_form (today weeks e : Z) :
  DateUtils.get_expiry_date_n_weeks_ahead today weeks = Some e ->
  e = today + 7 * weeks + (3 - DateUtils.weekday today) mod 7
  /\ (DateUtils.weekday today = 3 -> e = today + 7 * weeks).
Proof.
  unfold DateUtils.get_expiry_date_n_weeks_ahead. intros H.
  destruct (DateUtils.timedelta weeks 0) as [w|] eqn:Hw; [|discriminate].
  apply timedelta_inv in Hw. simpl in H.
  destruct (DateUtils.date_add today w) as [target|] eqn:Ht; [|discriminate].
  apply date_add_inv in Ht as [-> _]. simpl in H.
  destruct (DateUtils.timedelta 0 _) as [k|] eqn:Hk; [|discriminate].
  apply timedelta_inv in Hk. simpl in H.
  apply date_add_inv in H as [-> _]. subst w k.
  unfold DateUtils.weekday. split.
  - Z.div_mod_to_equations. lia.
  - intros H3. Z.div_mod_to_equations. lia.
Qed.

Lemma expiry_n_weeks_ahead_closed_form_witness :
  739960 = 739924 + 7 * 5 + (3 - DateUtils.weekday 739924) mod 7
  /\ (DateUtils.weekday 739924 = 3 -> 739960 = 739924 + 7 * 5).
Proof.
  apply (expiry_n_weeks_ahead_closed_form 739924 5 739960).
  vm_compute. reflexivity.
Defined.

(** X5: two expiry dates computed on the same day lie a whole number of
    weeks apart, the difference of the two horizons: the sell legs and the
    hedge legs of a strangle expire 7 x (sell weeks - hedge weeks) days
    apart. *)
Theorem expiry_dates_whole_weeks_apart (today w1 w2 e1 e2 : Z) :
  DateUtils.get_expiry_date_n_weeks_ahead today w1 = Some e1 ->
  DateUtils.get_expiry_date_n_weeks_ahead today w2 = Some e2 ->
  e2 - e1 = 7 * (w2 - w1).
Proof.
  intros H1 H2.
  apply expiry_date_sound in H1 as [Hw1 Hr1].
  apply expiry_date_sound in H2 as [Hw2 Hr2].
  unfold DateUtils.weekday in *. Z.div_mod_to_equations. lia.
Qed.

Lemma expiry_dates_whole_weeks_apart_witness :
  DateUtils.get_expiry_date_n_weeks_ahead 739924 1 = Some 739932
  /\ DateUtils.get_expiry_date_n_weeks_ahead 739924 5 = Some 739960
  /\ 739960 - 739932 = 7 * (5 - 1).
Proof.
  split; [vm_compute; reflexivity|]. split; [vm_compute; reflexivity|].
  apply (expiry_dates_whole_weeks_apart 739924 1 5 739932 739960);
    vm_compute; reflexivity.
Defined.

(** ** models.py: the symbol parsers and the converters *)

Section SymbolFacts.

Lemma substring_empty n s : String.substring n 0 s = "".
Proof. revert n. induction s as [|c s IH]; intros [|n]; simpl; auto. Qed.

Lemma list_ascii_rev_app s1 s2 :
  list_ascii_of_string (String.rev_app s1 s2)
  = List.rev (list_ascii_of_string s1) ++ list_ascii_of_string s2.
Proof.
  revert s2. induction s1 as [|a s1 IH]; intros s2; simpl; [reflexivity|].
  rewrite IH. simpl. rewrite <- app_assoc. reflexivity.
Qed.

Lemma get_lookup n s : String.get n s = list_ascii_of_string s !! n.
Proof. revert n. induction s as [|c s IH]; intros [|n]; simpl; auto. Qed.

Lemma length_list_ascii s :
  String.length s = length (list_ascii_of_string s).
Proof. induction s as [|c s IH]; simpl; auto. Qed.

Lemma prefix2_inv a b r :
  String.prefix (String a (String b "")) r = true ->
  exists r', r = String a (String b r').
Proof.
  destruct r as [|a' [|b' r']]; simpl; try discriminate.
  - destruct (ascii_dec a a'); discriminate.
  - destruct (ascii_dec a a') as [<-|]; [|discriminate].
    destruct (ascii_dec b b') as [<-|]; [|discriminate].
    eauto.
Qed.

(** A symbol that ends with two given characters, as a list. *)
Lemma endswith2_inv s a b :
  Symbol.endswith s (String a (String b "")) = true ->
  exists l, list_ascii_of_string s = l ++ [a; b].
Proof.
  unfold Symbol.endswith. intros H.
  change (String.rev (String a (String b ""))) with (String b (String a ""))
    in H.
  apply prefix2_inv in H as [r' Hr].
  apply (f_equal list_ascii_of_string) in Hr.
  unfold String.rev in Hr. rewrite list_ascii_rev_app, app_nil_r in Hr.
  simpl in Hr. exists (List.rev (list_ascii_of_string r')).
  apply (f_equal (@List.rev ascii)) in Hr.
  rewrite List.rev_involutive in Hr. rewrite Hr. simpl.
  rewrite <- app_assoc. reflexivity.
Qed.

(** The scan starts on the first character of the suffix, which is a
    letter, and so reads the empty slice between it and the suffix. *)
Lemma strike_scan_at_suffix py s l c x :
  list_ascii_of_string s = l ++ [c; x] ->
  Symbol.isdigit c = false ->
  Symbol.strike_scan py s (String.length s - 2) = Some (int_of_str py "").
Proof.
  intros Hs Hc.
  assert (Hlen : String.length s = (length l + 2)%nat).
  { rewrite length_list_ascii, Hs, length_app. reflexivity. }
  remember (String.length s - 2)%nat as i eqn:Hi.
  assert (Hil : i = length l) by lia.
  assert (Hget : String.get i s = Some c).
  { rewrite get_lookup, Hs, Hil.
    rewrite lookup_app_r by lia.
    replace (length l - length l)%nat with 0%nat by lia. reflexivity. }
  assert (Hslice : Symbol.slice s (i + 1) i = "").
  { unfold Symbol.slice.
    replace (i - (i + 1))%nat with 0%nat by lia.
    apply substring_empty. }
  destruct i as [|j]; simpl; rewrite Hget, Hc; simpl;
    rewrite <- Hi; simpl in Hslice; rewrite Hslice; reflexivity.
Qed.

Lemma extract_strike_none py symbol :
  int_of_str py "" = None ->
  Symbol._extract_strike_from_symbol py symbol = None.
Proof.
  intros Hint. unfold Symbol._extract_strike_from_symbol.
  destruct (Symbol.endswith symbol "CE") eqn:Hce.
  { apply endswith2_inv in Hce as [l Hl]. simpl.
    rewrite (strike_scan_at_suffix py symbol l _ _ Hl eq_refl). exact Hint. }
  destruct (Symbol.endswith symbol "PE") eqn:Hpe; [|reflexivity].
  apply endswith2_inv in Hpe as [l Hl]. simpl.
  rewrite (strike_scan_at_suffix py symbol l _ _ Hl eq_refl). exact Hint.
Qed.
End SymbolFacts.

(** X6: with an [int] that rejects the empty string, as Python's does,
    [_extract_strike_from_symbol] returns None for every symbol: on a
    symbol that ends with CE or PE the scan stops at once on the letter
    before the last one and converts the empty slice; on any other symbol
    it does not scan. *)
Theorem extract_strike_from_symbol_always_None (py : Builtins)
    (symbol : string) :
  int_of_str py "" = None ->
  Symbol._extract_strike_from_symbol py symbol = None.
Proof. apply extract_strike_none. Qed.

Lemma extract_strike_from_symbol_always_None_witness :
  Symbol._extract_strike_from_symbol Example.py "NIFTY26NOV21000PE" = None.
Proof.
  apply (extract_strike_from_symbol_always_None Example.py
           "NIFTY26NOV21000PE").
  reflexivity.
Defined.

(** X7: [Position.from_api_response] raises only [ValueError], and only
    for a product string that names no product type.  The position it
    builds has no strike price (with an [int] that rejects the empty
    string), neither flag set, the absolute net quantity as its quantity,
    and the BUY side exactly for a positive net quantity, so that a flat
    position counts as a SELL. *)
Theorem Position_from_api_response_fields (py : Builtins)
    (data : RawPosition) :
  int_of_str py "" = None ->
  match Position_from_api_response py data with
  | Ok position =>
      pos_strike_price position = None
      /\ pos_is_hedge position = false
      /\ pos_is_martingale position = false
      /\ pos_quantity position = Z.abs (default 0 (rp_netQuantity data))
      /\ (pos_side position = BUY <-> 0 < default 0 (rp_netQuantity data))
      /\ ProductType_of_string (default "NRML" (rp_product data))
         = Some (pos_product position)
  | Raise e =>
      e = ValueError
      /\ ProductType_of_string (default "NRML" (rp_product data)) = None
  end.
Proof.
  intros Hint. unfold Position_from_api_response.
  destruct (ProductType_of_string _) as [product|]; [|auto].
  simpl. rewrite extract_strike_none by exact Hint.
  repeat split; try reflexivity.
  - destruct (Z.ltb_spec 0 (default 0 (rp_netQuantity data)));
      [auto|discriminate].
  - destruct (Z.ltb_spec 0 (default 0 (rp_netQuantity data)));
      [auto|lia].
Qed.

Lemma Position_from_api_response_fields_witness :
  match Position_from_api_response Example.py Sample.raw_short_call with
  | Ok position =>
      pos_strike_price position = None
      /\ pos_is_hedge position = false
      /\ pos_is_martingale position = false
      /\ pos_quantity position
         = Z.abs (default 0 (rp_netQuantity Sample.raw_short_call))
      /\ (pos_side position = BUY
          <-> 0 < default 0 (rp_netQuantity Sample.raw_short_call))
      /\ ProductType_of_string
           (default "NRML" (rp_product Sample.raw_short_call))
         = Some (pos_product position)
  | Raise e =>
      e = ValueError
      /\ ProductType_of_string
           (default "NRML" (rp_product Sample.raw_short_call)) = None
  end.
Proof.
  apply (Position_from_api_response_fields Example.py Sample.raw_short_call).
  reflexivity.
Defined.

(** ** Insertion-ordered dictionaries *)

Section DictFacts.
Context {K V : Type} `{EqDecision K}.
Implicit Types (d : list (K * V)) (k : K) (v : V).

Lemma Dict_get_set_eq d k v : Dict.get (Dict.set d k v) k = Some v.
Proof.
  induction d as [|[k' v'] d IH]; simpl.
  - rewrite decide_True by reflexivity. reflexivity.
  - destruct (decide (k = k')) as [->|Hne]; simpl.
    + rewrite decide_True by reflexivity. reflexivity.
    + rewrite decide_False by exact Hne. exact IH.
Qed.

Lemma Dict_get_set_ne d k k' v :
  k' <> k -> Dict.get (Dict.set d k v) k' = Dict.get d k'.
Proof.
  intros Hne. induction d as [|[k0 v0] d IH]; simpl.
  - rewrite decide_False by exact Hne. reflexivity.
  - destruct (decide (k = k0)) as [->|Hne0]; simpl.
    + rewrite !decide_False by exact Hne. reflexivity.
    + destruct (decide (k' = k0)); [reflexivity|exact IH].
Qed.

Lemma Dict_keys_set d k v :
  Dict.keys (Dict.set d k v)
  = if Dict.contains d k then Dict.keys d else Dict.keys d ++ [k].
Proof.
  unfold Dict.contains, Dict.keys.
  induction d as [|[k' v'] d IH]; simpl; [reflexivity|].
  destruct (decide (k = k')) as [->|Hne]; simpl; [reflexivity|].
  rewrite IH. destruct (Dict.get d k); reflexivity.
Qed.

Lemma Dict_get_Some_keys d k v : Dict.get d k = Some v -> k ∈ Dict.keys d.
Proof.
  unfold Dict.keys. induction d as [|[k' v'] d IH]; simpl; [discriminate|].
  destruct (decide (k = k')) as [->|Hne]; intros Hg.
  - apply list_elem_of_here.
  - apply list_elem_of_further, IH, Hg.
Qed.

Lemma Dict_keys_get d k : k ∈ Dict.keys d -> is_Some (Dict.get d k).
Proof.
  unfold Dict.keys. induction d as [|[k' v'] d IH]; simpl.
  - intros Hin. apply elem_of_nil in Hin. contradiction.
  - intros Hin. destruct (decide (k = k')) as [->|Hne]; [eauto|].
    apply elem_of_cons in Hin as [Heq|Hin]; [contradiction|].
    apply IH, Hin.
Qed.

Lemma Dict_keys_set_elem d k v k' :
  k' ∈ Dict.keys (Dict.set d k v) <-> k' = k \/ k' ∈ Dict.keys d.
Proof.
  rewrite Dict_keys_set. unfold Dict.contains.
  destruct (Dict.get d k) as [v0|] eqn:Hg.
  - split; [auto|]. intros [->|Hin]; [|exact Hin].
    eapply Dict_get_Some_keys, Hg.
  - rewrite elem_of_app, list_elem_of_singleton. tauto.
Qed.

Lemma Dict_keys_set_NoDup d k v :
  NoDup (Dict.keys d) -> NoDup (Dict.keys (Dict.set d k v)).
Proof.
  intros Hnd. rewrite Dict_keys_set. unfold Dict.contains.
  destruct (Dict.get d k) as [v0|] eqn:Hg; [exact Hnd|].
  apply NoDup_app. split; [exact Hnd|]. split; [|apply NoDup_singleton].
  intros x Hx Hk. apply list_elem_of_singleton in Hk as ->.
  apply Dict_keys_get in Hx as [v1 Hv1]. congruence.
Qed.

(** What sits in a dict is what a lookup of its key finds, when no key
    occurs twice. *)
Lemma Dict_get_elem d k v :
  NoDup (Dict.keys d) -> (k, v) ∈ d -> Dict.get d k = Some v.
Proof.
  unfold Dict.keys. induction d as [|[k' v'] d IH]; simpl; intros Hnd Hin.
  - apply elem_of_nil in Hin. contradiction.
  - apply NoDup_cons in Hnd as [Hk' Hnd].
    apply elem_of_cons in Hin as [[= <- <-]|Hin].
    + rewrite decide_True by reflexivity. reflexivity.
    + destruct (decide (k = k')) as [->|Hne]; [|apply IH; assumption].
      exfalso. apply Hk'. apply list_elem_of_fmap. exists (k', v). auto.
Qed.

Lemma Dict_get_Some_elem d k v : Dict.get d k = Some v -> (k, v) ∈ d.
Proof.
  induction d as [|[k' v'] d IH]; simpl; [discriminate|].
  destruct (decide (k = k')) as [->|Hne].
  - intros [= ->]. apply list_elem_of_here.
  - intros Hg. apply list_elem_of_further, IH, Hg.
Qed.
End DictFacts.

(** ** The chain built from a payload *)

Section ChainFacts.
Variable py : Builtins.

Lemma chain_row_lookup strike_data expiry_date t :
  chain_row strike_data expiry_date !! value t
  = (fun raw => OptionContract_from_api_response raw expiry_date)
      <$> strike_data !! value t.
Proof.
  unfold chain_row.
  destruct t; simpl;
    destruct (strike_data !! "CE") as [ce|], (strike_data !! "PE") as [pe|];
    simpl;
    rewrite ?lookup_insert_eq, ?lookup_insert_ne, ?lookup_insert_eq,
      ?lookup_empty by discriminate; reflexivity.
Qed.

(** The rows after the loop: those before it, and one per item, a later
    item replacing the row of an earlier one with the same strike. *)
Lemma chain_rows_spec items expiry_date :
  forall acc rows,
    chain_rows py items expiry_date acc = Ok rows ->
    (NoDup (Dict.keys acc) -> NoDup (Dict.keys rows))
    /\ (forall k, k ∈ Dict.keys rows <->
          k ∈ Dict.keys acc
          \/ exists strike_str, strike_str ∈ Dict.keys items
                                /\ int_of_str py strike_str = Some k)
    /\ (forall k row, Dict.get rows k = Some row ->
          Dict.get acc k = Some row
          \/ exists strike_str strike_data,
               (strike_str, strike_data) ∈ items
               /\ int_of_str py strike_str = Some k
               /\ row = chain_row strike_data expiry_date).
Proof.
  induction items as [|[strike_str strike_data] items IH]; intros acc rows;
    simpl.
  - intros [= <-]. split; [auto|]. split; [|auto].
    intros k. split; [auto|]. intros [H|(x & Hx & _)]; [exact H|].
    apply elem_of_nil in Hx. contradiction.
  - destruct (int_of_str py strike_str) as [strike|] eqn:Hp; [|discriminate].
    intros Hrun. apply IH in Hrun as (Hnd & Hkeys & Hget).
    split; [|split].
    + intros Hacc. apply Hnd, Dict_keys_set_NoDup, Hacc.
    + intros k. rewrite Hkeys, Dict_keys_set_elem. split.
      * intros [[->|Hk]|(x & Hx & Hpx)]; auto.
        -- right. exists strike_str. split; [apply list_elem_of_here|auto].
        -- right. exists x. split; [apply list_elem_of_further, Hx|auto].
      * intros [Hk|(x & Hx & Hpx)]; [auto|].
        apply elem_of_cons in Hx as [->|Hx].
        -- left. left. congruence.
        -- right. eauto.
    + intros k row Hk. apply Hget in Hk as [Hk|(x & xd & Hx & Hpx & ->)].
      * destruct (decide (k = strike)) as [->|Hne].
        -- rewrite Dict_get_set_eq in Hk. injection Hk as <-.
           right. exists strike_str, strike_data.
           split; [apply list_elem_of_here|auto].
        -- rewrite Dict_get_set_ne in Hk by exact Hne. auto.
      * right. exists x, xd. split; [apply list_elem_of_further, Hx|auto].
Qed.

Lemma chain_rows_Raise items expiry_date :
  forall acc e,
    chain_rows py items expiry_date acc = Raise e ->
    e = ValueError
    /\ exists strike_str, strike_str ∈ Dict.keys items
                          /\ int_of_str py strike_str = None.
Proof.
  induction items as [|[strike_str strike_data] items IH]; intros acc e;
    simpl; [discriminate|].
  destruct (int_of_str py strike_str) as [strike|] eqn:Hp.
  - intros Hrun. apply IH in Hrun as (-> & x & Hx & Hpx).
    split; [reflexivity|]. exists x.
    split; [apply list_elem_of_further, Hx|exact Hpx].
  - intros [= <-]. split; [reflexivity|]. exists strike_str.
    split; [apply list_elem_of_here|exact Hp].
Qed.
End ChainFacts.

(** X8: every contract found in a chain built by
    [OptionChain.from_api_response] carries the expiry date the chain was
    built for, and is the conversion of the entry that some item of the
    payload, whose key parses to the strike looked up, has under the option
    type looked up. *)
Theorem OptionChain_from_api_response_lookup (py : Builtins)
    (data : RawChain) (expiry_date : datetime) (chain : OptionChain)
    (k : Z) (t : OptionType) (c : OptionContract) :
  OptionChain_from_api_response py data expiry_date = Ok chain ->
  contract_at chain k t = Some c ->
  chain_expiry_date chain = expiry_date
  /\ oc_expiry_date c = expiry_date
  /\ exists strike_str strike_data raw,
       (strike_str, strike_data) ∈ default [] (rch_strikePrices data)
       /\ int_of_str py strike_str = Some k
       /\ strike_data !! value t = Some raw
       /\ c = OptionContract_from_api_response raw expiry_date.
Proof.
  unfold OptionChain_from_api_response, contract_at.
  destruct (chain_rows py _ expiry_date []) as [rows|e] eqn:Hrows;
    [|discriminate].
  intros [= <-]. simpl.
  destruct (Dict.get rows k) as [row|] eqn:Hrow; [|discriminate].
  simpl. intros Hc.
  apply chain_rows_spec in Hrows as (_ & _ & Hget).
  apply Hget in Hrow as [Hnil|(x & xd & Hx & Hpx & ->)]; [discriminate|].
  rewrite chain_row_lookup in Hc.
  destruct (xd !! value t) as [raw|] eqn:Hraw; [|discriminate].
  injection Hc as <-. split; [reflexivity|]. split; [reflexivity|].
  exists x, xd, raw. auto.
Qed.

Lemma OptionChain_from_api_response_lookup_witness :
  exists chain c,
    OptionChain_from_api_response Example.py Sample.raw_chain
      (combine 739932 15 30) = Ok chain
    /\ contract_at chain 21000 CE = Some c
    /\ chain_expiry_date chain = combine 739932 15 30
    /\ oc_expiry_date c = combine 739932 15 30
    /\ exists strike_str strike_data raw,
         (strike_str, strike_data)
           ∈ default [] (rch_strikePrices Sample.raw_chain)
         /\ int_of_str Example.py strike_str = Some 21000
         /\ strike_data !! value CE = Some raw
         /\ c = OptionContract_from_api_response raw (combine 739932 15 30).
Proof.
  eexists _, _. split; [vm_compute; reflexivity|].
  split; [vm_compute; reflexivity|].
  eapply (OptionChain_from_api_response_lookup Example.py Sample.raw_chain
            (combine 739932 15 30) _ 21000 CE _);
    vm_compute; reflexivity.
Defined.

(** X9: the strikes of a chain built by [OptionChain.from_api_response]
    are the values of [int] on the keys of the payload, each listed once
    even when two keys parse to the same strike; the conversion fails only
    with [ValueError], on a payload with a key that [int] rejects. *)
Theorem OptionChain_from_api_response_strikes (py : Builtins)
    (data : RawChain) (expiry_date : datetime) :
  let items := default [] (rch_strikePrices data) in
  match OptionChain_from_api_response py data expiry_date with
  | Ok chain =>
      NoDup (Dict.keys (contracts chain))
      /\ forall k, k ∈ Dict.keys (contracts chain) <->
           exists strike_str, strike_str ∈ Dict.keys items
                              /\ int_of_str py strike_str = Some k
  | Raise e =>
      e = ValueError
      /\ exists strike_str, strike_str ∈ Dict.keys items
                            /\ int_of_str py strike_str = None
  end.
Proof.
  cbv zeta. unfold OptionChain_from_api_response.
  destruct (chain_rows py _ expiry_date []) as [rows|e] eqn:Hrows.
  - apply chain_rows_spec in Hrows as (Hnd & Hkeys & _). simpl.
    split; [apply Hnd; constructor|].
    intros k. rewrite Hkeys. split; [|auto].
    intros [Hnil|H]; [|exact H]. apply elem_of_nil in Hnil. contradiction.
  - apply chain_rows_Raise in Hrows. exact Hrows.
Qed.

(** ** The ledger: [_update_positions] and [_update_position_pnl] *)

Section LedgerFacts.
Variable py : Builtins.
Variable api : Gateway.

Lemma _update_position_pnl_unfold :
  _update_position_pnl api
  = try_except
      (s <- get_state ;; for_each (active_positions s) (pnl_step api))
      (fun e => logger ERROR "Error updating position P&L: {}" [AExn e]).
Proof. reflexivity. Qed.

Lemma _update_positions_unfold :
  _update_positions py api
  = (logger INFO "Updating active positions" [] ;;
     try_except
       (positions_data <- api_get_positions api ;;
        match positions_data with
        | None | Some [] =>
            logger WARNING "No positions data received from API" []
        | Some positions_data =>
            modify (set_active_positions []) ;;
            for_each positions_data (rebuild_step py) ;;
            s <- get_state ;;
            logger INFO "Updated {} active positions"
              [AInt (Z.of_nat (length (active_positions s)))] ;;
            _update_position_pnl api
        end)
       (fun e => logger ERROR "Error updating positions: {}" [AExn e])).
Proof. reflexivity. Qed.

Lemma Dict_keys_set_in {V} (d : list (string * V)) k v :
  k ∈ Dict.keys d -> Dict.keys (Dict.set d k v) = Dict.keys d.
Proof.
  intros Hin. rewrite Dict_keys_set. unfold Dict.contains.
  apply Dict_keys_get in Hin as [v0 ->]. reflexivity.
Qed.

Lemma Dict_set_Forall {V} (Q : string * V -> Prop) (d : list (string * V))
    k v :
  Forall Q d -> Q (k, v) -> Forall Q (Dict.set d k v).
Proof.
  intros Hd Hkv. induction Hd as [|[k' v'] d Hx Hd IH]; simpl.
  - constructor; [exact Hkv|constructor].
  - destruct (decide (k = k')); constructor; auto.
Qed.

(** One turn of the P&L loop: a quote is asked for; the position is
    rewritten with a new P&L or left as it is. *)
Lemma pnl_step_effects symbol position s :
  fst (pnl_step api (symbol, position) s) = Ok tt
  /\ calls (snd (pnl_step api (symbol, position) s))
     = calls s ++ [GetQuote symbol]
  /\ active_orders (snd (pnl_step api (symbol, position) s))
     = active_orders s
  /\ option_chains (snd (pnl_step api (symbol, position) s))
     = option_chains s
  /\ (active_positions (snd (pnl_step api (symbol, position) s))
      = active_positions s
      \/ exists pnl,
           active_positions (snd (pnl_step api (symbol, position) s))
           = Dict.set (active_positions s) symbol (with_pnl position pnl)).
Proof.
  unfold pnl_step, _get_current_price. run. simpl.
  destruct (get_quote api (calls s) symbol) as [quote|]; simpl.
  - repeat split; auto. right. eexists. reflexivity.
  - repeat split; auto.
Qed.

Lemma pnl_pass_spec (Q : string * Position -> Prop) :
  (forall k p x, Q (k, p) -> Q (k, with_pnl p x)) ->
  forall items s,
    Forall Q items ->
    Forall (fun item => fst item ∈ Dict.keys (active_positions s)) items ->
    Forall Q (active_positions s) ->
    fst (for_each items (pnl_step api) s) = Ok tt
    /\ calls (snd (for_each items (pnl_step api) s))
       = calls s ++ map (fun item => GetQuote (fst item)) items
    /\ active_orders (snd (for_each items (pnl_step api) s))
       = active_orders s
    /\ option_chains (snd (for_each items (pnl_step api) s))
       = option_chains s
    /\ Dict.keys (active_positions (snd (for_each items (pnl_step api) s)))
       = Dict.keys (active_positions s)
    /\ Forall Q (active_positions (snd (for_each items (pnl_step api) s))).
Proof.
  intros Hwith. induction items as [|[symbol position] items IH];
    intros s HQ Hin Hs.
  - simpl. rewrite app_nil_r. repeat split; auto.
  - apply Forall_cons in HQ as [HQ1 HQ]. apply Forall_cons in Hin as [Hin1 Hin].
    simpl in Hin1. simpl. unfold bind.
    destruct (pnl_step_effects symbol position s)
      as (Hr & Hc & Ho & Hch & Hp).
    destruct (pnl_step api (symbol, position) s) as [r1 s1].
    simpl in Hr, Hc, Ho, Hch, Hp. subst r1.
    assert (Hkeys : Dict.keys (active_positions s1)
                    = Dict.keys (active_positions s)).
    { destruct Hp as [->|[pnl ->]]; [reflexivity|].
      apply Dict_keys_set_in, Hin1. }
    assert (HQs1 : Forall Q (active_positions s1)).
    { destruct Hp as [->|[pnl ->]]; [exact Hs|].
      apply Dict_set_Forall; [exact Hs|apply Hwith, HQ1]. }
    destruct (IH s1 HQ) as (Hr' & Hc' & Ho' & Hch' & Hk' & HQ');
      [rewrite Hkeys; exact Hin|exact HQs1|].
    split; [exact Hr'|]. split; [rewrite Hc', Hc, <- app_assoc; reflexivity|].
    split; [congruence|]. split; [congruence|]. split; [congruence|].
    exact HQ'.
Qed.

Lemma Forall_keys_self {V} (d : list (string * V)) :
  Forall (fun item => fst item ∈ Dict.keys d) d.
Proof.
  apply Forall_forall. intros [k v] Hin. simpl.
  apply list_elem_of_fmap. exists (k, v). auto.
Qed.

(** The P&L pass never raises; it asks one quote per position, in ledger
    order, and keeps the keys of the ledger. *)
Lemma _update_position_pnl_spec (Q : string * Position -> Prop) s :
  (forall k p x, Q (k, p) -> Q (k, with_pnl p x)) ->
  Forall Q (active_positions s) ->
  fst (_update_position_pnl api s) = Ok tt
  /\ calls (snd (_update_position_pnl api s))
     = calls s ++ map GetQuote (Dict.keys (active_positions s))
  /\ active_orders (snd (_update_position_pnl api s)) = active_orders s
  /\ option_chains (snd (_update_position_pnl api s)) = option_chains s
  /\ Dict.keys (active_positions (snd (_update_position_pnl api s)))
     = Dict.keys (active_positions s)
  /\ Forall Q (active_positions (snd (_update_position_pnl api s))).
Proof.
  intros Hwith HQ. rewrite _update_position_pnl_unfold.
  unfold try_except, bind, get_state.
  destruct (pnl_pass_spec Q Hwith (active_positions s) s HQ
              (Forall_keys_self _) HQ) as (Hr & Hc & Ho & Hch & Hk & HQ').
  destruct (for_each (active_positions s) (pnl_step api) s) as [r1 s1].
  simpl in *. subst r1. simpl. unfold Dict.keys. rewrite map_map.
  repeat split; auto.
Qed.

Lemma rebuild_step_run data s :
  rebuild_step py data s
  = match Position_from_api_response py data with
    | Ok p =>
        (Ok tt,
         set_active_positions
           (Dict.set (active_positions s) (pos_symbol p) p) s)
    | Raise e => (Raise e, s)
    end.
Proof.
  unfold rebuild_step. run.
  destruct (Position_from_api_response py data); reflexivity.
Qed.

(** The rebuild loop: a position per record, under its symbol, until a
    record cannot be converted. *)
Lemma rebuild_loop_spec (Q : string * Position -> Prop) :
  (forall data p, Position_from_api_response py data = Ok p ->
                  Q (pos_symbol p, p)) ->
  forall datas s,
    Forall Q (active_positions s) ->
    NoDup (Dict.keys (active_positions s)) ->
    (fst (for_each datas (rebuild_step py) s) = Ok tt
     \/ fst (for_each datas (rebuild_step py) s) = Raise ValueError)
    /\ calls (snd (for_each datas (rebuild_step py) s)) = calls s
    /\ log (snd (for_each datas (rebuild_step py) s)) = log s
    /\ active_orders (snd (for_each datas (rebuild_step py) s))
       = active_orders s
    /\ option_chains (snd (for_each datas (rebuild_step py) s))
       = option_chains s
    /\ Forall Q (active_positions (snd (for_each datas (rebuild_step py) s)))
    /\ NoDup (Dict.keys
                (active_positions (snd (for_each datas (rebuild_step py) s)))).
Proof.
  intros Hfresh. induction datas as [|data datas IH]; intros s HQ Hnd.
  - simpl. repeat split; auto.
  - simpl. unfold bind. rewrite rebuild_step_run.
    destruct (Position_from_api_response py data) as [p|e] eqn:Hp.
    + simpl.
      destruct (IH (set_active_positions
                      (Dict.set (active_positions s) (pos_symbol p) p) s))
        as (Hr & Hc & Hl & Ho & Hch & HQ' & Hnd').
      * simpl. apply Dict_set_Forall; [exact HQ|eapply Hfresh, Hp].
      * simpl. apply Dict_keys_set_NoDup, Hnd.
      * repeat split; auto.
    + simpl. repeat split; auto. right.
      unfold Position_from_api_response in Hp.
      destruct (ProductType_of_string _); [discriminate|].
      injection Hp as <-. reflexivity.
Qed.

(** [_update_positions] as a whole, for a property [Q] of ledger items
    that a new P&L keeps and that freshly converted positions have. *)
Lemma _update_positions_spec (Q : string * Position -> Prop) s :
  (forall k p x, Q (k, p) -> Q (k, with_pnl p x)) ->
  (forall data p, Position_from_api_response py data = Ok p ->
                  Q (pos_symbol p, p)) ->
  fst (_update_positions py api s) = Ok tt
  /\ (exists quotes,
        calls (snd (_update_positions py api s))
        = calls s ++ GetPositions :: quotes
        /\ (quotes = []
            \/ quotes
               = map GetQuote
                   (Dict.keys
                      (active_positions (snd (_update_positions py api s))))))
  /\ active_orders (snd (_update_positions py api s)) = active_orders s
  /\ option_chains (snd (_update_positions py api s)) = option_chains s
  /\ (Forall Q (active_positions s) ->
      Forall Q (active_positions (snd (_update_positions py api s))))
  /\ (NoDup (Dict.keys (active_positions s)) ->
      NoDup (Dict.keys (active_positions (snd (_update_positions py api s)))))
  /\ (match get_positions api (calls s) with
      | None | Some [] =>
          active_positions (snd (_update_positions py api s))
          = active_positions s
      | Some _ => True
      end).
Proof.
  intros Hwith Hfresh.
  destruct (_update_positions py api s) as [r s'] eqn:Hrun. simpl.
  rewrite _update_positions_unfold in Hrun.
  unfold bind, logger, modify, try_except, api_get_positions, get_state
    in Hrun.
  cbn beta iota zeta in Hrun. cbn [calls set_log] in Hrun.
  destruct (get_positions api (calls s)) as [[|data datas]|] eqn:Hgp.
  1,3: (injection Hrun as <- <-; simpl; split; [reflexivity|]; split;
        [exists []; split; [reflexivity|left; reflexivity]|];
        repeat split; auto).
  cbn beta iota zeta in Hrun.
  match type of Hrun with
  | context [for_each (data :: datas) (rebuild_step py) ?S1] =>
      destruct (rebuild_loop_spec Q Hfresh (data :: datas) S1)
        as (Hr & Hc & Hl & Ho & Hch & HQ & Hnd);
        [constructor|constructor|];
      destruct (for_each (data :: datas) (rebuild_step py) S1) as [r2 s2]
  end.
  simpl in Hr, Hc, Hl, Ho, Hch, HQ, Hnd.
  destruct Hr as [->| ->]; cbn beta iota zeta in Hrun.
  - match type of Hrun with
    | context [_update_position_pnl api ?S3] =>
        destruct (_update_position_pnl_spec Q S3 Hwith HQ)
          as (Hr4 & Hc4 & Ho4 & Hch4 & Hk4 & HQ4);
        destruct (_update_position_pnl api S3) as [r4 s4]
    end.
    simpl in Hr4, Hc4, Ho4, Hch4, Hk4, HQ4. subst r4.
    injection Hrun as <- <-.
    split; [reflexivity|]. split.
    { eexists. split.
      - rewrite Hc4, Hc. simpl. rewrite <- app_assoc. simpl. reflexivity.
      - right. rewrite Hk4. reflexivity. }
    split; [congruence|]. split; [congruence|]. split; [auto|].
    split; [|exact I]. intros _. rewrite Hk4. exact Hnd.
  - injection Hrun as <- <-. simpl. split; [reflexivity|]. split.
    { exists []. split; [rewrite Hc; reflexivity|left; reflexivity]. }
    repeat split; auto.
Qed.
End LedgerFacts.


(** X11: when the gateway has no positions to report, a failed request
    and an empty list alike, [_update_positions] leaves the ledger as it
    was: positions that are gone from the account stay in it. *)
Theorem _update_positions_empty_answer_keeps_ledger (py : Builtins)
    (api : Gateway) (s : State) :
  get_positions api (calls s) = None \/ get_positions api (calls s) = Some [] ->
  let run := _update_positions py api s in
  active_positions (snd run) = active_positions s
  /\ calls (snd run) = calls s ++ [GetPositions].
Proof.
  intros Hgp. cbv zeta.
  destruct (_update_positions py api s) as [r s'] eqn:Hrun. simpl.
  rewrite _update_positions_unfold in Hrun.
  unfold bind, logger, modify, try_except, api_get_positions, get_state
    in Hrun.
  cbn beta iota zeta in Hrun. cbn [calls set_log] in Hrun.
  destruct Hgp as [Hgp|Hgp]; rewrite Hgp in Hrun;
    injection Hrun as <- <-; simpl; auto.
Qed.

Lemma _update_positions_empty_answer_keeps_ledger_witness :
  let run := _update_positions Example.py Example.accept_all
               Example.short_call_state in
  active_positions (snd run) = active_positions Example.short_call_state
  /\ calls (snd run) = calls Example.short_call_state ++ [GetPositions].
Proof.
  apply (_update_positions_empty_answer_keeps_ledger Example.py
           Example.accept_all Example.short_call_state).
  left. reflexivity.
Defined.

(** X12: two invariants of the ledger under [_update_positions], whatever
    the gateway answers: every position stays filed under its own symbol
    with no symbol twice, and no position gains the hedge flag. *)
Theorem _update_positions_keeps_ledger_invariants (py : Builtins)
    (api : Gateway) (s : State) :
  let s' := snd (_update_positions py api s) in
  (ledger_by_symbol (active_positions s) ->
   ledger_by_symbol (active_positions s'))
  /\ (no_hedge_flag s -> no_hedge_flag s').
Proof.
  cbv zeta. split.
  - intros [Hnd Hsym].
    destruct (_update_positions_spec py api
                (fun item => fst item = pos_symbol (snd item)) s)
      as (_ & _ & _ & _ & HQ & Hnd' & _).
    + intros k p x H. exact H.
    + intros data p _. reflexivity.
    + split; auto.
  - unfold no_hedge_flag, Dict.values. rewrite !Forall_fmap.
    destruct (_update_positions_spec py api
                (fun item => pos_is_hedge (snd item) = false) s)
      as (_ & _ & _ & _ & HQ & _).
    + intros k p x H. exact H.
    + intros data p Hp. simpl.
      eapply Position_from_api_response_not_hedge, Hp.
    + exact HQ.
Qed.

(** ** More on the hedge roll *)

Section RollIdle.
Variable py : Builtins.
Variable api : Gateway.
Variable config : Config.

Lemma roll_hedge_positions_idle today s :
  no_hedge_flag s ->
  exists lg,
    roll_hedge_positions py api config today s
    = (Ok false, set_log (log s ++ lg) s).
Proof.
  intros Hno. unfold roll_hedge_positions. run.
  rewrite (filter_none (hedge_to_roll today)).
  - simpl. eexists [_; _]. unfold set_log. simpl.
    rewrite <- app_assoc. reflexivity.
  - simpl. eapply Forall_impl; [exact Hno|].
    intros p Hp. unfold hedge_to_roll. rewrite Hp. reflexivity.
Qed.
End RollIdle.

(** X13: with no position flagged as a hedge, [roll_hedge_positions]
    returns False and does nothing but log: no request is sent, and the
    ledger, the order book and the chain cache are unchanged. *)
Theorem roll_hedge_positions_without_hedge_flag (py : Builtins)
    (api : Gateway) (config : Config) (today : Z) (s : State) :
  no_hedge_flag s ->
  let run := roll_hedge_positions py api config today s in
  fst run = Ok false
  /\ calls (snd run) = calls s
  /\ active_positions (snd run) = active_positions s
  /\ active_orders (snd run) = active_orders s
  /\ option_chains (snd run) = option_chains s.
Proof.
  intros Hno. cbv zeta.
  destruct (roll_hedge_positions_idle py api config today s Hno) as [lg ->].
  simpl. auto.
Qed.

Lemma roll_hedge_positions_without_hedge_flag_witness :
  let run := roll_hedge_positions Example.py Example.accept_all
               Example.config Example.today Example.short_call_state in
  fst run = Ok false
  /\ calls (snd run) = calls Example.short_call_state
  /\ active_positions (snd run) = active_positions Example.short_call_state
  /\ active_orders (snd run) = active_orders Example.short_call_state
  /\ option_chains (snd run) = option_chains Example.short_call_state.
Proof.
  apply (roll_hedge_positions_without_hedge_flag Example.py
           Example.accept_all Example.config Example.today
           Example.short_call_state).
  repeat constructor.
Defined.

(** X14: the ledger of a fresh engine is empty, and [_update_positions]
    is the only writer of the ledger besides the P&L pass; so after any
    number of synchronisations from a ledger without hedge flags, the roll
    that follows is idle: it returns False and sends nothing, whatever
    positions the gateway has reported and whenever they expire. *)
Theorem roll_hedge_positions_after_syncs_idle (py : Builtins)
    (api : Gateway) (config : Config) (today : Z) (n : nat) (s : State) :
  no_hedge_flag s ->
  let synced := Nat.iter n (fun s => snd (_update_positions py api s)) s in
  let run := roll_hedge_positions py api config today synced in
  fst run = Ok false /\ calls (snd run) = calls synced.
Proof.
  intros Hno. cbv zeta.
  assert (Hsynced : no_hedge_flag
            (Nat.iter n (fun s => snd (_update_positions py api s)) s)).
  { induction n as [|n IH]; simpl; [exact Hno|].
    revert IH. unfold no_hedge_flag, Dict.values. rewrite !Forall_fmap.
    destruct (_update_positions_spec py api
                (fun item => pos_is_hedge (snd item) = false)
                (Nat.iter n (fun s => snd (_update_positions py api s)) s))
      as (_ & _ & _ & _ & HQ & _); auto.
    intros data p Hp. simpl.
    eapply Position_from_api_response_not_hedge, Hp. }
  destruct (roll_hedge_positions_idle py api config today _ Hsynced)
    as [lg ->].
  simpl. auto.
Qed.

Lemma roll_hedge_positions_after_syncs_idle_witness :
  let synced :=
    Nat.iter 2 (fun s => snd (_update_positions Example.py Sample.reporting s))
      Sample.empty_state in
  let run := roll_hedge_positions Example.py Sample.reporting Example.config
               Example.today synced in
  fst run = Ok false /\ calls (snd run) = calls synced.
Proof.
  apply (roll_hedge_positions_after_syncs_idle Example.py Sample.reporting
           Example.config Example.today 2 Sample.empty_state).
  constructor.
Defined.

(** ** More on the martingale *)

Section MartingaleMore.
Variable api : Gateway.
Variable config : Config.

(** The sell loop by its trace: one SELL order per strike, and neither the
    ledger nor the chain cache touched. *)
Lemma martingale_sell_loop_trace position chain t q strikes :
  Forall (fun k => is_Some (contract_at chain k t)) strikes ->
  forall s,
  exists sells,
    fst (for_each strikes (martingale_sell api position chain t q) s) = Ok tt
    /\ calls (snd (for_each strikes
                     (martingale_sell api position chain t q) s))
       = calls s ++ sells
    /\ Forall2 (fun k c =>
                  exists contract r,
                    contract_at chain k t = Some contract
                    /\ c = PlaceOrder
                             (martingale_order_params position contract
                                SELL q) r)
         strikes sells
    /\ active_positions
         (snd (for_each strikes (martingale_sell api position chain t q) s))
       = active_positions s
    /\ option_chains
         (snd (for_each strikes (martingale_sell api position chain t q) s))
       = option_chains s.
Proof.
  induction 1 as [|k strikes [c Hc] _ IH]; intros s.
  { exists []. simpl. rewrite app_nil_r. repeat split; auto. }
  simpl. unfold bind.
  assert (Hstep :
    fst (martingale_sell api position chain t q k s) = Ok tt
    /\ calls (snd (martingale_sell api position chain t q k s))
       = calls s
         ++ [PlaceOrder (martingale_order_params position c SELL q)
               (place_order api (calls s)
                  (martingale_order_params position c SELL q))]
    /\ active_positions (snd (martingale_sell api position chain t q k s))
       = active_positions s
    /\ option_chains (snd (martingale_sell api position chain t q k s))
       = option_chains s).
  { unfold martingale_sell. rewrite Hc. run.
    destruct (place_order api (calls s) _) as [resp|]; simpl; [|auto].
    destruct (orderId resp) as [id|]; [destruct (Py.truthy_str id)|];
      simpl; auto. }
  destruct (martingale_sell api position chain t q k s) as [r1 s1].
  simpl in Hstep. destruct Hstep as (-> & Hcs & Hp & Hch).
  destruct (IH s1) as (sells & Hr' & Hcs' & Hall & Hp' & Hch').
  eexists (_ :: sells). split; [exact Hr'|].
  split; [rewrite Hcs', Hcs, <- app_assoc; reflexivity|].
  split; [constructor; [eauto|exact Hall]|].
  split; congruence.
Qed.

Lemma handle_martingale_shape position current_price chain s :
  exists b new,
    fst (handle_martingale api config position current_price chain s) = Ok b
    /\ calls (snd (handle_martingale api config position current_price
                     chain s))
       = calls s ++ new
    /\ active_positions
         (snd (handle_martingale api config position current_price chain s))
       = active_positions s
    /\ option_chains
         (snd (handle_martingale api config position current_price chain s))
       = option_chains s
    /\ martingale_trace position b new.
Proof.
  unfold handle_martingale. run.
  destruct (pos_side position);
    [exists false, []; simpl; rewrite app_nil_r; auto|].
  destruct (Qeq_bool (pos_average_price position) 0); simpl;
    [exists false, []; simpl; rewrite app_nil_r; auto|].
  destruct (Qle_bool (martingale_trigger config) _); simpl;
    [|exists false, []; simpl; rewrite app_nil_r; auto].
  destruct (pos_strike_price position) as [k|]; simpl;
    [|exists false, []; simpl; rewrite app_nil_r; auto].
  destruct (pos_option_type position) as [t|]; simpl;
    [|exists false, []; simpl; rewrite app_nil_r; auto].
  destruct (negb (k =? 0)); simpl;
    [|exists false, []; simpl; rewrite app_nil_r; auto].
  destruct (contract_at chain (martingale_strike_of k t) t) as [c|]; simpl;
    [|exists false, []; simpl; rewrite app_nil_r; auto].
  destruct (place_order api (calls s) _) as [resp|] eqn:Hbuy; simpl.
  2:{ eexists false, [_]. simpl. split; [reflexivity|].
      split; [reflexivity|]. repeat split; auto. discriminate. }
  destruct (Qeq_bool (martingale_premium_divisor config) 0).
  { destruct (orderId resp) as [id|]; [destruct (Py.truthy_str id)|];
      simpl; eexists false, [_]; simpl; (split; [reflexivity|]);
      (split; [reflexivity|]); repeat split; auto; discriminate. }
  destruct (orderId resp) as [id|]; [destruct (Py.truthy_str id)|];
    simpl;
    match goal with
    | |- context [for_each ?l ?f ?S] =>
        destruct (martingale_sell_loop_trace position chain t
                    (Py.int (inject_Z (pos_quantity position)
                             * martingale_quantity_multiplier config)) l
                    (find_sell_strikes_have_contracts chain t _) S)
          as (sells & Hr & Hcs & Hall & Hfp & Hfc);
        destruct (for_each l f S) as [r0 s0]
    end;
    simpl in Hr, Hcs, Hfp, Hfc; subst r0; simpl;
    exists true, (PlaceOrder
                    (martingale_order_params position c BUY
                       (pos_quantity position)) (Some resp) :: sells);
    (split; [reflexivity|]);
    (split; [rewrite Hcs, <- app_assoc; reflexivity|]);
    (split; [exact Hfp|]); (split; [exact Hfc|]);
    (split; [reflexivity|]); (split; [reflexivity|]);
    (split; [eauto|]); (split; [discriminate|]);
    (eapply Forall2_Forall_r; [exact Hall|]);
    (apply Forall_forall; intros k' _ c' (contract & r' & _ & ->); eauto).
Qed.
End MartingaleMore.

(** X15: [handle_martingale] never raises and touches neither the ledger
    nor the chain cache.  What it sends is nothing, with the answer False,
    or the BUY of the position's quantity followed by SELL orders only;
    there is no SELL when the BUY was not accepted, and the answer is True
    only when it was. *)
Theorem handle_martingale_buy_then_sells (api : Gateway) (config : Config)
    (position : Position) (current_price : Q) (chain : OptionChain)
    (s : State) :
  let run := handle_martingale api config position current_price chain s in
  exists b new,
    fst run = Ok b
    /\ calls (snd run) = calls s ++ new
    /\ active_positions (snd run) = active_positions s
    /\ option_chains (snd run) = option_chains s
    /\ martingale_trace position b new.
Proof. cbv zeta. apply handle_martingale_shape. Qed.



(** X17: with a premium divisor of zero, a triggered martingale whose BUY
    is accepted stops at the division: the BUY stays placed, no SELL
    follows, and the answer is False. *)
Theorem handle_martingale_zero_divisor_after_buy (api : Gateway)
    (config : Config) (position : Position) (current_price : Q)
    (chain : OptionChain) (k : Z) (t : OptionType) (c : OptionContract)
    (resp : OrderResponse) (s : State) :
  martingale_triggered config position current_price ->
  pos_strike_price position = Some k -> k <> 0 ->
  pos_option_type position = Some t ->
  contract_at chain (martingale_strike_of k t) t = Some c ->
  place_order api (calls s)
    (martingale_order_params position c BUY (pos_quantity position))
    = Some resp ->
  (martingale_premium_divisor config == 0)%Q ->
  let run := handle_martingale api config position current_price chain s in
  fst run = Ok false
  /\ calls (snd run)
     = calls s
       ++ [PlaceOrder
             (martingale_order_params position c BUY (pos_quantity position))
             (Some resp)].
Proof.
  intros (Hside & Hnz & Hle) Hk Hk0 Ht Hc Hbuy Hdiv. cbv zeta.
  unfold handle_martingale. run. rewrite Hside.
  destruct (Qeq_bool (pos_average_price position) 0) eqn:Hz.
  { apply Qeq_bool_iff in Hz. contradiction. }
  simpl. apply Qle_bool_iff in Hle. rewrite Hle. simpl.
  rewrite Hk, Ht. simpl. rewrite (truthy_oint_nonzero k Hk0), Hc. simpl.
  rewrite Hbuy. simpl.
  apply Qeq_bool_iff in Hdiv. rewrite Hdiv.
  destruct (orderId resp) as [id|]; [destruct (Py.truthy_str id)|];
    simpl; auto.
Qed.

Lemma handle_martingale_zero_divisor_after_buy_witness :
  let run := handle_martingale Example.accept_all Sample.config_zero_divisor
               Example.short_call 200 Example.chain
               Example.short_call_state in
  fst run = Ok false
  /\ calls (snd run)
     = calls Example.short_call_state
       ++ [PlaceOrder
             (martingale_order_params Example.short_call Example.c21050 BUY
                (pos_quantity Example.short_call))
             (Some {| orderId := Some "ORD" |})].
Proof.
  apply (handle_martingale_zero_divisor_after_buy Example.accept_all
           Sample.config_zero_divisor Example.short_call 200 Example.chain
           21000 CE Example.c21050 {| orderId := Some "ORD" |}
           Example.short_call_state).
  - split; [reflexivity|].
    split; intros H; vm_compute in H; discriminate H.
  - reflexivity.
  - lia.
  - reflexivity.
  - vm_compute. reflexivity.
  - reflexivity.
  - reflexivity.
Defined.

Lemma Position_from_api_response_no_strike py data position :
  int_of_str py "" = None ->
  Position_from_api_response py data = Ok position ->
  pos_strike_price position = None.
Proof.
  intros Hint. unfold Position_from_api_response.
  destruct (ProductType_of_string _); [|discriminate].
  intros [= <-]. simpl. apply extract_strike_none, Hint.
Qed.

(** X18: a position as [Position.from_api_response] builds it has no
    strike price, so [handle_martingale] never trades on a position of a
    synchronised ledger: it returns False and sends nothing, whatever the
    price. *)
Theorem handle_martingale_gateway_position_never_trades (py : Builtins)
    (api : Gateway) (config : Config) (data : RawPosition)
    (position : Position) (current_price : Q) (chain : OptionChain)
    (s : State) :
  int_of_str py "" = None ->
  Position_from_api_response py data = Ok position ->
  let run := handle_martingale api config position current_price chain s in
  fst run = Ok false /\ calls (snd run) = calls s.
Proof.
  intros Hint Hpos. cbv zeta.
  pose proof (Position_from_api_response_no_strike py data position
                Hint Hpos) as Hk.
  unfold handle_martingale. run.
  destruct (pos_side position); [simpl; auto|].
  destruct (Qeq_bool (pos_average_price position) 0); [simpl; auto|].
  simpl. destruct (Qle_bool (martingale_trigger config) _); [|simpl; auto].
  rewrite Hk. simpl. auto.
Qed.

Lemma handle_martingale_gateway_position_never_trades_witness :
  exists position,
    Position_from_api_response Example.py Sample.raw_short_call = Ok position
    /\ pos_side position = SELL
    /\ fst (handle_martingale Example.accept_all Example.config position 300
              Example.chain Example.short_call_state) = Ok false
    /\ calls (snd (handle_martingale Example.accept_all Example.config
                     position 300 Example.chain Example.short_call_state))
       = calls Example.short_call_state.
Proof.
  eexists. split; [reflexivity|]. split; [reflexivity|].
  apply (handle_martingale_gateway_position_never_trades Example.py
           Example.accept_all Example.config Sample.raw_short_call _ 300
           Example.chain Example.short_call_state); reflexivity.
Defined.

(** ** More on the stop loss *)

Section StopLossMore.
Variable py : Builtins.
Variable api : Gateway.
Variable config : Config.

(** Without a strike price the re-entry reads the chain cache at most. *)
Lemma reenter_after_stop_loss_no_strike position s :
  pos_strike_price position = None ->
  exists reads,
    fst (reenter_after_stop_loss py api position s) = Ok tt
    /\ calls (snd (reenter_after_stop_loss py api position s))
       = calls s ++ reads
    /\ Forall (fun c => is_chain_query c = true) reads.
Proof.
  intros Hk.
  destruct (reenter_after_stop_loss py api position s) as [r s'] eqn:Hrun.
  simpl. revert Hrun. unfold reenter_after_stop_loss. run. rewrite Hk.
  destruct (pos_expiry_date position) as [expiry_date|].
  2:{ simpl. intros Hrun. apply pair_equal_spec in Hrun as [<- <-].
      exists []. simpl. rewrite app_nil_r. auto. }
  intros Hrun. exec_chain Hrun E1.
  apply get_option_chain_for_expiry_effects in E1
    as (v1 & new1 & -> & Hc1 & Hq1 & _).
  destruct v1 as [option_chain|]; simpl in Hrun;
    apply pair_equal_spec in Hrun as [<- <-]; exists new1; simpl; auto.
Qed.
End StopLossMore.

(** X19: on a position as [Position.from_api_response] builds it,
    [handle_stop_loss] never re-enters: it sends nothing, or the stop
    order (BUY, SL, the position's quantity) followed by reads of the
    chain cache, and no SELL order at all. *)
Theorem handle_stop_loss_gateway_position_no_reentry (py : Builtins)
    (api : Gateway) (config : Config) (data : RawPosition)
    (position : Position) (current_price : Q) (s : State) :
  int_of_str py "" = None ->
  Position_from_api_response py data = Ok position ->
  let run := handle_stop_loss py api config position current_price s in
  exists b new,
    fst run = Ok b
    /\ calls (snd run) = calls s ++ new
    /\ stop_only_trace position new
    /\ Forall (fun p => transaction_type p = BUY) (submitted new).
Proof.
  intros Hint Hpos. cbv zeta.
  pose proof (Position_from_api_response_no_strike py data position
                Hint Hpos) as Hk.
  destruct (handle_stop_loss py api config position current_price s)
    as [r s'] eqn:Hrun.
  simpl. revert Hrun. unfold handle_stop_loss. run.
  destruct (pos_side position);
    [intros [= <- <-]; exists false, []; simpl; rewrite app_nil_r; auto|].
  destruct (Qeq_bool (pos_average_price position) 0); simpl;
    [intros [= <- <-]; exists false, []; simpl; rewrite app_nil_r; auto|].
  destruct (Qle_bool (stop_loss_trigger config) _); simpl;
    [|intros [= <- <-]; exists false, []; simpl; rewrite app_nil_r; auto].
  destruct (place_order api (calls s) _) as [resp|] eqn:Hresp; simpl.
  2:{ intros [= <- <-]. eexists false, [_]. simpl.
      repeat split; auto. }
  intros Hrun.
  destruct (orderId resp) as [id|]; [destruct (Py.truthy_str id)|];
    simpl in Hrun;
    match type of Hrun with
    | context [reenter_after_stop_loss ?p ?a ?pos ?S] =>
        destruct (reenter_after_stop_loss_no_strike p a pos S Hk)
          as (reads & Hr0 & Hc0 & Hq0);
        destruct (reenter_after_stop_loss p a pos S) as [r0 s0']
    end;
    simpl in Hr0, Hc0; subst r0; simpl in Hrun; injection Hrun as <- <-;
    destruct (chain_query_not_order _ Hq0) as (Hs0 & _ & _);
    eexists true, (_ :: reads);
    (split; [reflexivity|]);
    (split; [rewrite Hc0; simpl; rewrite <- app_assoc; reflexivity|]);
    (split; [simpl; auto|]);
    simpl; rewrite Hs0; repeat constructor.
Qed.

Lemma handle_stop_loss_gateway_position_no_reentry_witness :
  exists position,
    Position_from_api_response Example.py Sample.raw_short_call = Ok position
    /\ exists b new,
         fst (handle_stop_loss Example.py Example.accept_all Example.config
                position 50 Example.short_call_state) = Ok b
         /\ calls (snd (handle_stop_loss Example.py Example.accept_all
                          Example.config position 50
                          Example.short_call_state))
            = calls Example.short_call_state ++ new
         /\ stop_only_trace position new
         /\ Forall (fun p => transaction_type p = BUY) (submitted new).
Proof.
  eexists. split; [reflexivity|].
  apply (handle_stop_loss_gateway_position_no_reentry Example.py
           Example.accept_all Example.config Sample.raw_short_call _ 50
           Example.short_call_state); reflexivity.
Defined.

(** ** More on the chain cache *)

Section CacheMore.
Variable py : Builtins.
Variable api : Gateway.

(** A cached chain is returned as it is, without any effect. *)
Lemma get_option_chain_for_expiry_hit expiry_date chain s :
  option_chains s !! expiry_date = Some chain ->
  get_option_chain_for_expiry py api expiry_date s = (Ok (Some chain), s).
Proof.
  intros Hc. unfold get_option_chain_for_expiry. run. rewrite Hc.
  reflexivity.
Qed.

(** Lookups for any dates keep what the cache holds. *)
Lemma lookups_keep_cached (dates : list Z) :
  forall s d chain,
    option_chains s !! d = Some chain ->
    option_chains
      (fold_left (fun st d' => snd (get_option_chain_for_expiry py api d' st))
         dates s) !! d = Some chain.
Proof.
  induction dates as [|d' dates IH]; intros s d chain Hc; simpl; [exact Hc|].
  apply IH.
  destruct (get_option_chain_for_expiry py api d' s) as [r s'] eqn:E.
  apply get_option_chain_for_expiry_effects in E
    as (v & new & Hr & Hcalls & Hq & Hpos & Hret & Hmono).
  simpl. apply Hmono, Hc.
Qed.
End CacheMore.

(** X20: the chain cache memoises and never forgets.  Once
    [get_option_chain_for_expiry] has returned a chain for a date, every
    later call for that date, after lookups for any other dates, returns
    the same chain, sends nothing to the gateway and leaves the state as it
    is. *)
Theorem get_option_chain_for_expiry_memoised (py : Builtins) (api : Gateway)
    (expiry_date : Z) (dates : list Z) (chain : OptionChain) (s : State) :
  fst (get_option_chain_for_expiry py api expiry_date s) = Ok (Some chain) ->
  let s1 := snd (get_option_chain_for_expiry py api expiry_date s) in
  let s2 :=
    fold_left (fun st d' => snd (get_option_chain_for_expiry py api d' st))
      dates s1 in
  get_option_chain_for_expiry py api expiry_date s2 = (Ok (Some chain), s2).
Proof.
  intros Hfirst. cbv zeta.
  apply get_option_chain_for_expiry_hit, lookups_keep_cached.
  destruct (get_option_chain_for_expiry py api expiry_date s) as [r s1] eqn:E.
  apply get_option_chain_for_expiry_effects in E
    as (v & new & -> & Hcalls & Hq & Hpos & Hret & Hmono).
  simpl in Hfirst |- *. injection Hfirst as ->. apply Hret. reflexivity.
Qed.

Lemma get_option_chain_for_expiry_memoised_witness :
  exists chain,
    fst (get_option_chain_for_expiry Example.py Sample.serving 739932
           Sample.empty_state) = Ok (Some chain)
    /\ contract_at chain 21000 CE
       = Some (OptionContract_from_api_response Sample.raw_call
                 (combine 739932 15 30))
    /\ let s1 := snd (get_option_chain_for_expiry Example.py Sample.serving
                        739932 Sample.empty_state) in
       let s2 :=
         fold_left
           (fun st d' =>
              snd (get_option_chain_for_expiry Example.py Sample.serving d' st))
           [739960] s1 in
       get_option_chain_for_expiry Example.py Sample.serving 739932 s2
       = (Ok (Some chain), s2).
Proof.
  eexists. split; [vm_compute; reflexivity|].
  split; [vm_compute; reflexivity|].
  apply (get_option_chain_for_expiry_memoised Example.py Sample.serving
           739932 [739960] _ Sample.empty_state).
  vm_compute. reflexivity.
Defined.

(** ** Closing positions *)

Section CloseMore.
Variable py : Builtins.
Variable api : Gateway.
Variable config : Config.

Lemma close_positions_at_expiry_unfold today :
  close_positions_at_expiry py api config today
  = (logger INFO "Checking positions for expiry" [] ;;
     try_except
       (match DateUtils.get_expiry_date_n_weeks_ahead today
                (close_after_weeks config) with
        | None =>
            logger WARNING "Failed to calculate close date" [] ;;
            ret false
        | Some close_date =>
            s <- get_state ;;
            match List.filter (expires_by close_date)
                    (Dict.values (active_positions s)) with
            | [] =>
                logger INFO "No positions to close at expiry" [] ;;
                ret false
            | _ =>
                logger INFO "Closing {} positions at expiry"
                  [AInt (Z.of_nat
                           (length (List.filter (expires_by close_date)
                                      (Dict.values (active_positions s)))))] ;;
                for_each (List.filter (expires_by close_date)
                            (Dict.values (active_positions s)))
                  (close_step api) ;;
                _update_positions py api ;;
                ret true
            end
        end)
       (fun e =>
          logger ERROR "Error closing positions at expiry: {}" [AExn e] ;;
          ret false)).
Proof. reflexivity. Qed.

(** The close loop by its trace: one order per position, on the opposite
    side, whatever the gateway answers. *)
Lemma close_loop_trace positions :
  forall s,
  exists closes,
    fst (for_each positions (close_step api) s) = Ok tt
    /\ calls (snd (for_each positions (close_step api) s))
       = calls s ++ closes
    /\ Forall2 (fun position c =>
                  exists r,
                    c = PlaceOrder
                          (close_order_params position
                             (opposite (pos_side position))) r)
         positions closes
    /\ active_positions (snd (for_each positions (close_step api) s))
       = active_positions s
    /\ active_orders (snd (for_each positions (close_step api) s))
       = active_orders s
    /\ option_chains (snd (for_each positions (close_step api) s))
       = option_chains s.
Proof.
  induction positions as [|position positions IH]; intros s.
  { exists []. simpl. rewrite app_nil_r. repeat split; auto. }
  simpl. unfold bind.
  assert (Hstep :
    fst (close_step api position s) = Ok tt
    /\ calls (snd (close_step api position s))
       = calls s
         ++ [PlaceOrder
               (close_order_params position (opposite (pos_side position)))
               (place_order api (calls s)
                  (close_order_params position
                     (opposite (pos_side position))))]
    /\ active_positions (snd (close_step api position s))
       = active_positions s
    /\ active_orders (snd (close_step api position s)) = active_orders s
    /\ option_chains (snd (close_step api position s)) = option_chains s).
  { unfold close_step. run.
    destruct (place_order api (calls s) _); simpl; auto. }
  destruct (close_step api position s) as [r1 s1].
  simpl in Hstep. destruct Hstep as (-> & Hcs & Hp & Ho & Hch).
  destruct (IH s1) as (closes & Hr' & Hcs' & Hall & Hp' & Ho' & Hch').
  eexists (_ :: closes). split; [exact Hr'|].
  split; [rewrite Hcs', Hcs, <- app_assoc; reflexivity|].
  split; [constructor; [eauto|exact Hall]|].
  repeat split; congruence.
Qed.
End CloseMore.

(** X21: when some position expires by the close date,
    [close_positions_at_expiry] returns True whatever the gateway answers:
    it submits one MARKET order per such position, on the opposite side and
    in ledger order, then synchronises the ledger, which sends the
    positions request and quote requests only.  The close orders do not
    enter the order book, and the chain cache is untouched. *)
Theorem close_positions_at_expiry_closes_each (py : Builtins)
    (api : Gateway) (config : Config) (today close_date : Z) (s : State) :
  DateUtils.get_expiry_date_n_weeks_ahead today (close_after_weeks config)
    = Some close_date ->
  List.filter (expires_by close_date) (Dict.values (active_positions s))
    <> [] ->
  let to_close :=
    List.filter (expires_by close_date) (Dict.values (active_positions s)) in
  let run := close_positions_at_expiry py api config today s in
  fst run = Ok true
  /\ exists closes quotes,
       calls (snd run) = calls s ++ closes ++ GetPositions :: quotes
       /\ Forall2 (fun position c =>
                     exists r,
                       c = PlaceOrder
                             (close_order_params position
                                (opposite (pos_side position))) r)
            to_close closes
       /\ Forall (fun c => is_position_query c = true) quotes
       /\ active_orders (snd run) = active_orders s
       /\ option_chains (snd run) = option_chains s.
Proof.
  intros Hdate Hsome. cbv zeta.
  destruct (close_positions_at_expiry py api config today s) as [r s']
    eqn:Hrun.
  simpl. rewrite close_positions_at_expiry_unfold in Hrun.
  unfold bind, logger, modify, try_except, get_state, ret in Hrun.
  cbn beta iota zeta in Hrun. rewrite Hdate in Hrun.
  cbn [active_positions set_log] in Hrun.
  destruct (List.filter (expires_by close_date)
              (Dict.values (active_positions s))) as [|p ps] eqn:Hf;
    [contradiction|].
  cbn beta iota zeta in Hrun.
  match type of Hrun with
  | context [for_each (p :: ps) (close_step api) ?S1] =>
      destruct (close_loop_trace api (p :: ps) S1)
        as (closes & Hr1 & Hc1 & Hall & Hp1 & Ho1 & Hch1);
      destruct (for_each (p :: ps) (close_step api) S1) as [r1 s1]
  end.
  simpl in Hr1, Hc1, Hp1, Ho1, Hch1. subst r1.
  cbn beta iota zeta in Hrun.
  destruct (_update_positions_spec py api (fun _ => True) s1)
    as (Hr2 & (quotes & Hc2 & Hq2) & Ho2 & Hch2 & _); auto.
  destruct (_update_positions py api s1) as [r2 s2].
  simpl in Hr2, Hc2, Hq2, Ho2, Hch2. subst r2.
  injection Hrun as <- <-.
  split; [reflexivity|]. exists closes, quotes.
  split; [rewrite Hc2, Hc1, <- app_assoc; reflexivity|].
  split; [exact Hall|].
  split.
  { destruct Hq2 as [->| ->]; [constructor|].
    apply Forall_forall. intros c Hin.
    apply list_elem_of_fmap in Hin as (k & -> & _). reflexivity. }
  split; congruence.
Qed.

Lemma close_positions_at_expiry_closes_each_witness :
  let to_close :=
    List.filter (expires_by 739953)
      (Dict.values (active_positions Example.short_call_state)) in
  let run := close_positions_at_expiry Example.py Example.reject_sells
               Example.config Example.today Example.short_call_state in
  fst run = Ok true
  /\ exists closes quotes,
       calls (snd run)
       = calls Example.short_call_state ++ closes ++ GetPositions :: quotes
       /\ Forall2 (fun position c =>
                     exists r,
                       c = PlaceOrder
                             (close_order_params position
                                (opposite (pos_side position))) r)
            to_close closes
       /\ Forall (fun c => is_position_query c = true) quotes
       /\ active_orders (snd run) = active_orders Example.short_call_state
       /\ option_chains (snd run) = option_chains Example.short_call_state.
Proof.
  apply (close_positions_at_expiry_closes_each Example.py
           Example.reject_sells Example.config Example.today 739953
           Example.short_call_state).
  - vm_compute. reflexivity.
  - vm_compute. discriminate.
Defined.

(** ** main.py: closing every position *)

Section CloseAll.
Variable api : Gateway.

(** The loop up to its exit: the orders sent are those of a prefix of the
    ledger; either the prefix is the whole ledger and every order was
    accepted, or the last order of the prefix was the first one refused. *)
Lemma close_all_loop_spec items :
  forall s,
  exists n closes,
    (n <= length items)%nat
    /\ calls (snd (close_all_loop api items s)) = calls s ++ closes
    /\ length closes = n
    /\ submitted closes
       = map (fun item => close_all_order_params (fst item) (snd item))
           (take n items)
    /\ active_positions (snd (close_all_loop api items s))
       = active_positions s
    /\ active_orders (snd (close_all_loop api items s)) = active_orders s
    /\ option_chains (snd (close_all_loop api items s)) = option_chains s
    /\ ((fst (close_all_loop api items s) = Ok None
         /\ n = length items
         /\ placed closes = submitted closes)
        \/ (fst (close_all_loop api items s) = Ok (Some false)
            /\ exists m, n = S m
                 /\ placed closes
                    = map (fun item =>
                             close_all_order_params (fst item) (snd item))
                        (take m items))).
Proof.
  induction items as [|[symbol position] items IH]; intros s.
  { exists 0%nat, []. simpl. rewrite app_nil_r. repeat split; auto. }
  simpl. run. cbn [calls set_log].
  destruct (place_order api (calls s)
              (close_all_order_params symbol position)) as [resp|] eqn:Hresp.
  - cbn beta iota zeta.
    match goal with
    | |- context [close_all_loop api items ?S1] =>
        destruct (IH S1) as (n & closes & Hn & Hc & Hlen & Hsub & Hp & Ho
                             & Hch & Hres);
        destruct (close_all_loop api items S1) as [r1 s1]
    end.
    simpl in Hc, Hp, Ho, Hch, Hres.
    exists (S n),
      (PlaceOrder (close_all_order_params symbol position) (Some resp)
       :: closes).
    simpl. split; [lia|].
    split; [rewrite Hc, <- app_assoc; reflexivity|].
    split; [rewrite Hlen; reflexivity|].
    split; [rewrite Hsub; reflexivity|].
    split; [exact Hp|]. split; [exact Ho|]. split; [exact Hch|].
    destruct Hres as [(Hr & Hnl & Hpl)|(Hr & m & Hm & Hpl)].
    + left. split; [exact Hr|]. split; [lia|].
      rewrite Hpl, Hsub. reflexivity.
    + right. split; [exact Hr|]. exists (S m). split; [lia|].
      simpl. rewrite Hpl. reflexivity.
  - cbn beta iota zeta.
    exists 1%nat,
      [PlaceOrder (close_all_order_params symbol position) None].
    simpl. split; [lia|]. repeat split; auto.
    right. split; [reflexivity|]. exists 0%nat. auto.
Qed.
End CloseAll.

(** X22: [close_all_positions] of the application never raises.  It works
    through the ledger in order and stops at the first order the gateway
    refuses: the orders submitted are the closing orders of a prefix of
    the ledger, MARKET orders on the opposite side.  It returns True
    exactly when it was ready and every position of the ledger had its
    order accepted; when it returns False after sending, all orders but
    the last were accepted.  The ledger itself is not touched: closed
    positions stay in it. *)
Theorem close_all_positions_stops_at_first_refusal (api : Gateway)
    (ready : bool) (s : State) :
  let run := close_all_positions api ready s in
  let order := fun item : string * Position =>
                 close_all_order_params (fst item) (snd item) in
  exists b n new,
    fst run = Ok b
    /\ calls (snd run) = calls s ++ new
    /\ length new = n
    /\ submitted new = map order (take n (active_positions s))
    /\ active_positions (snd run) = active_positions s
    /\ active_orders (snd run) = active_orders s
    /\ (b = true ->
        ready = true /\ n = length (active_positions s)
        /\ placed new = submitted new)
    /\ (b = false ->
        (ready = false /\ n = 0%nat)
        \/ exists m, n = S m
             /\ placed new = map order (take m (active_positions s))).
Proof.
  cbv zeta. unfold close_all_positions.
  destruct ready; simpl.
  2:{ run. exists false, 0%nat, []. simpl. rewrite app_nil_r.
      repeat split; auto; discriminate. }
  run. cbn [active_positions set_log].
  destruct (active_positions s) as [|item items] eqn:Hledger.
  { simpl. exists true, 0%nat, []. simpl. rewrite app_nil_r.
    repeat split; auto; discriminate. }
  match goal with
  | |- context [close_all_loop api (item :: items) ?S1] =>
      destruct (close_all_loop_spec api (item :: items) S1)
        as (n & closes & Hn & Hc & Hlen & Hsub & Hp & Ho & Hch & Hres);
      destruct (close_all_loop api (item :: items) S1) as [r1 s1]
  end.
  simpl fst in Hres. simpl snd in Hc, Hp, Ho, Hch.
  destruct Hres as [(-> & Hnl & Hpl)|(-> & m & Hm & Hpl)];
    cbn beta iota zeta; cbn [fst snd].
  - exists true, n, closes. simpl in Hc, Hp, Ho |- *.
    split; [reflexivity|]. split; [exact Hc|]. split; [exact Hlen|].
    split; [exact Hsub|]. split; [congruence|]. split; [exact Ho|].
    split; [auto|discriminate].
  - exists false, n, closes. simpl in Hc, Hp, Ho |- *.
    split; [reflexivity|]. split; [exact Hc|]. split; [exact Hlen|].
    split; [exact Hsub|]. split; [congruence|]. split; [exact Ho|].
    split; [discriminate|]. intros _. right. exists m. auto.
Qed.

(** ** The spot price *)

(** X23: [_get_spot_price] is [_get_current_price] on the symbol NIFTY:
    from the same state the two return the same price or None and send the
    same request; the states they leave differ at most in the log.
    Neither raises. *)
Theorem _get_spot_price_is_current_price_of_NIFTY (api : Gateway)
    (s : State) :
  let spot := _get_spot_price api s in
  let current := _get_current_price api "NIFTY" s in
  fst spot = fst current
  /\ same_but_log (snd spot) (snd current)
  /\ calls (snd spot) = calls s ++ [GetQuote "NIFTY"]
  /\ exists price, fst spot = Ok price.
Proof.
  cbv zeta. unfold _get_spot_price, _get_current_price. run.
  destruct (get_quote api (calls s) "NIFTY"); simpl;
    repeat split; eauto.
Qed.

(** ** The four strikes of the condor *)

Section StrikeOrder.

(** On a float that is not positive, [int] is the ceiling. *)
Lemma int_is_ceiling_nonpos (x : Q) : (x <= 0)%Q -> Py.int x = Qceiling x.
Proof.
  destruct x as [n d]. unfold Qle, Py.int, Qceiling, Qfloor. simpl.
  intros H. rewrite <- (Z.opp_involutive n) at 1.
  rewrite Z.quot_opp_l by lia.
  rewrite Z.quot_div_nonneg by lia. reflexivity.
Qed.

(** [int] on floats is monotone. *)
Lemma int_monotone (x y : Q) : (x <= y)%Q -> Py.int x <= Py.int y.
Proof.
  intros Hxy.
  destruct (Qlt_le_dec x 0) as [Hx|Hx].
  - rewrite (int_is_ceiling_nonpos x) by (apply Qlt_le_weak, Hx).
    destruct (Qlt_le_dec y 0) as [Hy|Hy].
    + rewrite (int_is_ceiling_nonpos y) by (apply Qlt_le_weak, Hy).
      apply Qceiling_resp_le, Hxy.
    + rewrite (int_is_floor_nonneg y) by exact Hy.
      transitivity 0.
      * change 0 with (Qceiling 0).
        apply Qceiling_resp_le, Qlt_le_weak, Hx.
      * change 0 with (Qfloor 0). apply Qfloor_resp_le, Hy.
  - rewrite (int_is_floor_nonneg x) by exact Hx.
    rewrite (int_is_floor_nonneg y) by (eapply Qle_trans; eassumption).
    apply Qfloor_resp_le, Hxy.
Qed.

(** Rounding to the strike grid is monotone. *)
Lemma round_div_50_monotone n m :
  n <= m -> Py.round_div n 50 <= Py.round_div m 50.
Proof.
  intros Hnm. unfold Py.round_div. cbv zeta.
  pose proof (Z.div_mod n 50 ltac:(lia)) as Hn.
  pose proof (Z.div_mod m 50 ltac:(lia)) as Hm.
  pose proof (Z.mod_pos_bound n 50 ltac:(lia)) as Hrn.
  pose proof (Z.mod_pos_bound m 50 ltac:(lia)) as Hrm.
  destruct (Z.eq_dec (n / 50) (m / 50)) as [Heq|Hne].
  - rewrite Heq in *.
    destruct (Z.ltb_spec (2 * (n mod 50)) 50),
             (Z.ltb_spec 50 (2 * (n mod 50))),
             (Z.ltb_spec (2 * (m mod 50)) 50),
             (Z.ltb_spec 50 (2 * (m mod 50)));
      destruct (Z.even (m / 50)); lia.
  - assert (n / 50 < m / 50) by lia.
    destruct (2 * (n mod 50) <? 50), (50 <? 2 * (n mod 50)),
             (2 * (m mod 50) <? 50), (50 <? 2 * (m mod 50)),
             (Z.even (n / 50)), (Z.even (m / 50)); lia.
Qed.
End StrikeOrder.

(** X24: for a strangle distance that is not negative, the four strikes of
    the condor are in order: put hedge below put sell, put sell not above
    call sell, call sell below call hedge; the hedges are exactly one grid
    step of 50 outside the sells. *)
Theorem condor_strikes_ordered (spot_price distance : Q) :
  (0 <= distance)%Q ->
  let ce_strike := fst (strangle_strikes spot_price distance) in
  let pe_strike := snd (strangle_strikes spot_price distance) in
  hedge_strike_of pe_strike PE = pe_strike - 50
  /\ pe_strike <= ce_strike
  /\ hedge_strike_of ce_strike CE = ce_strike + 50.
Proof.
  intros Hd. cbv zeta. unfold strangle_strikes. simpl.
  split; [reflexivity|]. split; [|reflexivity].
  assert (Hle : (spot_price - distance <= spot_price + distance)%Q).
  { unfold Qle, Qminus, Qplus, Qopp in *.
    destruct spot_price as [a b], distance as [c d]. simpl in *. nia. }
  apply int_monotone, round_div_50_monotone in Hle. lia.
Qed.

Lemma condor_strikes_ordered_witness :
  let ce_strike := fst (strangle_strikes 20025.5 1000) in
  let pe_strike := snd (strangle_strikes 20025.5 1000) in
  hedge_strike_of pe_strike PE = pe_strike - 50
  /\ pe_strike <= ce_strike
  /\ hedge_strike_of ce_strike CE = ce_strike + 50.
Proof.
  apply (condor_strikes_ordered 20025.5 1000).
  intros H. vm_compute in H. discriminate H.
Defined.

(** ** The order of the legs of the strangle *)

Section StrangleOrder.
Variable py : Builtins.
Variable api : Gateway.
Variable config : Config.

Lemma place_short_strangle_legs today investment_amount spot_price s r s' :
  place_short_strangle py api config today investment_amount spot_price s
    = (r, s') ->
  exists reads sells hedges,
    calls s' = calls s ++ reads ++ sells ++ hedges
    /\ Forall (fun c => is_chain_query c = true) reads
    /\ Forall (fun c => is_order_on SELL c = true) sells
    /\ Forall (fun c => is_order_on BUY c = true) hedges
    /\ (length sells <= 2)%nat
    /\ (length hedges <= 2)%nat
    /\ (hedges <> [] -> length (placed sells) = 2%nat)
    /\ (r = Ok true -> length (placed hedges) = 2%nat)
    /\ active_positions s' = active_positions s.
Proof.
  unfold place_short_strangle. run. intros Hrun.
  assert (Hidle : forall lg,
    exists reads sells hedges,
      calls (set_log lg s) = calls s ++ reads ++ sells ++ hedges
      /\ Forall (fun c => is_chain_query c = true) reads
      /\ Forall (fun c => is_order_on SELL c = true) sells
      /\ Forall (fun c => is_order_on BUY c = true) hedges
      /\ (length sells <= 2)%nat
      /\ (length hedges <= 2)%nat
      /\ (hedges <> [] -> length (placed sells) = 2%nat)
      /\ (Ok false = Ok true -> length (placed hedges) = 2%nat)
      /\ active_positions (set_log lg s) = active_positions s).
  { intros lg. exists [], [], []. simpl. rewrite app_nil_r.
    repeat split; auto; try constructor; try discriminate; try lia.
    intros H. contradiction. }
  destruct (DateUtils.get_expiry_date_n_weeks_ahead today
              (sell_expiry_weeks config)) as [sell_expiry|] eqn:Hsd.
  2:{ simpl in Hrun. injection Hrun as <- <-. apply Hidle. }
  destruct (DateUtils.get_expiry_date_n_weeks_ahead today
              (hedge_expiry_weeks config)) as [hedge_expiry|] eqn:Hhd.
  2:{ simpl in Hrun. injection Hrun as <- <-. apply Hidle. }
  exec_chain Hrun E1.
  apply get_option_chain_for_expiry_effects in E1
    as (v1 & new1 & -> & Hc1 & Hq1 & Hp1 & _).
  simpl in Hc1, Hp1.
  exec_chain Hrun E2.
  apply get_option_chain_for_expiry_effects in E2
    as (v2 & new2 & -> & Hc2 & Hq2 & Hp2 & _).
  assert (Hsells : forall sells (st : State),
    calls st = calls s ++ (new1 ++ new2) ++ sells ->
    active_positions st = active_positions s ->
    Forall (fun c => is_order_on SELL c = true) sells ->
    (length sells <= 2)%nat ->
    exists reads sells hedges,
      calls st = calls s ++ reads ++ sells ++ hedges
      /\ Forall (fun c => is_chain_query c = true) reads
      /\ Forall (fun c => is_order_on SELL c = true) sells
      /\ Forall (fun c => is_order_on BUY c = true) hedges
      /\ (length sells <= 2)%nat
      /\ (length hedges <= 2)%nat
      /\ (hedges <> [] -> length (placed sells) = 2%nat)
      /\ (Ok false = Ok true -> length (placed hedges) = 2%nat)
      /\ active_positions st = active_positions s).
  { intros sells st HL Hpos HS Hlen.
    exists (new1 ++ new2), sells, []. rewrite app_nil_r.
    split; [exact HL|].
    split; [apply Forall_app; split; assumption|].
    split; [exact HS|]. split; [constructor|]. split; [exact Hlen|].
    split; [simpl; lia|]. split; [intros H; contradiction|].
    split; [discriminate|exact Hpos]. }
  destruct v1 as [sell_chain|]; [destruct v2 as [hedge_chain|]|].
  2,3: (simpl in Hrun; injection Hrun as <- <-; apply (Hsells []);
        [simpl; chase_calls; rewrite <- ?app_assoc, ?app_nil_r; reflexivity
        | simpl; congruence | constructor | simpl; lia]).
  exec_sell Hrun E3.
  apply _place_sell_order_effects in E3 as (Hp3 & _ & H3).
  simpl in Hp3, H3.
  exec_sell Hrun E4.
  apply _place_sell_order_effects in E4 as (Hp4 & _ & H4).
  leg_cases H3 ce_sell Hct3 resp3 Hresp3 Hc3;
    leg_cases H4 pe_sell Hct4 resp4 Hresp4 Hc4.
  2-9: (simpl in Hrun; injection Hrun as <- <-;
        eapply Hsells;
        [simpl; chase_calls; rewrite <- ?app_assoc; simpl;
         first [reflexivity
               | instantiate (1 := []); rewrite ?app_nil_r; reflexivity]
        | simpl; congruence
        | repeat constructor | simpl; lia]).
  exec_hedge Hrun E5.
  apply _place_hedge_order_effects in E5 as (Hp5 & _ & H5).
  simpl in Hp5, H5.
  exec_hedge Hrun E6.
  apply _place_hedge_order_effects in E6 as (Hp6 & _ & H6).
  simpl in Hp6, H6.
  assert (Hhedges : forall hedges (st : State) b,
    calls st
    = calls s ++ (new1 ++ new2)
      ++ [PlaceOrder
            (sell_order_params ce_sell
               (lot_size config * lots_per_investment config))
            (Some resp3);
          PlaceOrder
            (sell_order_params pe_sell
               (lot_size config * lots_per_investment config))
            (Some resp4)] ++ hedges ->
    active_positions st = active_positions s ->
    Forall (fun c => is_order_on BUY c = true) hedges ->
    (length hedges <= 2)%nat ->
    (b = true -> length (placed hedges) = 2%nat) ->
    exists reads sells hedges,
      calls st = calls s ++ reads ++ sells ++ hedges
      /\ Forall (fun c => is_chain_query c = true) reads
      /\ Forall (fun c => is_order_on SELL c = true) sells
      /\ Forall (fun c => is_order_on BUY c = true) hedges
      /\ (length sells <= 2)%nat
      /\ (length hedges <= 2)%nat
      /\ (hedges <> [] -> length (placed sells) = 2%nat)
      /\ (Ok b = Ok true -> length (placed hedges) = 2%nat)
      /\ active_positions st = active_positions s).
  { intros hedges st b HL Hpos HB Hlen Hb.
    eexists (new1 ++ new2), [_; _], hedges.
    split; [exact HL|].
    split; [apply Forall_app; split; assumption|].
    split; [repeat constructor|]. split; [exact HB|].
    split; [simpl; lia|]. split; [exact Hlen|].
    split; [reflexivity|]. split; [|exact Hpos].
    intros [= ->]. apply Hb. reflexivity. }
  leg_cases H5 ce_hedge Hct5 resp5 Hresp5 Hc5;
    leg_cases H6 pe_hedge Hct6 resp6 Hresp6 Hc6;
    simpl in Hrun; injection Hrun as <- <-;
    eapply Hhedges;
    try (simpl; chase_calls; rewrite <- ?app_assoc; simpl;
         first [reflexivity
               | instantiate (1 := []); rewrite ?app_nil_r; reflexivity]);
    try (simpl; congruence);
    try (repeat constructor; fail);
    try (simpl; lia);
    try discriminate;
    try (intros _; reflexivity).
Qed.
End StrangleOrder.

(** X25: [place_short_strangle] sends its legs in two phases.  After the
    reads of the chain cache come the SELL orders, at most two, and only
    then the hedge BUY orders, at most two; a BUY is sent only when both
    SELL orders were accepted, no SELL follows a BUY, and the answer is
    True only when both BUY orders were accepted.  The ledger is not
    touched. *)
Theorem place_short_strangle_sells_before_hedges
    (py : Builtins) (api : Gateway) (config : Config) (today : Z)
    (investment_amount spot_price : Q) (s : State) :
  let run :=
    place_short_strangle py api config today investment_amount spot_price s in
  exists reads sells hedges,
    calls (snd run) = calls s ++ reads ++ sells ++ hedges
    /\ Forall (fun c => is_chain_query c = true) reads
    /\ Forall (fun c => is_order_on SELL c = true) sells
    /\ Forall (fun c => is_order_on BUY c = true) hedges
    /\ (length sells <= 2)%nat
    /\ (length hedges <= 2)%nat
    /\ (hedges <> [] -> length (placed sells) = 2%nat)
    /\ (fst run = Ok true -> length (placed hedges) = 2%nat)
    /\ active_positions (snd run) = active_positions s.
Proof.
  cbv zeta.
  apply (place_short_strangle_legs py api config today investment_amount
           spot_price s).
  apply surjective_pairing.
Qed.

(** ** The order book *)

(** X26: the two leg helpers never raise, and what they return is what
    they file.  An order comes back exactly as built: PENDING, a MARKET
    order of the quantity asked, on the SELL side at the strike given and
    without the hedge flag for [_place_sell_order], on the BUY side one
    grid step further out and with the hedge flag for
    [_place_hedge_order].  It enters the order book under its id, and an
    accepted order whose answer carries no id, or an empty one, is
    returned without entering the book. *)
Theorem leg_orders_book_keeping (api : Gateway) (chain : OptionChain)
    (strike : Z) (t : OptionType) (q : Z) (s : State) :
  let sell := _place_sell_order api chain strike t q s in
  let hedge := _place_hedge_order api chain strike t q s in
  (exists o,
     fst sell = Ok o
     /\ active_orders (snd sell) = book_after (active_orders s) o
     /\ forall order, o = Some order ->
          ord_side order = SELL /\ ord_is_hedge order = false
          /\ ord_order_type order = MARKET /\ ord_status order = PENDING
          /\ ord_quantity order = q /\ ord_strike_price order = Some strike)
  /\ (exists o,
        fst hedge = Ok o
        /\ active_orders (snd hedge) = book_after (active_orders s) o
        /\ forall order, o = Some order ->
             ord_side order = BUY /\ ord_is_hedge order = true
             /\ ord_order_type order = MARKET /\ ord_status order = PENDING
             /\ ord_quantity order = q
             /\ ord_strike_price order = Some (hedge_strike_of strike t)).
Proof.
  cbv zeta. split.
  - unfold _place_sell_order. run.
    destruct (Dict.get (contracts chain) strike) as [row|]; simpl.
    2:{ exists None. repeat split; auto; discriminate. }
    destruct (row !! value t) as [contract|]; simpl.
    2:{ exists None. repeat split; auto; discriminate. }
    destruct (place_order api (calls s) _) as [resp|]; simpl.
    2:{ exists None. repeat split; auto; discriminate. }
    destruct (orderId resp) as [id|] eqn:Hid;
      [destruct (Py.truthy_str id) eqn:Htr|];
      simpl; eexists (Some _); (split; [reflexivity|]);
      (split; [simpl; rewrite ?Htr; reflexivity|]);
      intros order [= <-]; simpl; repeat split.
  - unfold _place_hedge_order. run.
    destruct (Dict.get (contracts chain) (hedge_strike_of strike t))
      as [row|]; simpl.
    2:{ exists None. repeat split; auto; discriminate. }
    destruct (row !! value t) as [contract|]; simpl.
    2:{ exists None. repeat split; auto; discriminate. }
    destruct (place_order api (calls s) _) as [resp|]; simpl.
    2:{ exists None. repeat split; auto; discriminate. }
    destruct (orderId resp) as [id|] eqn:Hid;
      [destruct (Py.truthy_str id) eqn:Htr|];
      simpl; eexists (Some _); (split; [reflexivity|]);
      (split; [simpl; rewrite ?Htr; reflexivity|]);
      intros order [= <-]; simpl; repeat split.
Qed.

(** ** What a synchronisation rebuilds *)

Section Rebuild.
Variable py : Builtins.
Variable api : Gateway.

Lemma rebuild_loop_keys datas :
  forall s k,
    k ∈ Dict.keys
          (active_positions (snd (for_each datas (rebuild_step py) s)))
    <-> k ∈ Dict.keys (active_positions s)
        \/ k ∈ map pos_symbol (converted_prefix py datas).
Proof.
  induction datas as [|data datas IH]; intros s k; simpl.
  { split; [auto|]. intros [H|H]; [exact H|].
    apply elem_of_nil in H. contradiction. }
  unfold bind. rewrite rebuild_step_run.
  destruct (Position_from_api_response py data) as [p|e]; simpl.
  - rewrite IH. simpl. rewrite Dict_keys_set_elem, elem_of_cons. tauto.
  - split; [auto|]. intros [H|H]; [exact H|].
    apply elem_of_nil in H. contradiction.
Qed.

Lemma _update_positions_keys s datas :
  get_positions api (calls s) = Some datas -> datas <> [] ->
  forall k,
    k ∈ Dict.keys (active_positions (snd (_update_positions py api s)))
    <-> k ∈ map pos_symbol (converted_prefix py datas).
Proof.
  intros Hgp Hne k.
  destruct (_update_positions py api s) as [r s'] eqn:Hrun. simpl.
  rewrite _update_positions_unfold in Hrun.
  unfold bind, logger, modify, try_except, api_get_positions, get_state
    in Hrun.
  cbn beta iota zeta in Hrun. cbn [calls set_log] in Hrun.
  rewrite Hgp in Hrun. destruct datas as [|data datas]; [contradiction|].
  cbn beta iota zeta in Hrun.
  match type of Hrun with
  | context [for_each (data :: datas) (rebuild_step py) ?S1] =>
      pose proof (rebuild_loop_keys (data :: datas) S1 k) as Hkeys;
      destruct (rebuild_loop_spec py (fun _ => True)
                  (fun _ _ _ => I) (data :: datas) S1)
        as (Hr & _); [constructor|constructor|];
      destruct (for_each (data :: datas) (rebuild_step py) S1) as [r2 s2]
  end.
  simpl in Hr, Hkeys.
  assert (Hk2 : k ∈ Dict.keys (active_positions s2)
                <-> k ∈ map pos_symbol (converted_prefix py (data :: datas))).
  { rewrite Hkeys. split; [|auto]. intros [H|H]; [|exact H].
    apply elem_of_nil in H. contradiction. }
  destruct Hr as [->| ->]; cbn beta iota zeta in Hrun.
  - match type of Hrun with
    | context [_update_position_pnl api ?S3] =>
        destruct (_update_position_pnl_spec api (fun _ => True) S3)
          as (Hr4 & _ & _ & _ & Hk4 & _);
          [auto|apply Forall_forall; auto|];
        destruct (_update_position_pnl api S3) as [r4 s4]
    end.
    simpl in Hr4, Hk4. subst r4. injection Hrun as <- <-.
    rewrite Hk4. exact Hk2.
  - injection Hrun as <- <-. exact Hk2.
Qed.
End Rebuild.

(** X27: a synchronisation that receives records rebuilds the ledger from
    nothing: afterwards the symbols of the ledger are those of the records
    converted, which are the records up to the first one whose product
    names no product type.  Positions that were in the ledger and are not
    reported are dropped, and so are the records after one that cannot be
    converted. *)
Theorem _update_positions_rebuilds_converted_prefix (py : Builtins)
    (api : Gateway) (s : State) (datas : list RawPosition) :
  get_positions api (calls s) = Some datas ->
  datas <> [] ->
  forall k,
    k ∈ Dict.keys (active_positions (snd (_update_positions py api s)))
    <-> k ∈ map pos_symbol (converted_prefix py datas).
Proof. apply _update_positions_keys. Qed.

Lemma _update_positions_rebuilds_converted_prefix_witness :
  Dict.keys
    (active_positions
       (snd (_update_positions Example.py Sample.reporting
               Example.far_call_state)))
  = ["NIFTY26NOV21000CE"]
  /\ forall k,
       k ∈ Dict.keys
             (active_positions
                (snd (_update_positions Example.py Sample.reporting
                        Example.far_call_state)))
       <-> k ∈ map pos_symbol
                 (converted_prefix Example.py [Sample.raw_short_call]).
Proof.
  split; [vm_compute; reflexivity|].
  apply (_update_positions_rebuilds_converted_prefix Example.py
           Sample.reporting Example.far_call_state [Sample.raw_short_call]).
  - reflexivity.
  - discriminate.
Defined.
